(** * NDVI tile preprocessing: a shallow embedding of [NDVI.ipynb]

    The notebook merges the raster tiles of one region and year, cuts the
    mosaic into its bands and writes every band whose label carries a
    day-of-year to a file of its own.  This development embeds the
    notebook's functions and states the properties of the specification
    about them.

    Modelling conventions.
    - A Python [str] is a [string]: a sequence of code points below 256.
      On that range the class [\d] of module [re] is exactly ['0'..'9'].
    - A Python [int] is a [Z].  [int(text)] is the mathematical value of a
      decimal numeral of at most [sys.int_max_str_digits] digit characters
      (4300, the interpreter's default, leading zeros counted); on a
      longer numeral it raises [ValueError], as it does on an empty text
      or on a character that is no digit.  The conversions of an [int]
      to decimal text ([str(n)], [f"{n}"], [f"{n:03d}"]) raise [ValueError]
      on more than that many digits as well.  The length of a list and
      the index of a band are below [sys.maxsize] and always print.
    - [None] where a string is expected is [None : option string].
    - Every function that touches the file system, the raster library or
      a [dict] object runs in the monad [M] below: explicit state (the
      [World]) and an outcome that is a value or a raised exception.  What
      the outside world answers (which tiles open, what the mosaic
      operation returns, which paths can be written) is the [Env].
    - [os.makedirs] succeeds or raises what the [Env] says; [os.listdir]
      on a path that [os.path.isdir] accepts is taken to succeed.  The parallel
      driver [process_all_regions_for_ndvi] only maps [process_region] over
      the regions, which share no state, and is not modelled. *)

From Stdlib Require Import ZArith Ascii String List Lia DecimalString DecimalZ
  DecimalFacts.
From stdpp Require Import base option list gmap strings.

Local Open Scope Z_scope.

#[local] Arguments String.append !s1 s2 : simpl nomatch.

(** ** Strings and integers *)

Definition newline : ascii := ascii_of_nat 10.

Definition is_digit (c : ascii) : bool :=
  ((48 <=? nat_of_ascii c) && (nat_of_ascii c <=? 57))%nat.

Fixpoint all_digits (s : string) : bool :=
  match s with
  | EmptyString => true
  | String c s' => is_digit c && all_digits s'
  end.

(** The value of a decimal numeral of any length; [None] on an empty
    text or on a character that is no digit. *)
Definition read_decimal (s : string) : option Z :=
  Z.of_uint <$> NilZero.uint_of_string s.

(** [sys.int_max_str_digits] at its default. *)
Definition int_max_str_digits : Z := 4300.

Definition too_many_digits (s : string) : bool :=
  int_max_str_digits <? Z.of_nat (String.length s).

(** [int(text)] on a decimal numeral; [None] stands for [ValueError]
    (empty text, a character that is no digit, or more digit characters
    than [int_max_str_digits]). *)
Definition py_int (s : string) : option Z :=
  if too_many_digits s then None else read_decimal s.

(** [str(n)], also what [f"{n}"] prints for an [int], when [n] has no
    more digits than [int_max_str_digits]. *)
Definition py_str (n : Z) : string :=
  NilZero.string_of_int (Z.to_int n).

(** [n] has more decimal digits than [int_max_str_digits], the sign not
    counted: its absolute value is [10 ^ int_max_str_digits] or more. *)
Definition too_wide (n : Z) : bool := too_many_digits (py_str (Z.abs n)).

Fixpoint zeros (k : nat) : string :=
  match k with
  | O => EmptyString
  | S k' => String "0" (zeros k')
  end.

(** [f"{n:03d}"]: the sign, then the digits filled with zeros up to a
    total width of three. *)
Definition fmt_03d (n : Z) : string :=
  if n <? 0
  then String "-" (zeros (2 - String.length (py_str (- n))) +:+ py_str (- n))
  else zeros (3 - String.length (py_str n)) +:+ py_str n.

(** [text.endswith(suffix)] *)
Fixpoint drop_string (k : nat) (s : string) : string :=
  match k, s with
  | S k', String _ s' => drop_string k' s'
  | _, _ => s
  end.

Definition endswith (s suffix : string) : bool :=
  (String.length suffix <=? String.length s)%nat &&
  String.eqb (drop_string (String.length s - String.length suffix) s) suffix.

Fixpoint strip_prefix (p s : string) : option string :=
  match p, s with
  | EmptyString, _ => Some s
  | String a p', String b s' => if Ascii.eqb a b then strip_prefix p' s' else None
  | String _ _, EmptyString => None
  end.

(** ** The fragment of [re] the notebook uses

    [rmatch r s] lists the ways [r] matches at the start of [s], in the
    order a backtracking matcher tries them (greedy repetition: longest
    first; alternation: left branch first).  The patterns of the notebook
    have one capturing group, so a match carries one capture. *)

Inductive cclass :=
| Digit                        (* \d *)
| OneOf (cs : list ascii).     (* [...] *)

Inductive regex :=
| Lit (s : string)             (* literal text *)
| Cls (c : cclass)             (* one character of a class *)
| Plus (c : cclass)            (* c+ *)
| Rep (n : nat) (c : cclass)   (* c{n} *)
| Eos                          (* $ *)
| Alt (r1 r2 : regex)          (* r1|r2 *)
| Seq (r1 r2 : regex)          (* r1 r2 *)
| Group (r : regex).           (* (r) *)

Record rmatched := RMatched {
  m_text : string;             (* the text consumed *)
  m_rest : string;             (* what follows it *)
  m_group1 : option string     (* group(1) *)
}.

Definition in_class (c : cclass) (a : ascii) : bool :=
  match c with
  | Digit => is_digit a
  | OneOf cs => existsb (Ascii.eqb a) cs
  end.

Definition cons_text (a : ascii) (m : rmatched) : rmatched :=
  RMatched (String a (m_text m)) (m_rest m) (m_group1 m).

(** all the ways [c+] matches, longest first *)
Fixpoint plus_matches (c : cclass) (s : string) : list rmatched :=
  match s with
  | String a s' =>
      if in_class c a
      then map (cons_text a) (plus_matches c s') ++ [RMatched (String a "") s' None]
      else []
  | EmptyString => []
  end.

Fixpoint rep_matches (n : nat) (c : cclass) (s : string) : list rmatched :=
  match n with
  | O => [RMatched "" s None]
  | S n' =>
      match s with
      | String a s' =>
          if in_class c a then map (cons_text a) (rep_matches n' c s') else []
      | EmptyString => []
      end
  end.

(** [$] without MULTILINE: at the end of the string, and also just before
    a newline that is the last character of the string. *)
Definition at_dollar (s : string) : bool :=
  match s with
  | EmptyString => true
  | String a EmptyString => Ascii.eqb a newline
  | _ => false
  end.

Definition then_match (m1 m2 : rmatched) : rmatched :=
  RMatched (m_text m1 +:+ m_text m2) (m_rest m2)
           (match m_group1 m2 with Some g => Some g | None => m_group1 m1 end).

Fixpoint rmatch (r : regex) (s : string) : list rmatched :=
  match r with
  | Lit l =>
      match strip_prefix l s with
      | Some rest => [RMatched l rest None]
      | None => []
      end
  | Cls c =>
      match s with
      | String a s' => if in_class c a then [RMatched (String a "") s' None] else []
      | EmptyString => []
      end
  | Plus c => plus_matches c s
  | Rep n c => rep_matches n c s
  | Eos => if at_dollar s then [RMatched "" s None] else []
  | Alt r1 r2 => rmatch r1 s ++ rmatch r2 s
  | Seq r1 r2 =>
      flat_map (fun m1 => map (then_match m1) (rmatch r2 (m_rest m1))) (rmatch r1 s)
  | Group r' =>
      map (fun m => RMatched (m_text m) (m_rest m) (Some (m_text m))) (rmatch r' s)
  end.

(** [re.search(r, s)]: the first match at the leftmost position that has
    one; the positions run from 0 to [len(s)] inclusive. *)
Fixpoint re_search (r : regex) (s : string) : option rmatched :=
  match rmatch r s with
  | m :: _ => Some m
  | [] =>
      match s with
      | String _ s' => re_search r s'
      | EmptyString => None
      end
  end.

(** ** Exceptions and outcomes *)

Inductive exn :=
| ValueError (msg : string)
| TypeError
| IndexError
| RasterioIOError (path : string)
| MergeError
| OSError (path : string).

(** the messages of the [ValueError] that [int(text)] and the conversions
    of an [int] to text raise beyond [sys.int_max_str_digits] *)
Definition int_limit_message (digits : nat) : string :=
  "Exceeds the limit (4300 digits) for integer string conversion: value has "
  +:+ py_str (Z.of_nat digits)
  +:+ " digits; use sys.set_int_max_str_digits() to increase the limit".

Definition str_limit_message : string :=
  "Exceeds the limit (4300 digits) for integer string conversion; "
  +:+ "use sys.set_int_max_str_digits() to increase the limit".

Inductive outcome (A : Type) :=
| Ret (a : A)
| Raise (e : exn).
Arguments Ret {A} a.
Arguments Raise {A} e.

(** ** Filename Parser *)

(** r'Syn_VI_fitted(\d+)' *)
Definition doy_marker : string := "Syn_VI_fitted".
Definition doy_pattern : regex := Seq (Lit doy_marker) (Group (Plus Digit)).

(** r'_(\d{4})(?:[\.\-_]|$)' *)
Definition year_separators : list ascii := ["."; "-"; "_"]%char.
Definition year_pattern : regex :=
  Seq (Lit "_") (Seq (Group (Rep 4 Digit)) (Alt (Cls (OneOf year_separators)) Eos)).

(** [int(match.group(1))].  The group of either pattern is a run of
    digits, which [int] refuses only for its length. *)
Definition int_of_group1 (m : rmatched) : outcome (option Z) :=
  match m_group1 m with
  | None => Raise TypeError
  | Some g =>
      match py_int g with
      | Some n => Ret (Some n)
      | None =>
          Raise (ValueError
                   (if too_many_digits g then int_limit_message (String.length g)
                    else "invalid literal for int() with base 10: '" +:+ g +:+ "'"))
      end
  end.

(** [re.search] raises [TypeError] when the subject is [None]. *)
Definition extract_doy_from_band_name (band_name : option string) : outcome (option Z) :=
  match band_name with
  | None => Raise TypeError
  | Some s =>
      match re_search doy_pattern s with
      | Some m => int_of_group1 m
      | None => Ret None
      end
  end.

Definition extract_year_from_filename (filename : string) : outcome (option Z) :=
  match re_search year_pattern filename with
  | Some m => int_of_group1 m
  | None => Ret None
  end.

(** [text.startswith(prefix)] *)
Definition startswith (s p : string) : bool :=
  match strip_prefix p s with Some _ => true | None => false end.

(** [os.path.join] (POSIX): a component that starts with [/] restarts the
    path; otherwise it is appended, after a [/] unless the path so far is
    empty or already ends with one. *)
Definition path_join2 (path b : string) : string :=
  if startswith b "/" then b
  else if String.eqb path "" || endswith path "/" then path +:+ b
  else path +:+ "/" +:+ b.

Definition path_join (a : string) (p : list string) : string :=
  fold_left path_join2 p a.

(** ** Rasters, metadata and the world *)

(** Values a metadata [dict] holds.  [VObj] is an object of the raster
    library (a CRS, an affine transform) the notebook only passes on. *)
Inductive value :=
| VNone
| VInt (n : Z)
| VStr (s : string)
| VObj (id : nat).

(** one band: a 2-D array, row by row *)
Definition band : Type := list (list Z).

(** a 3-D pixel array of shape [(length nd_bands, nd_height, nd_width)] *)
Record ndarray := {
  nd_height : Z;
  nd_width : Z;
  nd_bands : list band
}.

(** what an opened tile shows: [src.descriptions] (a tuple with [None] for a
    band without description) and [src.meta] *)
Record dataset := {
  ds_descriptions : list (option string);
  ds_meta : gmap string value
}.

(** a file written through [rasterio.open(path, "w", **profile)] followed
    by [dest.write(data, 1)] *)
Record raster_file := {
  rf_profile : gmap string value;
  rf_band1 : band
}.

(** The answers of the outside world. *)
Record Env := {
  env_open : string -> option dataset;                  (* None: the open raises *)
  env_merge : list dataset -> option (ndarray * value); (* None: the mosaic raises *)
  env_writable : string -> bool;
  env_isdir : string -> bool;
  env_listdir : string -> list string;
  env_makedirs : string -> option exn                   (* Some e: the call raises e *)
}.

Record World := {
  w_dicts : gmap nat (gmap string value);   (* dict objects, by address *)
  w_open : list nat;                        (* raster handles now open *)
  w_opened : nat;                           (* handles opened so far *)
  w_written : list (string * raster_file);  (* files written, oldest first *)
  w_dirs : list string;                     (* directories made *)
  w_stdout : list string                    (* lines printed *)
}.

Definition M (A : Type) : Type := World -> outcome A * World.

Definition ret {A} (a : A) : M A := fun w => (Ret a, w).
Definition raise {A} (e : exn) : M A := fun w => (Raise e, w).
Definition bind {A B} (m : M A) (k : A -> M B) : M B :=
  fun w =>
    match m w with
    | (Ret a, w') => k a w'
    | (Raise e, w') => (Raise e, w')
    end.
Definition lift {A} (o : outcome A) : M A := fun w => (o, w).

Notation "'let*' x ':=' m 'in' k" := (bind m (fun x => k))
  (at level 10, x name, m at level 100, k at level 200).
Notation "'let*' ' p ':=' m 'in' k" := (bind m (fun p => k))
  (at level 10, p pattern, m at level 100, k at level 200).
Notation "'do' m 'then' k" := (bind m (fun _ => k))
  (at level 10, m at level 100, k at level 200).

(** [for x in xs: body(x)] *)
Fixpoint for_each {A} (xs : list A) (body : A -> M unit) : M unit :=
  match xs with
  | [] => ret tt
  | x :: xs' => do body x then for_each xs' body
  end.

(** the check every conversion of the [int] [n] to decimal text starts
    with *)
Definition check_str_digits (n : Z) : M unit :=
  if too_wide n then raise (ValueError str_limit_message) else ret tt.

Definition print (line : string) : M unit :=
  fun w => (Ret tt,
            {| w_dicts := w_dicts w; w_open := w_open w; w_opened := w_opened w;
               w_written := w_written w; w_dirs := w_dirs w;
               w_stdout := w_stdout w ++ [line] |}).

(** *** dict objects *)

Definition dict_at (w : World) (addr : nat) : gmap string value :=
  default ∅ (w_dicts w !! addr).

(** [d.update({k1: v1, ...})] on a plain mapping *)
Definition update_items (items : list (string * value)) (d : gmap string value)
  : gmap string value :=
  fold_left (fun acc kv => <[kv.1 := kv.2]> acc) items d.

Definition set_dict (addr : nat) (d : gmap string value) (w : World) : World :=
  {| w_dicts := <[addr := d]> (w_dicts w); w_open := w_open w;
     w_opened := w_opened w; w_written := w_written w; w_dirs := w_dirs w;
     w_stdout := w_stdout w |}.

(** a new dict object (as [meta.copy()] makes one) *)
Definition dict_new (d : gmap string value) : M nat :=
  fun w => let addr := fresh (dom (w_dicts w)) in (Ret addr, set_dict addr d w).

(** [obj.update({...})]: the object at [addr] is changed in place *)
Definition dict_update (addr : nat) (items : list (string * value)) : M unit :=
  fun w => (Ret tt, set_dict addr (update_items items (dict_at w addr)) w).

(** reading the items of the object, as [**obj] does *)
Definition dict_items (addr : nat) : M (gmap string value) :=
  fun w => (Ret (dict_at w addr), w).

(** *** The raster library *)

Section Pipeline.

Variable env : Env.

(** [rasterio.open(path)]: a new handle on the tile, or the open raises. *)
Definition rio_open (path : string) : M (nat * dataset) :=
  fun w =>
    match env_open env path with
    | None => (Raise (RasterioIOError path), w)
    | Some ds =>
        let h := w_opened w in
        (Ret (h, ds),
         {| w_dicts := w_dicts w; w_open := w_open w ++ [h]; w_opened := S h;
            w_written := w_written w; w_dirs := w_dirs w; w_stdout := w_stdout w |})
    end.

(** [src.close()] *)
Definition rio_close (h : nat) : M unit :=
  fun w =>
    (Ret tt,
     {| w_dicts := w_dicts w; w_open := filter (fun h' => h' ≠ h) (w_open w);
        w_opened := w_opened w; w_written := w_written w; w_dirs := w_dirs w;
        w_stdout := w_stdout w |}).

(** [merge(sources)] of [rasterio.merge] *)
Definition rio_merge (srcs : list (nat * dataset)) : M (ndarray * value) :=
  match env_merge env (map snd srcs) with
  | Some r => ret r
  | None => raise MergeError
  end.

(** [with rasterio.open(path, "w", **profile) as dest: dest.write(data, 1)].
    The [with] block closes [dest] on every path, so the step leaves no
    handle open; it raises when the file cannot be created. *)
Definition rio_write (path : string) (profile : gmap string value) (data : band)
  : M unit :=
  fun w =>
    if env_writable env path
    then (Ret tt,
          {| w_dicts := w_dicts w; w_open := w_open w; w_opened := S (w_opened w);
             w_written := w_written w ++ [(path, {| rf_profile := profile; rf_band1 := data |})];
             w_dirs := w_dirs w; w_stdout := w_stdout w |})
    else (Raise (RasterioIOError path), w).

(** [os.makedirs(path, exist_ok=True)] *)
Definition makedirs (path : string) : M unit :=
  fun w =>
    match env_makedirs env path with
    | Some e => (Raise e, w)
    | None =>
        (Ret tt,
         {| w_dicts := w_dicts w; w_open := w_open w; w_opened := w_opened w;
            w_written := w_written w; w_dirs := w_dirs w ++ [path];
            w_stdout := w_stdout w |})
    end.

(** ** Band Extractor/Writer *)

Definition DEFAULT_CRS : value := VStr "EPSG:4326".

(** [band_descriptions[band_idx]]: [TypeError] on [None], [IndexError]
    past the end of the tuple. *)
Definition subscript (band_descriptions : option (list (option string))) (i : nat)
  : M (option string) :=
  match band_descriptions with
  | None => raise TypeError
  | Some l =>
      match l !! i with
      | Some x => ret x
      | None => raise IndexError
      end
  end.

(** [mosaic[band_idx, :, :]] *)
Definition band_slice (mosaic : ndarray) (i : nat) : M band :=
  match nd_bands mosaic !! i with
  | Some b => ret b
  | None => raise IndexError
  end.

(** [f"NDVI_{region_name}_{year}_{doy:03d}.tif"], once [year] and [doy]
    have passed [check_str_digits] *)
Definition band_file_name (region_name : string) (year doy : Z) : string :=
  "NDVI_" +:+ region_name +:+ "_" +:+ py_str year +:+ "_" +:+ fmt_03d doy +:+ ".tif".

Definition band_profile_items (mosaic : ndarray) (crs : value) : list (string * value) :=
  [("driver", VStr "GTiff"); ("height", VInt (nd_height mosaic));
   ("width", VInt (nd_width mosaic)); ("count", VInt 1);
   ("dtype", VStr "int16"); ("crs", crs)].

Definition save_band (mosaic : ndarray) (out_meta : nat)
    (band_descriptions : option (list (option string)))
    (output_dir : string) (year : Z) (region_name : string) (crs : value)
    (band_idx : nat) : M unit :=
  let* band_description := subscript band_descriptions band_idx in
  let* doy := lift (extract_doy_from_band_name band_description) in
  match doy with
  | None =>
      print ("DOY value could not be extracted from band "
             +:+ py_str (Z.of_nat band_idx + 1) +:+ ". "
             +:+ default "None" band_description)
  | Some doy =>
      do check_str_digits year then
      do check_str_digits doy then
      let file_name := band_file_name region_name year doy in
      let output_file := path_join output_dir [file_name] in
      let* band_data := band_slice mosaic band_idx in
      do dict_update out_meta (band_profile_items mosaic crs) then
      let* profile := dict_items out_meta in
      do rio_write output_file profile band_data then
      print ("Saved: " +:+ output_file)
  end.

Definition process_and_save_bands (mosaic : ndarray) (out_meta : nat)
    (band_descriptions : option (list (option string)))
    (output_dir : string) (year : Z) (region_name : string) (crs : value)
  : M unit :=
  let band_count := length (nd_bands mosaic) in
  for_each (seq 0 band_count)
    (save_band mosaic out_meta band_descriptions output_dir year region_name crs).

(** ** Tile Merger *)

(** the loop that opens the tiles: the handles so far and the labels taken
    from the first source that was opened *)
Fixpoint open_tiles (tiff_files : list string)
    (src_files_to_mosaic : list (nat * dataset))
    (band_descriptions : option (list (option string)))
  : M (list (nat * dataset) * option (list (option string))) :=
  match tiff_files with
  | [] => ret (src_files_to_mosaic, band_descriptions)
  | tif_file :: rest =>
      let* src := rio_open tif_file in
      let band_descriptions' :=
        match band_descriptions with
        | None => Some (ds_descriptions (snd src))
        | Some _ => band_descriptions
        end in
      open_tiles rest (src_files_to_mosaic ++ [src]) band_descriptions'
  end.

Definition merge_tiff_files (tiff_files : list string)
  : M (ndarray * nat * option (list (option string))) :=
  if (length tiff_files =? 0)%nat
  then raise (ValueError "No TIFF files to merge.")
  else
    let* '(src_files_to_mosaic, band_descriptions) := open_tiles tiff_files [] None in
    let* '(mosaic, out_trans) := rio_merge src_files_to_mosaic in
    let* first :=
      match src_files_to_mosaic with
      | src :: _ => ret src
      | [] => raise IndexError
      end in
    let* out_meta := dict_new (ds_meta (snd first)) in
    do dict_update out_meta [("transform", out_trans)] then
    do for_each src_files_to_mosaic (fun src => rio_close (fst src)) then
    ret (mosaic, out_meta, band_descriptions).

(** ** One region and year *)

Definition process_ndvi_for_region (region_name : string) (year : Z)
    (tiff_files : list string) (output_dir : string) (crs : value) : M unit :=
  do check_str_digits year then
  do print ("Merging " +:+ py_str (Z.of_nat (length tiff_files)) +:+ " TIF files for "
            +:+ py_str year +:+ " in region: " +:+ region_name) then
  let* '(mosaic, out_meta, band_descriptions) := merge_tiff_files tiff_files in
  do dict_update out_meta [("crs", crs); ("dtype", VStr "int16")] then
  do process_and_save_bands mosaic out_meta band_descriptions output_dir year
       region_name crs then
  print ("Completed processing for " +:+ py_str year +:+ " in region: " +:+ region_name).

(** ** Region Orchestrator *)

(** the truth value of [year] in [if year:] *)
Definition truthy (year : option Z) : bool :=
  match year with
  | None => false
  | Some n => negb (n =? 0)
  end.

(** [d.setdefault(year, []).append(path)] on a dict that keeps the order
    in which its keys were first inserted *)
Fixpoint setdefault_append (year : Z) (path : string) (d : list (Z * list string))
  : list (Z * list string) :=
  match d with
  | [] => [(year, [path])]
  | (y, paths) :: d' =>
      if y =? year then (y, paths ++ [path]) :: d'
      else (y, paths) :: setdefault_append year path d'
  end.

(** the grouping loop of [process_region] over the directory listing; the
    branch for [None] under a true test is never taken, [None] being false *)
Fixpoint group_by_year (region_path : string) (listing : list string)
    (tiff_files_by_year : list (Z * list string))
  : outcome (list (Z * list string)) :=
  match listing with
  | [] => Ret tiff_files_by_year
  | filename :: rest =>
      if endswith filename ".tif"
      then
        match extract_year_from_filename filename with
        | Raise e => Raise e
        | Ret year =>
            if truthy year
            then
              match year with
              | Some y =>
                  group_by_year region_path rest
                    (setdefault_append y (path_join region_path [filename])
                       tiff_files_by_year)
              | None => group_by_year region_path rest tiff_files_by_year
              end
            else group_by_year region_path rest tiff_files_by_year
        end
      else group_by_year region_path rest tiff_files_by_year
  end.

Definition process_region (base_input_dir base_output_dir region_name : string)
  : M unit :=
  let region_path := path_join base_input_dir [region_name] in
  if negb (env_isdir env region_path) then ret tt
  else
    do print ("Processing region: " +:+ region_name) then
    let* tiff_files_by_year :=
      lift (group_by_year region_path (env_listdir env region_path) []) in
    for_each tiff_files_by_year (fun '(year, tiff_files) =>
      do check_str_digits year then
      do print ("Processing " +:+ py_str year +:+ " for region " +:+ region_name
                +:+ " with " +:+ py_str (Z.of_nat (length tiff_files)) +:+ " files.") then
      let output_dir :=
        path_join base_output_dir [region_name; "preprocessed"; py_str year] in
      do makedirs output_dir then
      process_ndvi_for_region region_name year tiff_files output_dir DEFAULT_CRS).

End Pipeline.

(** ** The region list *)

(** [[folder_name for folder_name in os.listdir(base_input_dir)
      if os.path.isdir(os.path.join(base_input_dir, folder_name))]] *)
Definition target_regions (env : Env) (base_input_dir : string) : list string :=
  List.filter (fun folder_name => env_isdir env (path_join base_input_dir [folder_name]))
              (env_listdir env base_input_dir).

(** * Vocabulary of the statements *)

(** the text does not go on with a digit *)
Definition no_digit_ahead (s : string) : Prop :=
  match s with
  | EmptyString => True
  | String c _ => is_digit c = false
  end.

(** [s] has the marker at offset [length pre], and [ds] is the run of digits
    that follows it *)
Definition doy_run (s pre ds post : string) : Prop :=
  s = pre +:+ doy_marker +:+ ds +:+ post /\ ds <> "" /\
  all_digits ds = true /\ no_digit_ahead post.

Definition is_separator (c : ascii) : bool := existsb (Ascii.eqb c) year_separators.

(** the text is over, or goes on with [.], [-] or [_] *)
Definition separator_or_end (post : string) : Prop :=
  match post with
  | EmptyString => True
  | String c _ => is_separator c = true
  end.

(** what the pattern accepts after the four digits: the above, and also a
    newline that is the last character of the text *)
Definition year_bound (post : string) : Prop :=
  separator_or_end post \/ post = String newline "".

(** the two parts of [year_pattern] after the underscore *)
Definition year_tail : regex := Alt (Cls (OneOf year_separators)) Eos.
Definition year_body : regex := Seq (Group (Rep 4 Digit)) year_tail.

(** [s] has an underscore at offset [length pre], then the four digits
    [ds], then a bound the pattern accepts *)
Definition year_run (s pre ds post : string) : Prop :=
  s = pre +:+ "_" +:+ ds +:+ post /\ String.length ds = 4%nat /\
  all_digits ds = true /\ year_bound post.

(** the same with the bound as the specification words it: a separator or
    the end of the string *)
Definition year_run_claimed (s pre ds post : string) : Prop :=
  s = pre +:+ "_" +:+ ds +:+ post /\ String.length ds = 4%nat /\
  all_digits ds = true /\ separator_or_end post.

(** the value the last item for key [k] carries, if there is one *)
Fixpoint last_value (k : string) (items : list (string * value)) : option value :=
  match items with
  | [] => None
  | (k', v) :: rest =>
      match last_value k rest with
      | Some v' => Some v'
      | None => if String.eqb k' k then Some v else None
      end
  end.

(** the profile a band is written with *)
Definition band_profile (mosaic : ndarray) (crs : value) (d : gmap string value)
  : gmap string value :=
  update_items (band_profile_items mosaic crs) d.

(** the path [process_and_save_bands] writes the band of day [doy] to *)
Definition band_path (output_dir : string) (year : Z) (region_name : string) (doy : Z)
  : string :=
  path_join output_dir [band_file_name region_name year doy].

(** the world after a band was written to [path] *)
Definition saved (mosaic : ndarray) (out_meta : nat) (crs : value) (w : World)
    (path : string) (data : band) : World :=
  let profile := band_profile mosaic crs (dict_at w out_meta) in
  {| w_dicts := <[out_meta := profile]> (w_dicts w);
     w_open := w_open w;
     w_opened := S (w_opened w);
     w_written := w_written w ++ [(path, {| rf_profile := profile; rf_band1 := data |})];
     w_dirs := w_dirs w;
     w_stdout := w_stdout w ++ ["Saved: " +:+ path] |}.

(** the world after a band was skipped with a printed line *)
Definition skipped (w : World) (line : string) : World :=
  {| w_dicts := w_dicts w; w_open := w_open w; w_opened := w_opened w;
     w_written := w_written w; w_dirs := w_dirs w;
     w_stdout := w_stdout w ++ [line] |}.

(** the sources a run of successful opens yields: handles numbered from
    the count of handles opened before *)
Fixpoint number_from (h : nat) (dss : list dataset) : list (nat * dataset) :=
  match dss with
  | [] => []
  | d :: rest => (h, d) :: number_from (S h) rest
  end.

Definition opened (w : World) (n : nat) : World :=
  {| w_dicts := w_dicts w; w_open := w_open w ++ seq (w_opened w) n;
     w_opened := (w_opened w + n)%nat; w_written := w_written w;
     w_dirs := w_dirs w; w_stdout := w_stdout w |}.

Definition close_handles (hs : list nat) (open : list nat) : list nat :=
  fold_left (fun l h => filter (fun h' => h' ≠ h) l) hs open.

Definition closed (w : World) (hs : list nat) : World :=
  {| w_dicts := w_dicts w; w_open := close_handles hs (w_open w);
     w_opened := w_opened w; w_written := w_written w;
     w_dirs := w_dirs w; w_stdout := w_stdout w |}.

Definition first_labels (bd : option (list (option string))) (dss : list dataset)
  : option (list (option string)) :=
  match bd, dss with
  | Some _, _ => bd
  | None, d :: _ => Some (ds_descriptions d)
  | None, [] => None
  end.

(** the paths grouped under [year] *)
Fixpoint files_of_year (year : Z) (d : list (Z * list string)) : list string :=
  match d with
  | [] => []
  | (y, paths) :: d' => if y =? year then paths else files_of_year year d'
  end.

(** [filename] parses to the year [year], and that year is not zero *)
Definition names_year (year : Z) (filename : string) : bool :=
  match extract_year_from_filename filename with
  | Ret (Some n) => (n =? year) && negb (n =? 0)
  | _ => false
  end.

(** what the loop of [process_and_save_bands] writes for band [i]: one file
    when the label is a string that carries a day-of-year, nothing otherwise *)
Definition band_output (mosaic : ndarray) (labels : list (option string))
    (output_dir : string) (year : Z) (region_name : string)
    (profile : gmap string value) (i : nat) : list (string * raster_file) :=
  match labels !! i, nd_bands mosaic !! i with
  | Some (Some s), Some data =>
      match extract_doy_from_band_name (Some s) with
      | Ret (Some doy) =>
          [(band_path output_dir year region_name doy,
            {| rf_profile := profile; rf_band1 := data |})]
      | _ => []
      end
  | _, _ => []
  end.

Definition band_outputs (mosaic : ndarray) (labels : list (option string))
    (output_dir : string) (year : Z) (region_name : string)
    (profile : gmap string value) (idxs : list nat) : list (string * raster_file) :=
  flat_map (band_output mosaic labels output_dir year region_name profile) idxs.

(** the content of [path] after the writes of a log: the last write wins *)
Fixpoint file_at (log : list (string * raster_file)) (path : string)
  : option raster_file :=
  match log with
  | [] => None
  | (p, f) :: rest =>
      match file_at rest path with
      | Some f' => Some f'
      | None => if String.eqb p path then Some f else None
      end
  end.

(** every open handle was handed out by the counter of the world *)
Definition handles_known (w : World) : Prop :=
  forall h, h ∈ w_open w -> (h < w_opened w)%nat.

(** the world after [dict_update] of the caller's dict with the band profile *)
Definition profiled (mosaic : ndarray) (out_meta : nat) (crs : value) (w : World)
  : World :=
  set_dict out_meta (band_profile mosaic crs (dict_at w out_meta)) w.

(** the value of a decimal numeral, digit by digit from the left *)
Fixpoint decimal_value (acc : Z) (s : string) : Z :=
  match s with
  | EmptyString => acc
  | String c rest => decimal_value (10 * acc + (Z.of_nat (nat_of_ascii c) - 48)) rest
  end.

(** the same on the digits of the standard library *)
Fixpoint uint_value (acc : Z) (d : Decimal.uint) : Z :=
  match d with
  | Decimal.Nil => acc
  | Decimal.D0 l => uint_value (10 * acc + 0) l
  | Decimal.D1 l => uint_value (10 * acc + 1) l
  | Decimal.D2 l => uint_value (10 * acc + 2) l
  | Decimal.D3 l => uint_value (10 * acc + 3) l
  | Decimal.D4 l => uint_value (10 * acc + 4) l
  | Decimal.D5 l => uint_value (10 * acc + 5) l
  | Decimal.D6 l => uint_value (10 * acc + 6) l
  | Decimal.D7 l => uint_value (10 * acc + 7) l
  | Decimal.D8 l => uint_value (10 * acc + 8) l
  | Decimal.D9 l => uint_value (10 * acc + 9) l
  end.

(** the last character of a text *)
Fixpoint last_char (s : string) : option ascii :=
  match s with
  | EmptyString => None
  | String c EmptyString => Some c
  | String _ rest => last_char rest
  end.

(** [filename] parses to the year [year] *)
Definition parses_to_year (year : Z) (filename : string) : bool :=
  match extract_year_from_filename filename with
  | Ret (Some n) => n =? year
  | _ => false
  end.

(** what the grouping keeps of a dict: distinct keys, no empty group, and
    years from 1 to 9999 *)
Definition well_grouped (d : list (Z * list string)) : Prop :=
  NoDup (map fst d) /\
  Forall (fun yf => snd yf <> [] /\ 1 <= fst yf <= 9999) d.

(** what no step of the band loop changes, whatever its outcome: the open
    handles, the directories, the dicts other than the caller's, and the
    files already written *)
Definition untouched (out_meta : nat) (w w1 : World) : Prop :=
  w_open w1 = w_open w /\ w_dirs w1 = w_dirs w /\
  (forall addr, addr <> out_meta -> w_dicts w1 !! addr = w_dicts w !! addr) /\
  (exists added, w_written w1 = w_written w ++ added).

(** * Inputs used as witnesses and counterexamples *)


(** the marker and 4301 zeros: one digit more than [int] reads *)
Definition long_zero_label : string := doy_marker +:+ zeros 4301.

(** what [int] says of the 4301 zeros *)
Definition long_zero_message : string :=
  "Exceeds the limit (4300 digits) for integer string conversion: value has 4301 "
  +:+ "digits; use sys.set_int_max_str_digits() to increase the limit".

Definition all_writable : Env :=
  {| env_open := fun _ => None; env_merge := fun _ => None;
     env_writable := fun _ => true; env_isdir := fun _ => false;
     env_listdir := fun _ => [];
     env_makedirs := fun _ => None |}.

Definition empty_world : World :=
  {| w_dicts := ∅; w_open := []; w_opened := 0; w_written := [];
     w_dirs := []; w_stdout := [] |}.

Definition tile_meta : gmap string value :=
  <["driver" := VStr "HFA"]> (<["count" := VInt 2]> (<["nodata" := VInt (-32768)]> ∅)).

Definition world_with_meta : World :=
  {| w_dicts := <[0%nat := tile_meta]> ∅; w_open := []; w_opened := 0; w_written := [];
     w_dirs := []; w_stdout := [] |}.

Definition one_band : ndarray :=
  {| nd_height := 1; nd_width := 2; nd_bands := [[[10; 20]]] |}.

Definition tile_a : dataset :=
  {| ds_descriptions := [Some "Syn_VI_fitted001"; Some "Syn_VI_fitted017"];
     ds_meta := tile_meta |}.

Definition tile_b : dataset :=
  {| ds_descriptions := [Some "quality_flag"; None]; ds_meta := ∅ |}.

Definition open_a_b (path : string) : option dataset :=
  if String.eqb path "a.tif" then Some tile_a
  else if String.eqb path "b.tif" then Some tile_b
  else None.

Definition two_bands : ndarray :=
  {| nd_height := 1; nd_width := 2; nd_bands := [[[10; 20]]; [[30; 40]]] |}.

Definition two_tiles : Env :=
  {| env_open := open_a_b; env_merge := fun _ => Some (two_bands, VObj 7);
     env_writable := fun _ => true; env_isdir := fun _ => true;
     env_listdir := fun _ => ["a.tif"; "b.tif"];
     env_makedirs := fun _ => None |}.

Definition second_tile_unreadable : Env :=
  {| env_open := fun path => if String.eqb path "a.tif" then Some tile_a else None;
     env_merge := fun _ => Some (two_bands, VObj 7);
     env_writable := fun _ => true; env_isdir := fun _ => true;
     env_listdir := fun _ => ["a.tif"; "b.tif"];
     env_makedirs := fun _ => None |}.

Definition mosaic_raises : Env :=
  {| env_open := open_a_b; env_merge := fun _ => None;
     env_writable := fun _ => true; env_isdir := fun _ => true;
     env_listdir := fun _ => ["a.tif"; "b.tif"];
     env_makedirs := fun _ => None |}.

Definition no_tiles_dir : Env :=
  {| env_open := fun _ => None; env_merge := fun _ => None;
     env_writable := fun _ => true; env_isdir := fun _ => true;
     env_listdir := fun _ => ["readme.txt"; "notes_2021.csv"];
     env_makedirs := fun _ => None |}.

Definition only_first_writable : Env :=
  {| env_open := fun _ => None; env_merge := fun _ => None;
     env_writable := fun path => String.eqb path "out/NDVI_R_2020_001.tif";
     env_isdir := fun _ => true; env_listdir := fun _ => [];
     env_makedirs := fun _ => None |}.

Definition unreadable_tiles : Env :=
  {| env_open := fun _ => None; env_merge := fun _ => None;
     env_writable := fun _ => true; env_isdir := fun _ => true;
     env_listdir := fun _ => ["t_2020.tif"; "t_2021.tif"];
     env_makedirs := fun _ => None |}.

Definition read_only_output : Env :=
  {| env_open := fun _ => None; env_merge := fun _ => None;
     env_writable := fun _ => false; env_isdir := fun _ => true;
     env_listdir := fun _ => ["t_2020.tif"; "t_2021.tif"];
     env_makedirs := fun path => Some (OSError path) |}.

Definition regions_and_files : Env :=
  {| env_open := fun _ => None; env_merge := fun _ => None;
     env_writable := fun _ => true;
     env_isdir := fun path => String.eqb path "in/Kyiv" || String.eqb path "in/Lviv";
     env_listdir := fun _ => ["Kyiv"; "readme.txt"; "Lviv"];
     env_makedirs := fun _ => None |}.

(** * Properties *)

(** ** The parsers on sample names *)

Example extract_doy_001 :
  extract_doy_from_band_name (Some "Syn_VI_fitted001") = Ret (Some 1).
Proof. reflexivity. Qed.

Example extract_doy_inside :
  extract_doy_from_band_name (Some "b3_Syn_VI_fitted045_smooth") = Ret (Some 45).
Proof. reflexivity. Qed.

Example extract_doy_absent :
  extract_doy_from_band_name (Some "Syn_VI_fitted_x1") = Ret None.
Proof. reflexivity. Qed.

Example extract_year_dot :
  extract_year_from_filename "tile_03_2021.tif" = Ret (Some 2021).
Proof. reflexivity. Qed.

Example extract_year_five_digits :
  extract_year_from_filename "tile_20210.tif" = Ret None.
Proof. reflexivity. Qed.

Example py_int_examples :
  py_int "2021" = Some 2021 /\ py_int "007" = Some 7 /\ py_int "0" = Some 0 /\
  py_int "" = None /\ py_int "12a" = None /\
  py_str 0 = "0" /\ py_str 2020 = "2020" /\ py_str 45 = "45".
Proof. repeat split; reflexivity. Qed.

Example path_join_examples :
  path_join "out" ["a.tif"] = "out/a.tif" /\ path_join "out/" ["a.tif"] = "out/a.tif" /\
  path_join "" ["a.tif"] = "a.tif" /\ path_join "out" ["/abs.tif"] = "/abs.tif" /\
  path_join "base" ["R"; "preprocessed"; py_str 2020] = "base/R/preprocessed/2020".
Proof. repeat split; reflexivity. Qed.

Example fmt_03d_examples :
  fmt_03d 0 = "000" /\ fmt_03d 7 = "007" /\ fmt_03d 45 = "045" /\
  fmt_03d 366 = "366" /\ fmt_03d 1234 = "1234" /\ fmt_03d (-5) = "-05".
Proof. repeat split; reflexivity. Qed.

(** ** Strings *)

Lemma append_assoc (a b c : string) : (a +:+ b) +:+ c = a +:+ b +:+ c.
Proof. induction a as [|x a IH]; simpl; [reflexivity | now rewrite IH]. Qed.

Lemma append_empty_r (a : string) : a +:+ "" = a.
Proof. induction a as [|x a IH]; simpl; [reflexivity | now rewrite IH]. Qed.

Lemma length_append (a b : string) :
  String.length (a +:+ b) = (String.length a + String.length b)%nat.
Proof. induction a as [|x a IH]; simpl; [reflexivity | now rewrite IH]. Qed.

Lemma length_zeros (k : nat) : String.length (zeros k) = k.
Proof. induction k as [|k IH]; simpl; [reflexivity | now rewrite IH]. Qed.

Lemma all_digits_zeros (k : nat) : all_digits (zeros k) = true.
Proof. induction k as [|k IH]; simpl; [reflexivity | exact IH]. Qed.


(** two ways to cut one text: the longer front goes on into the other rest *)
Lemma append_split_shorter (p1 x p2 y : string) :
  p1 +:+ x = p2 +:+ y -> (String.length p2 < String.length p1)%nat ->
  exists c q, p1 = p2 +:+ String c q /\ y = String c q +:+ x.
Proof.
  revert p1; induction p2 as [|a p2 IH]; intros p1 E L.
  - destruct p1 as [|c q]; [simpl in L; lia |]. exists c, q. simpl in *. now split.
  - destruct p1 as [|b p1]; [simpl in L; lia |].
    simpl in E. injection E as -> E. simpl in L.
    destruct (IH p1 E ltac:(lia)) as (c & q & -> & ->).
    exists c, q. now split.
Qed.

Lemma strip_prefix_append (p s : string) : strip_prefix p (p +:+ s) = Some s.
Proof.
  induction p as [|a p IH]; simpl; [reflexivity |].
  now rewrite Ascii.eqb_refl.
Qed.

Lemma strip_prefix_Some (p s rest : string) :
  strip_prefix p s = Some rest -> s = p +:+ rest.
Proof.
  revert s; induction p as [|a p IH]; intros s H; simpl in *.
  - congruence.
  - destruct s as [|b s]; [discriminate |].
    destruct (Ascii.eqb a b) eqn:E; [| discriminate].
    apply Ascii.eqb_eq in E; subst b. now rewrite (IH s H).
Qed.

(** ** Decimal numerals *)

Lemma uint_of_char_digit (a : ascii) :
  is_digit a = true ->
  exists f : Decimal.uint -> Decimal.uint,
    (forall d, uint_of_char a (Some d) = Some (f d)).
Proof.
  destruct a as [[] [] [] [] [] [] [] []]; intros H; try discriminate H;
    eexists; intros d; reflexivity.
Qed.

Lemma uint_of_string_digits (s : string) :
  all_digits s = true -> exists d, NilEmpty.uint_of_string s = Some d.
Proof.
  induction s as [|a s IH]; simpl; intros H.
  - eexists; reflexivity.
  - apply andb_prop in H as [Ha Hs].
    destruct (IH Hs) as [d Hd]. rewrite Hd.
    destruct (uint_of_char_digit a Ha) as [f Hf]. rewrite Hf. eauto.
Qed.

Lemma of_uint_acc_value (d : Decimal.uint) (acc : positive) :
  Z.pos (Pos.of_uint_acc d acc) = uint_value (Z.pos acc) d.
Proof.
  revert acc; induction d; intros acc; simpl; try reflexivity;
    rewrite IHd; f_equal; lia.
Qed.

Lemma of_uint_value (d : Decimal.uint) : Z.of_uint d = uint_value 0 d.
Proof.
  unfold Z.of_uint. induction d; simpl; try reflexivity; try exact IHd;
    rewrite of_uint_acc_value; reflexivity.
Qed.

Lemma uint_of_char_value (a : ascii) (d : Decimal.uint) :
  is_digit a = true ->
  exists d', uint_of_char a (Some d) = Some d' /\
             forall acc, uint_value acc d'
                         = uint_value (10 * acc + (Z.of_nat (nat_of_ascii a) - 48)) d.
Proof.
  destruct a as [[] [] [] [] [] [] [] []]; intros H; try discriminate H;
    eexists; (split; [reflexivity | intros acc; reflexivity]).
Qed.

Lemma uint_of_string_value (s : string) :
  all_digits s = true ->
  exists d, NilEmpty.uint_of_string s = Some d /\
            forall acc, uint_value acc d = decimal_value acc s.
Proof.
  induction s as [|a s IH]; simpl; intros H.
  - exists Decimal.Nil. split; reflexivity.
  - apply andb_prop in H as [Ha Hs].
    destruct (IH Hs) as (d & Hd & Hv). rewrite Hd.
    destruct (uint_of_char_value a d Ha) as (d' & Hd' & Hv').
    exists d'. split; [exact Hd' |]. intros acc. now rewrite Hv', Hv.
Qed.

Lemma read_decimal_value (s : string) :
  s <> "" -> all_digits s = true -> read_decimal s = Some (decimal_value 0 s).
Proof.
  intros Hne Hd. destruct (uint_of_string_value s Hd) as (d & Hs & Hv).
  unfold read_decimal, NilZero.uint_of_string. destruct s; [congruence |].
  rewrite Hs. simpl. now rewrite of_uint_value, Hv.
Qed.

Lemma decimal_value_bounds (s : string) (acc : Z) :
  all_digits s = true -> 0 <= acc ->
  10 ^ Z.of_nat (String.length s) * acc <= decimal_value acc s
    < 10 ^ Z.of_nat (String.length s) * (acc + 1).
Proof.
  revert acc; induction s as [|a s IH]; intros acc Hd Hacc.
  - simpl. lia.
  - simpl in Hd. apply andb_prop in Hd as [Ha Hs].
    assert (Hdig : 0 <= Z.of_nat (nat_of_ascii a) - 48 <= 9).
    { unfold is_digit in Ha. apply andb_prop in Ha as [H1 H2].
      apply Nat.leb_le in H1, H2. lia. }
    cbn [decimal_value String.length]. rewrite Nat2Z.inj_succ, Z.pow_succ_r by lia.
    specialize (IH (10 * acc + (Z.of_nat (nat_of_ascii a) - 48)) Hs ltac:(lia)).
    assert (Hp : 0 < 10 ^ Z.of_nat (String.length s)) by (apply Z.pow_pos_nonneg; lia).
    nia.
Qed.

Lemma decimal_value_nonneg (s : string) :
  all_digits s = true -> 0 <= decimal_value 0 s.
Proof.
  intros Hd. pose proof (decimal_value_bounds s 0 Hd ltac:(lia)) as B. lia.
Qed.

Lemma read_decimal_digits (s : string) :
  s <> "" -> all_digits s = true -> exists n, read_decimal s = Some n /\ 0 <= n.
Proof.
  intros Hne Hd. exists (decimal_value 0 s).
  split; [now apply read_decimal_value | now apply decimal_value_nonneg].
Qed.

Lemma read_decimal_py_str (n : Z) : 0 <= n -> read_decimal (py_str n) = Some n.
Proof.
  intros Hn. unfold read_decimal, py_str.
  pose proof (DecimalZ.of_to n) as Hof.
  destruct (Z.to_int n) as [d|d] eqn:E.
  - simpl in Hof. change (NilZero.string_of_int (Decimal.Pos d))
      with (NilZero.string_of_uint d).
    destruct (Decimal.uint_eq_dec d Decimal.Nil) as [->|Hd].
    + simpl in *. now subst n.
    + rewrite (NilZero.usu d Hd). simpl. now rewrite Hof.
  - exfalso. destruct n as [|p|p]; simpl in E; try discriminate E. lia.
Qed.

(** *** The width of [str(n)] *)

Lemma uint_value_bounds (d : Decimal.uint) (acc : Z) :
  0 <= acc ->
  10 ^ Z.of_nat (Decimal.nb_digits d) * acc <= uint_value acc d
    < 10 ^ Z.of_nat (Decimal.nb_digits d) * (acc + 1).
Proof.
  revert acc; induction d; intros acc Hacc;
    cbn [uint_value Decimal.nb_digits];
    [simpl; lia | ..];
    rewrite Nat2Z.inj_succ, Z.pow_succ_r by lia;
    match goal with
    | |- context [uint_value ?a d] => specialize (IHd a ltac:(lia))
    end;
    assert (Hp : 0 < 10 ^ Z.of_nat (Decimal.nb_digits d))
      by (apply Z.pow_pos_nonneg; lia);
    nia.
Qed.

Lemma length_string_of_uint (d : Decimal.uint) :
  String.length (NilEmpty.string_of_uint d) = Decimal.nb_digits d.
Proof. induction d; simpl; congruence. Qed.

(** the digits [str] prints have no leading zero *)
Lemma uint_value_normal (d : Decimal.uint) :
  Decimal.unorm d = d ->
  d = Decimal.D0 Decimal.Nil \/
  10 ^ (Z.of_nat (Decimal.nb_digits d) - 1) <= uint_value 0 d.
Proof.
  intros Hn.
  destruct d as [|d|d|d|d|d|d|d|d|d|d];
    try (right; cbn [uint_value Decimal.nb_digits];
         rewrite Nat2Z.inj_succ;
         replace (Z.succ (Z.of_nat (Decimal.nb_digits d)) - 1)
           with (Z.of_nat (Decimal.nb_digits d)) by lia;
         match goal with
         | |- context [uint_value ?a d] =>
             pose proof (uint_value_bounds d a ltac:(lia)) as B
         end;
         assert (Hp : 0 < 10 ^ Z.of_nat (Decimal.nb_digits d))
           by (apply Z.pow_pos_nonneg; lia);
         nia).
  - discriminate Hn.
  - left. unfold Decimal.unorm in Hn. cbn [Decimal.nzhead] in Hn.
    destruct (Decimal.nzhead d) eqn:E.
    + injection Hn as <-. reflexivity.
    + exfalso. pose proof (nb_digits_nzhead d) as L. rewrite E, Hn in L.
      simpl in L. lia.
    + discriminate Hn. + discriminate Hn. + discriminate Hn. + discriminate Hn.
    + discriminate Hn. + discriminate Hn. + discriminate Hn. + discriminate Hn.
    + discriminate Hn.
Qed.

Lemma py_str_length (n : Z) (k : Z) :
  0 <= n -> 1 <= k -> n < 10 ^ k -> Z.of_nat (String.length (py_str n)) <= k.
Proof.
  intros Hn Hk Hlt. unfold py_str.
  pose proof (DecimalZ.of_to n) as Hof.
  pose proof (DecimalZ.to_of (Z.to_int n)) as Hto. rewrite Hof in Hto.
  destruct (Z.to_int n) as [d|d] eqn:E.
  - simpl in Hof. rewrite of_uint_value in Hof.
    unfold Decimal.norm in Hto. injection Hto as Hto. symmetry in Hto.
    change (NilZero.string_of_int (Decimal.Pos d)) with (NilZero.string_of_uint d).
    destruct (uint_value_normal d Hto) as [-> | Hlow].
    + simpl. lia.
    + assert (d <> Decimal.Nil) by (intros ->; discriminate Hto).
      replace (NilZero.string_of_uint d) with (NilEmpty.string_of_uint d)
        by (destruct d; [exfalso; now apply H | reflexivity ..]).
      rewrite length_string_of_uint.
      destruct (Z.le_gt_cases (Z.of_nat (Decimal.nb_digits d)) k) as [|Hgt]; [assumption |].
      exfalso.
      assert (10 ^ k <= 10 ^ (Z.of_nat (Decimal.nb_digits d) - 1))
        by (apply Z.pow_le_mono_r; lia).
      lia.
  - exfalso. destruct n as [|p|p]; simpl in E; try discriminate E. lia.
Qed.

Lemma py_str_value (n : Z) (k : Z) :
  0 <= n -> Z.of_nat (String.length (py_str n)) <= k -> n < 10 ^ k.
Proof.
  intros Hn Hk. unfold py_str in Hk.
  pose proof (DecimalZ.of_to n) as Hof.
  destruct (Z.to_int n) as [d|d] eqn:E.
  - simpl in Hof. rewrite of_uint_value in Hof.
    change (NilZero.string_of_int (Decimal.Pos d)) with (NilZero.string_of_uint d) in Hk.
    pose proof (uint_value_bounds d 0 ltac:(lia)) as B.
    assert (Hlen : Z.of_nat (Decimal.nb_digits d) <= k).
    { destruct (Decimal.uint_eq_dec d Decimal.Nil) as [->|Hd]; [simpl in *; lia |].
      replace (NilZero.string_of_uint d) with (NilEmpty.string_of_uint d) in Hk
        by (destruct d; [exfalso; now apply Hd | reflexivity ..]).
      now rewrite length_string_of_uint in Hk. }
    assert (10 ^ Z.of_nat (Decimal.nb_digits d) <= 10 ^ k)
      by (apply Z.pow_le_mono_r; lia).
    lia.
  - exfalso. destruct n as [|p|p]; simpl in E; try discriminate E. lia.
Qed.

Lemma too_wide_spec (n : Z) :
  too_wide n = false <-> Z.abs n < 10 ^ int_max_str_digits.
Proof.
  unfold too_wide, too_many_digits.
  destruct (Z.ltb_spec int_max_str_digits
              (Z.of_nat (String.length (py_str (Z.abs n))))) as [Hlt|Hle].
  - split; [discriminate |]. intros Hn. exfalso.
    pose proof (py_str_length (Z.abs n) int_max_str_digits (Z.abs_nonneg n)
                  ltac:(unfold int_max_str_digits; lia) Hn).
    lia.
  - split; [| reflexivity]. intros _.
    exact (py_str_value (Z.abs n) int_max_str_digits (Z.abs_nonneg n) Hle).
Qed.

Lemma too_wide_small (n : Z) : 0 <= n <= 9999 -> too_wide n = false.
Proof.
  intros Hn. apply too_wide_spec.
  assert (10 ^ 4 <= 10 ^ int_max_str_digits)
    by (apply Z.pow_le_mono_r; unfold int_max_str_digits; lia).
  change (10 ^ 4) with 10000 in H. lia.
Qed.

Lemma decimal_value_not_wide (s : string) :
  all_digits s = true -> Z.of_nat (String.length s) <= int_max_str_digits ->
  0 <= decimal_value 0 s < 10 ^ int_max_str_digits.
Proof.
  intros Hd Hl. pose proof (decimal_value_bounds s 0 Hd ltac:(lia)) as B.
  assert (10 ^ Z.of_nat (String.length s) <= 10 ^ int_max_str_digits)
    by (apply Z.pow_le_mono_r; lia).
  lia.
Qed.

(** *** The limit on the number of digits *)

Lemma py_int_short (s : string) :
  Z.of_nat (String.length s) <= int_max_str_digits -> py_int s = read_decimal s.
Proof.
  intros H. unfold py_int, too_many_digits.
  destruct (Z.ltb_spec int_max_str_digits (Z.of_nat (String.length s))); [lia | reflexivity].
Qed.

Lemma py_int_long (s : string) :
  int_max_str_digits < Z.of_nat (String.length s) -> py_int s = None.
Proof.
  intros H. unfold py_int, too_many_digits.
  destruct (Z.ltb_spec int_max_str_digits (Z.of_nat (String.length s))); [reflexivity | lia].
Qed.

Lemma py_int_decimal_value (s : string) :
  s <> "" -> all_digits s = true ->
  Z.of_nat (String.length s) <= int_max_str_digits ->
  py_int s = Some (decimal_value 0 s).
Proof.
  intros Hne Hd Hl. rewrite (py_int_short s Hl). now apply read_decimal_value.
Qed.

Lemma py_int_digits (s : string) :
  s <> "" -> all_digits s = true ->
  Z.of_nat (String.length s) <= int_max_str_digits ->
  exists n, py_int s = Some n /\ 0 <= n.
Proof.
  intros Hne Hd Hl. rewrite (py_int_short s Hl). now apply read_decimal_digits.
Qed.

Lemma py_int_Some (s : string) (n : Z) :
  py_int s = Some n ->
  read_decimal s = Some n /\ Z.of_nat (String.length s) <= int_max_str_digits.
Proof.
  unfold py_int, too_many_digits.
  destruct (Z.ltb_spec int_max_str_digits (Z.of_nat (String.length s)));
    [discriminate | intros E; split; [exact E | lia]].
Qed.

(** ** Searching with a pattern *)

Lemma re_search_eq (r : regex) (s : string) :
  re_search r s =
  match rmatch r s with
  | m :: _ => Some m
  | [] => match s with String _ s' => re_search r s' | EmptyString => None end
  end.
Proof. destruct s; reflexivity. Qed.

(** no position of [s] has a match: the search finds nothing *)
Lemma re_search_none (r : regex) (s : string) :
  (forall pre suf, s = pre +:+ suf -> rmatch r suf = []) -> re_search r s = None.
Proof.
  induction s as [|c s IH]; intros H; rewrite re_search_eq.
  - now rewrite (H "" "" eq_refl).
  - rewrite (H "" (String c s) eq_refl). apply IH.
    intros pre suf ->. now apply (H (String c pre)).
Qed.

(** no position inside [pre] has a match and [suf] has one: the search
    returns the first match at [suf] *)
Lemma re_search_first (r : regex) (pre suf : string) (m : rmatched) (tl : list rmatched) :
  (forall p1 c p2, pre = p1 +:+ String c p2 -> rmatch r (String c p2 +:+ suf) = []) ->
  rmatch r suf = m :: tl ->
  re_search r (pre +:+ suf) = Some m.
Proof.
  induction pre as [|a pre IH]; intros Hpre Hm.
  - simpl. rewrite re_search_eq. now rewrite Hm.
  - rewrite re_search_eq, (Hpre "" a pre eq_refl). simpl.
    apply IH; [| exact Hm].
    intros p1 c p2 ->. now apply (Hpre (String a p1) c p2).
Qed.

Lemma re_search_None_inv (r : regex) (s : string) :
  re_search r s = None -> forall pre suf, s = pre +:+ suf -> rmatch r suf = [].
Proof.
  induction s as [|c s IH]; rewrite re_search_eq.
  - destruct (rmatch r "") eqn:E; [| discriminate].
    intros _ pre suf H. destruct pre; [| discriminate H].
    simpl in H. now subst suf.
  - destruct (rmatch r (String c s)) eqn:E; [| discriminate].
    intros H pre suf Hs. destruct pre as [|a pre].
    + simpl in Hs. now subst suf.
    + simpl in Hs. injection Hs as -> Hs. now apply (IH H pre).
Qed.

(** what the search returns is the first match at the first position that
    has one *)
Lemma re_search_Some_first (r : regex) (s : string) (m : rmatched) :
  re_search r s = Some m ->
  exists pre suf tl,
    s = pre +:+ suf /\ rmatch r suf = m :: tl /\
    forall p1 c p2, pre = p1 +:+ String c p2 -> rmatch r (String c p2 +:+ suf) = [].
Proof.
  induction s as [|c s IH]; rewrite re_search_eq.
  - destruct (rmatch r "") as [|m0 tl] eqn:E; [discriminate |].
    intros [= <-]. exists "", "", tl. repeat split; [exact E |].
    intros [|? ?] ? ? H; discriminate H.
  - destruct (rmatch r (String c s)) as [|m0 tl] eqn:E.
    + intros H. destruct (IH H) as (pre & suf & tl & -> & Hm & Hpre).
      exists (String c pre), suf, tl. repeat split; [exact Hm |].
      intros [|a p1] c' p2 Hp; simpl in Hp; injection Hp as -> ->.
      * exact E.
      * now apply (Hpre p1).
    + intros [= <-]. exists "", (String c s), tl. repeat split; [exact E |].
      intros [|? ?] ? ? H; discriminate H.
Qed.

Lemma plus_matches_digit_nil (s : string) :
  no_digit_ahead s -> plus_matches Digit s = [].
Proof. destruct s as [|a s]; simpl; intros H; [reflexivity | now rewrite H]. Qed.

(** the first way [\d+] matches is the whole run of digits *)
Lemma plus_matches_run (ds post : string) :
  ds <> "" -> all_digits ds = true -> no_digit_ahead post ->
  exists tl, plus_matches Digit (ds +:+ post) = RMatched ds post None :: tl.
Proof.
  induction ds as [|a ds IH]; intros Hne Hd Hpost; [congruence |].
  simpl in Hd. apply andb_prop in Hd as [Ha Hd]. simpl. rewrite Ha.
  destruct ds as [|b ds].
  - simpl. rewrite (plus_matches_digit_nil post Hpost). simpl. eauto.
  - destruct (IH ltac:(discriminate) Hd Hpost) as [tl Htl].
    rewrite Htl. simpl. eauto.
Qed.

(** a text that starts with a digit starts with a run of digits *)
Lemma digit_run_ahead (c : ascii) (r : string) :
  is_digit c = true ->
  exists ds post, String c r = ds +:+ post /\ ds <> "" /\
                  all_digits ds = true /\ no_digit_ahead post.
Proof.
  revert c; induction r as [|c' r IH]; intros c Hc.
  - exists (String c ""), "". simpl. rewrite Hc. repeat split; discriminate.
  - destruct (is_digit c') eqn:Hc'.
    + destruct (IH c' Hc') as (ds & post & E & _ & Hd & Hp).
      exists (String c ds), post. simpl. rewrite E, Hc, Hd.
      repeat split; [discriminate | exact Hp].
    + exists (String c ""), (String c' r). simpl. rewrite Hc.
      repeat split; [discriminate | exact Hc'].
Qed.

(** *** The day-of-year pattern *)

Lemma doy_rmatch (s : string) :
  rmatch doy_pattern s =
  match strip_prefix doy_marker s with
  | Some rest =>
      map (fun m => RMatched (doy_marker +:+ m_text m) (m_rest m) (Some (m_text m)))
          (plus_matches Digit rest)
  | None => []
  end.
Proof.
  unfold doy_pattern. cbn [rmatch].
  destruct (strip_prefix doy_marker s) as [rest|]; [| reflexivity].
  cbn [flat_map m_rest]. rewrite app_nil_r, !map_map. reflexivity.
Qed.

Lemma doy_rmatch_nil (s : string) :
  (forall c r, s = doy_marker +:+ String c r -> is_digit c = false) ->
  rmatch doy_pattern s = [].
Proof.
  intros H. rewrite doy_rmatch.
  destruct (strip_prefix doy_marker s) as [rest|] eqn:E; [| reflexivity].
  apply strip_prefix_Some in E. destruct rest as [|c r]; [reflexivity |].
  simpl. now rewrite (H c r E).
Qed.

Lemma doy_rmatch_hit (ds post : string) :
  ds <> "" -> all_digits ds = true -> no_digit_ahead post ->
  exists tl, rmatch doy_pattern (doy_marker +:+ ds +:+ post)
             = RMatched (doy_marker +:+ ds) post (Some ds) :: tl.
Proof.
  intros Hne Hd Hp. rewrite doy_rmatch, strip_prefix_append.
  destruct (plus_matches_run ds post Hne Hd Hp) as [tl ->]. simpl. eauto.
Qed.

(** a match of the pattern at the start of a text is the marker and the
    whole run of digits after it *)
Lemma doy_rmatch_inv (suf : string) (m : rmatched) (tl : list rmatched) :
  rmatch doy_pattern suf = m :: tl ->
  exists ds post,
    suf = doy_marker +:+ ds +:+ post /\ ds <> "" /\ all_digits ds = true /\
    no_digit_ahead post /\ m = RMatched (doy_marker +:+ ds) post (Some ds).
Proof.
  intros H.
  destruct (strip_prefix doy_marker suf) as [rest|] eqn:E;
    [| rewrite doy_rmatch, E in H; discriminate H].
  apply strip_prefix_Some in E. subst suf.
  destruct rest as [|c r];
    [rewrite doy_rmatch, strip_prefix_append in H; discriminate H |].
  destruct (is_digit c) eqn:Hc.
  - destruct (digit_run_ahead c r Hc) as (ds & post & Er & Hne & Hd & Hp).
    rewrite Er in H |- *.
    destruct (doy_rmatch_hit ds post Hne Hd Hp) as [tl' Hhit].
    rewrite Hhit in H. injection H as <- _.
    exists ds, post. repeat split; assumption.
  - rewrite doy_rmatch, strip_prefix_append in H. simpl in H. rewrite Hc in H.
    discriminate H.
Qed.

Lemma extract_doy_leftmost (s pre ds post : string) :
  doy_run s pre ds post ->
  (forall pre' ds' post', doy_run s pre' ds' post' ->
                          (String.length pre <= String.length pre')%nat) ->
  extract_doy_from_band_name (Some s)
    = int_of_group1 (RMatched (doy_marker +:+ ds) post (Some ds)).
Proof.
  intros (E & Hne & Hd & Hp) Hleft.
  destruct (doy_rmatch_hit ds post Hne Hd Hp) as [tl Hhit].
  unfold extract_doy_from_band_name. rewrite E.
  assert (Hpre : forall p1 c p2, pre = p1 +:+ String c p2 ->
            rmatch doy_pattern (String c p2 +:+ doy_marker +:+ ds +:+ post) = []).
  { intros p1 c p2 Epre. apply doy_rmatch_nil. intros c' r' E'.
    destruct (is_digit c') eqn:Hc'; [exfalso | reflexivity].
    destruct (digit_run_ahead c' r' Hc') as (ds' & post' & Er & Hne' & Hd' & Hp').
    assert (Hrun : doy_run s p1 ds' post').
    { repeat split; try assumption.
      rewrite E, Epre, append_assoc. f_equal.
      rewrite <- Er. exact E'. }
    specialize (Hleft _ _ _ Hrun). rewrite Epre, length_append in Hleft.
    simpl in Hleft. lia. }
  now rewrite (re_search_first doy_pattern pre _ _ tl Hpre Hhit).
Qed.

Lemma int_of_group1_short (m : rmatched) (ds : string) :
  m_group1 m = Some ds -> ds <> "" -> all_digits ds = true ->
  Z.of_nat (String.length ds) <= int_max_str_digits ->
  int_of_group1 m = Ret (Some (decimal_value 0 ds)).
Proof.
  intros Hg Hne Hd Hl. unfold int_of_group1.
  now rewrite Hg, (py_int_decimal_value ds Hne Hd Hl).
Qed.

Lemma int_of_group1_long (m : rmatched) (ds : string) :
  m_group1 m = Some ds ->
  int_max_str_digits < Z.of_nat (String.length ds) ->
  int_of_group1 m = Raise (ValueError (int_limit_message (String.length ds))).
Proof.
  intros Hg Hl. unfold int_of_group1. rewrite Hg, (py_int_long ds Hl).
  unfold too_many_digits.
  now destruct (Z.ltb_spec int_max_str_digits (Z.of_nat (String.length ds))); [| lia].
Qed.

Lemma extract_doy_leftmost_run (s pre ds post : string) :
  doy_run s pre ds post ->
  (forall pre' ds' post', doy_run s pre' ds' post' ->
                          (String.length pre <= String.length pre')%nat) ->
  Z.of_nat (String.length ds) <= int_max_str_digits ->
  extract_doy_from_band_name (Some s) = Ret (Some (decimal_value 0 ds)).
Proof.
  intros Hrun Hleft Hl. rewrite (extract_doy_leftmost s pre ds post Hrun Hleft).
  destruct Hrun as (_ & Hne & Hd & _). now apply int_of_group1_short.
Qed.

Lemma extract_doy_long_run (s pre ds post : string) :
  doy_run s pre ds post ->
  (forall pre' ds' post', doy_run s pre' ds' post' ->
                          (String.length pre <= String.length pre')%nat) ->
  int_max_str_digits < Z.of_nat (String.length ds) ->
  extract_doy_from_band_name (Some s)
    = Raise (ValueError (int_limit_message (String.length ds))).
Proof.
  intros Hrun Hleft Hl. rewrite (extract_doy_leftmost s pre ds post Hrun Hleft).
  now apply (int_of_group1_long _ ds).
Qed.

Lemma extract_doy_no_run (s : string) :
  (forall pre ds post, ~ doy_run s pre ds post) ->
  extract_doy_from_band_name (Some s) = Ret None.
Proof.
  intros Hno. unfold extract_doy_from_band_name.
  rewrite re_search_none; [reflexivity |].
  intros pre suf E. apply doy_rmatch_nil. intros c r E'.
  destruct (is_digit c) eqn:Hc; [exfalso | reflexivity].
  destruct (digit_run_ahead c r Hc) as (ds & post & Er & Hne & Hd & Hp).
  apply (Hno pre ds post). repeat split; try assumption.
  rewrite E, E'. f_equal. now rewrite <- Er.
Qed.

(** every label has no marker that digits follow, or a leftmost one *)
Lemma doy_run_leftmost (s : string) :
  (forall pre ds post, ~ doy_run s pre ds post) \/
  exists pre ds post,
    doy_run s pre ds post /\
    forall pre' ds' post', doy_run s pre' ds' post' ->
                           (String.length pre <= String.length pre')%nat.
Proof.
  destruct (re_search doy_pattern s) as [m|] eqn:E.
  - right. destruct (re_search_Some_first _ _ _ E) as (pre & suf & tl & Es & Hm & Hpre).
    destruct (doy_rmatch_inv suf m tl Hm) as (ds & post & -> & Hne & Hd & Hp & _).
    exists pre, ds, post. split; [repeat split; assumption |].
    intros pre' ds' post' (E' & Hne' & Hd' & Hp').
    destruct (Nat.le_gt_cases (String.length pre) (String.length pre')) as [|Hlt];
      [assumption | exfalso].
    rewrite Es in E'.
    destruct (append_split_shorter _ _ _ _ E' Hlt) as (c & q & Epre & Ey).
    specialize (Hpre pre' c q Epre). rewrite <- Ey in Hpre.
    destruct (doy_rmatch_hit ds' post' Hne' Hd' Hp') as [tl' Hhit].
    rewrite Hhit in Hpre. discriminate Hpre.
  - left. intros pre ds post (Es & Hne & Hd & Hp).
    pose proof (re_search_None_inv _ _ E pre _ Es) as Hnil.
    destruct (doy_rmatch_hit ds post Hne Hd Hp) as [tl Hhit].
    rewrite Hhit in Hnil. discriminate Hnil.
Qed.

(** the three outcomes of the parser on a string *)
Lemma extract_doy_cases (s : string) :
  ((forall pre ds post, ~ doy_run s pre ds post) /\
   extract_doy_from_band_name (Some s) = Ret None) \/
  (exists pre ds post,
      doy_run s pre ds post /\
      (forall pre' ds' post', doy_run s pre' ds' post' ->
                              (String.length pre <= String.length pre')%nat) /\
      ((Z.of_nat (String.length ds) <= int_max_str_digits /\
        0 <= decimal_value 0 ds < 10 ^ int_max_str_digits /\
        extract_doy_from_band_name (Some s) = Ret (Some (decimal_value 0 ds))) \/
       (int_max_str_digits < Z.of_nat (String.length ds) /\
        extract_doy_from_band_name (Some s)
          = Raise (ValueError (int_limit_message (String.length ds)))))).
Proof.
  destruct (doy_run_leftmost s) as [Hno | (pre & ds & post & Hrun & Hleft)].
  - left. split; [exact Hno | now apply extract_doy_no_run].
  - right. exists pre, ds, post. split; [exact Hrun |]. split; [exact Hleft |].
    destruct (Z.le_gt_cases (Z.of_nat (String.length ds)) int_max_str_digits) as [Hl|Hl].
    + left. split; [exact Hl |]. split.
      * destruct Hrun as (_ & _ & Hd & _). now apply decimal_value_not_wide.
      * now apply (extract_doy_leftmost_run s pre ds post).
    + right. split; [exact Hl |]. now apply (extract_doy_long_run s pre ds post).
Qed.

(** the parser returns numbers from 0 to [10 ^ int_max_str_digits - 1]:
    numbers that [str] and the format [03d] print *)
Lemma extract_doy_range (s : string) (doy : Z) :
  extract_doy_from_band_name (Some s) = Ret (Some doy) ->
  0 <= doy < 10 ^ int_max_str_digits.
Proof.
  intros H.
  destruct (extract_doy_cases s)
    as [[_ Hx] | (pre & ds & post & _ & _ & [(_ & Hr & Hx) | [_ Hx]])];
    rewrite Hx in H; try discriminate H.
  now injection H as <-.
Qed.

Lemma extract_doy_prints (s : string) (doy : Z) :
  extract_doy_from_band_name (Some s) = Ret (Some doy) -> too_wide doy = false.
Proof.
  intros H. apply extract_doy_range in H. apply too_wide_spec.
  rewrite Z.abs_eq; lia.
Qed.

(** a label of at most [int_max_str_digits] characters has no run of
    digits that [int] refuses *)
Lemma extract_doy_short (s : string) :
  Z.of_nat (String.length s) <= int_max_str_digits ->
  exists doy, extract_doy_from_band_name (Some s) = Ret doy.
Proof.
  intros Hs.
  destruct (extract_doy_cases s)
    as [[_ Hx] | (pre & ds & post & Hrun & _ & [(_ & _ & Hx) | [Hl _]])];
    [eauto | eauto | exfalso].
  destruct Hrun as (E & _). rewrite E, !length_append in Hs. lia.
Qed.


Lemma doy_run_long_zero_label :
  doy_run long_zero_label "" (zeros 4301) "".
Proof.
  unfold long_zero_label.
  split; [now rewrite append_empty_r |].
  split; [discriminate |].
  split; [apply all_digits_zeros | exact I].
Qed.

Lemma extract_doy_long_zero_label :
  extract_doy_from_band_name (Some long_zero_label)
    = Raise (ValueError long_zero_message).
Proof.
  rewrite (extract_doy_long_run long_zero_label "" (zeros 4301) "").
  - now rewrite length_zeros.
  - exact doy_run_long_zero_label.
  - intros pre' ds' post' _. simpl. lia.
  - rewrite length_zeros. unfold int_max_str_digits. lia.
Qed.

(** C2, the case the claim misses.  A label that is the marker followed by
    4301 zeros has the marker followed by a run of digits, yet
    [extract_doy_from_band_name] does not return the run as an integer: it
    raises [ValueError], as [int] does on more than [int_max_str_digits]
    digits. *)
Theorem extract_doy_digit_limit :
  doy_run long_zero_label "" (zeros 4301) "" /\
  int_max_str_digits < Z.of_nat (String.length (zeros 4301)) /\
  extract_doy_from_band_name (Some long_zero_label)
    = Raise (ValueError long_zero_message) /\
  (forall n, extract_doy_from_band_name (Some long_zero_label) <> Ret (Some n)).
Proof.
  split; [exact doy_run_long_zero_label |]. split.
  - rewrite length_zeros. unfold int_max_str_digits. lia.
  - rewrite extract_doy_long_zero_label. split; [reflexivity | discriminate].
Qed.

(** C2. For a band label that contains the marker [Syn_VI_fitted] followed
    at once by a run of digits, take the run after the leftmost such
    marker.  When the run has at most [int_max_str_digits] (4300) digits,
    [extract_doy_from_band_name] returns the number the run spells; when
    it has more, the call raises [ValueError].  For a label without such
    a substring it returns [None] and does not raise. *)
Theorem extract_doy_from_band_name_spec (s : string) :
  (forall pre ds post,
      doy_run s pre ds post ->
      (forall pre' ds' post', doy_run s pre' ds' post' ->
                              (String.length pre <= String.length pre')%nat) ->
      (Z.of_nat (String.length ds) <= int_max_str_digits ->
       extract_doy_from_band_name (Some s) = Ret (Some (decimal_value 0 ds))) /\
      (int_max_str_digits < Z.of_nat (String.length ds) ->
       extract_doy_from_band_name (Some s)
         = Raise (ValueError (int_limit_message (String.length ds))))) /\
  ((forall pre ds post, ~ doy_run s pre ds post) ->
   extract_doy_from_band_name (Some s) = Ret None).
Proof.
  split.
  - intros pre ds post Hrun Hleft. split; intros Hl.
    + now apply (extract_doy_leftmost_run s pre ds post).
    + now apply (extract_doy_long_run s pre ds post).
  - apply extract_doy_no_run.
Qed.

Lemma extract_doy_from_band_name_spec_witness :
  extract_doy_from_band_name (Some "b3_Syn_VI_fitted045_smooth") = Ret (Some 45) /\
  extract_doy_from_band_name (Some ("Syn_VI_fitted" +:+ zeros 4301))
    = Raise (ValueError long_zero_message) /\
  extract_doy_from_band_name (Some "") = Ret None.
Proof.
  split; [| split].
  - apply (proj1 (proj1 (extract_doy_from_band_name_spec "b3_Syn_VI_fitted045_smooth")
                    "b3_" "045" "_smooth"
                    ltac:(split; [reflexivity | split; [discriminate | split; reflexivity]])
                    ltac:(intros pre' ds' post' (E & Hne & _);
                          destruct pre' as [|a [|b [|c pre']]]; simpl; try lia; exfalso;
                          simpl in E; unfold doy_marker in E; simpl in E;
                          discriminate E))).
    unfold int_max_str_digits. simpl. lia.
  - apply (proj2 (proj1 (extract_doy_from_band_name_spec ("Syn_VI_fitted" +:+ zeros 4301))
                    "" (zeros 4301) ""
                    ltac:(split; [now rewrite append_empty_r |];
                          split; [discriminate |];
                          split; [apply all_digits_zeros | exact I])
                    ltac:(intros pre' ds' post' _; simpl; lia))).
    rewrite length_zeros. unfold int_max_str_digits. lia.
  - apply (proj2 (extract_doy_from_band_name_spec "")).
    intros pre ds post (E & _). destruct pre; discriminate E.
Defined.

(** *** The year pattern *)

Lemma rep_matches_hit (n : nat) (ds post : string) :
  String.length ds = n -> all_digits ds = true ->
  rep_matches n Digit (ds +:+ post) = [RMatched ds post None].
Proof.
  revert ds; induction n as [|n IH]; intros ds Hlen Hd.
  - destruct ds; [reflexivity | discriminate Hlen].
  - destruct ds as [|a ds]; [discriminate Hlen |].
    simpl in *. apply andb_prop in Hd as [Ha Hd]. rewrite Ha.
    rewrite (IH ds); [reflexivity | lia | exact Hd].
Qed.

Lemma rep_matches_inv (n : nat) (s : string) :
  rep_matches n Digit s = [] \/
  exists ds post, s = ds +:+ post /\ String.length ds = n /\ all_digits ds = true.
Proof.
  revert s; induction n as [|n IH]; intros s.
  - right. exists "", s. repeat split.
  - destruct s as [|a s]; [left; reflexivity |]. simpl.
    destruct (is_digit a) eqn:Ha; [| left; reflexivity].
    destruct (IH s) as [-> | (ds & post & -> & Hlen & Hd)]; [left; reflexivity |].
    right. exists (String a ds), post. simpl. rewrite Ha, Hd, Hlen. repeat split.
Qed.



Lemma year_body_eq (s : string) :
  rmatch year_body s =
  flat_map (fun m1 => map (then_match m1) (rmatch year_tail (m_rest m1)))
    (map (fun m => RMatched (m_text m) (m_rest m) (Some (m_text m)))
         (rep_matches 4 Digit s)).
Proof. reflexivity. Qed.



Lemma year_rmatch (s : string) :
  rmatch year_pattern s =
  match strip_prefix "_" s with
  | Some rest => map (then_match (RMatched "_" rest None)) (rmatch year_body rest)
  | None => []
  end.
Proof.
  change year_pattern with (Seq (Lit "_") year_body). cbn [rmatch].
  destruct (strip_prefix "_" s) as [rest|]; [| reflexivity].
  cbn [flat_map m_rest]. now rewrite app_nil_r.
Qed.



Lemma year_run_claimed_run (s pre ds post : string) :
  year_run_claimed s pre ds post -> year_run s pre ds post.
Proof. intros (E & Hl & Hd & Hb). repeat split; try assumption. now left. Qed.





(** ** Metadata dicts *)

Lemma lookup_update_items (items : list (string * value)) (d : gmap string value)
    (k : string) :
  update_items items d !! k =
  match last_value k items with
  | Some v => Some v
  | None => d !! k
  end.
Proof.
  revert d; induction items as [|[k' v] rest IH]; intros d; [reflexivity |].
  unfold update_items in *. simpl. rewrite IH.
  destruct (last_value k rest); [reflexivity |].
  rewrite lookup_insert. destruct (String.eqb_spec k' k) as [->|Hne].
  - now rewrite decide_True.
  - now rewrite decide_False.
Qed.

Lemma update_items_idem (items : list (string * value)) (d : gmap string value) :
  update_items items (update_items items d) = update_items items d.
Proof.
  apply map_eq. intros k. rewrite !lookup_update_items.
  now destruct (last_value k items).
Qed.

Lemma band_profile_fields (mosaic : ndarray) (crs : value) (d : gmap string value) :
  band_profile mosaic crs d !! "driver" = Some (VStr "GTiff") /\
  band_profile mosaic crs d !! "count" = Some (VInt 1) /\
  band_profile mosaic crs d !! "dtype" = Some (VStr "int16") /\
  band_profile mosaic crs d !! "crs" = Some crs /\
  band_profile mosaic crs d !! "height" = Some (VInt (nd_height mosaic)) /\
  band_profile mosaic crs d !! "width" = Some (VInt (nd_width mosaic)).
Proof. unfold band_profile. rewrite !lookup_update_items. repeat split. Qed.

Lemma band_profile_other (mosaic : ndarray) (crs : value) (d : gmap string value)
    (k : string) :
  last_value k (band_profile_items mosaic crs) = None ->
  band_profile mosaic crs d !! k = d !! k.
Proof. intros H. unfold band_profile. now rewrite lookup_update_items, H. Qed.

(** ** One band *)

Section BandSteps.

Variable env : Env.
Variables (mosaic : ndarray) (out_meta : nat) (labels : list (option string)).
Variables (output_dir : string) (year : Z) (region_name : string) (crs : value).

Lemma dict_at_set_dict (w : World) (addr : nat) (d : gmap string value) :
  dict_at (set_dict addr d w) addr = d.
Proof. unfold dict_at, set_dict. simpl. now rewrite lookup_insert_eq. Qed.

Lemma save_band_skip (i : nat) (s : string) (w : World) :
  labels !! i = Some (Some s) ->
  extract_doy_from_band_name (Some s) = Ret None ->
  exists line,
    save_band env mosaic out_meta (Some labels) output_dir year region_name crs i w
      = (Ret tt, skipped w line).
Proof.
  intros Hl Hx. unfold save_band, bind, subscript, lift.
  rewrite Hl. unfold ret. rewrite Hx. eexists. reflexivity.
Qed.

Lemma save_band_write (i : nat) (s : string) (doy : Z) (data : band) (w : World) :
  labels !! i = Some (Some s) ->
  extract_doy_from_band_name (Some s) = Ret (Some doy) ->
  too_wide year = false ->
  nd_bands mosaic !! i = Some data ->
  env_writable env (band_path output_dir year region_name doy) = true ->
  save_band env mosaic out_meta (Some labels) output_dir year region_name crs i w
    = (Ret tt, saved mosaic out_meta crs w (band_path output_dir year region_name doy) data).
Proof.
  intros Hl Hx Hy Hb Hw. pose proof (extract_doy_prints s doy Hx) as Hdoy.
  unfold save_band, bind, subscript, lift, band_slice, check_str_digits.
  rewrite Hl. unfold ret. rewrite Hx, Hy, Hdoy, Hb. unfold ret.
  unfold dict_update, dict_items, rio_write. cbn [fst snd].
  rewrite dict_at_set_dict. cbn [w_dicts w_open w_opened w_written w_dirs w_stdout set_dict].
  fold (band_path output_dir year region_name doy). rewrite Hw.
  unfold print, saved, band_profile. reflexivity.
Qed.

(** a step that returns either wrote nothing and touched no dict, or wrote
    one file with the profile it left in the caller's dict *)
Lemma save_band_inv (bd : option (list (option string))) (i : nat) (w w1 : World) :
  save_band env mosaic out_meta bd output_dir year region_name crs i w = (Ret tt, w1) ->
  (w_written w1 = w_written w /\ w_dicts w1 = w_dicts w) \/
  (exists path data, w1 = saved mosaic out_meta crs w path data).
Proof.
  unfold save_band, bind, subscript, lift, band_slice.
  destruct bd as [l|]; [| discriminate].
  destruct (l !! i) as [lab|]; [| discriminate]. unfold ret.
  destruct (extract_doy_from_band_name lab) as [[doy|]|e]; [| | discriminate].
  - unfold check_str_digits, raise.
    destruct (too_wide year); [discriminate |].
    destruct (too_wide doy); [discriminate |].
    unfold ret.
    destruct (nd_bands mosaic !! i) as [data|]; [| discriminate].
    unfold dict_update, dict_items, rio_write. cbn [fst snd].
    rewrite dict_at_set_dict.
    cbn [w_dicts w_open w_opened w_written w_dirs w_stdout set_dict].
    destruct (env_writable env _); [| discriminate].
    intros H. injection H as <-. right. eexists _, data.
    unfold saved, band_profile. reflexivity.
  - intros H. injection H as <-. left. split; reflexivity.
Qed.

End BandSteps.

Lemma saved_written (mosaic : ndarray) (out_meta : nat) (crs : value) (w : World)
    (path : string) (data : band) :
  w_written (saved mosaic out_meta crs w path data) =
  w_written w ++
    [(path, {| rf_profile := band_profile mosaic crs (dict_at w out_meta);
               rf_band1 := data |})].
Proof. reflexivity. Qed.

Lemma saved_dict (mosaic : ndarray) (out_meta : nat) (crs : value) (w : World)
    (path : string) (data : band) :
  dict_at (saved mosaic out_meta crs w path data) out_meta =
  band_profile mosaic crs (dict_at w out_meta).
Proof. unfold dict_at at 1, saved. cbn [w_dicts]. now rewrite lookup_insert_eq. Qed.

Lemma saved_profile_again (mosaic : ndarray) (out_meta : nat) (crs : value) (w : World)
    (path : string) (data : band) :
  band_profile mosaic crs (dict_at (saved mosaic out_meta crs w path data) out_meta) =
  band_profile mosaic crs (dict_at w out_meta).
Proof. rewrite saved_dict. apply update_items_idem. Qed.

Lemma for_each_cons {A} (x : A) (xs : list A) (body : A -> M unit) (w w1 : World) :
  body x w = (Ret tt, w1) ->
  for_each (x :: xs) body w = for_each xs body w1.
Proof. intros H. simpl. unfold bind. now rewrite H. Qed.

(** ** C3: two labelled bands *)

(** C3. A merged raster whose two bands are labelled [Syn_VI_fitted001] and
    [Syn_VI_fitted045], with region [R] and year 2020: the band extractor
    writes exactly two files, [NDVI_R_2020_001.tif] and
    [NDVI_R_2020_045.tif] in the output directory, each with band count 1,
    sample type int16, driver GTiff and the coordinate reference system the
    caller supplied. *)
Theorem process_and_save_bands_two_bands (env : Env) (height width : Z)
    (b0 b1 : band) (out_meta : nat) (output_dir : string) (crs : value) (w : World) :
  let mosaic := {| nd_height := height; nd_width := width; nd_bands := [b0; b1] |} in
  let p1 := path_join output_dir ["NDVI_R_2020_001.tif"] in
  let p2 := path_join output_dir ["NDVI_R_2020_045.tif"] in
  env_writable env p1 = true ->
  env_writable env p2 = true ->
  exists w' profile,
    process_and_save_bands env mosaic out_meta
      (Some [Some "Syn_VI_fitted001"; Some "Syn_VI_fitted045"])
      output_dir 2020 "R" crs w = (Ret tt, w') /\
    w_written w' = w_written w ++
      [(p1, {| rf_profile := profile; rf_band1 := b0 |});
       (p2, {| rf_profile := profile; rf_band1 := b1 |})] /\
    profile !! "count" = Some (VInt 1) /\
    profile !! "dtype" = Some (VStr "int16") /\
    profile !! "driver" = Some (VStr "GTiff") /\
    profile !! "crs" = Some crs.
Proof.
  intros mosaic p1 p2 H1 H2.
  set (labels := [Some "Syn_VI_fitted001"; Some "Syn_VI_fitted045"]).
  pose proof (save_band_write env mosaic out_meta labels output_dir 2020 "R" crs
                0 "Syn_VI_fitted001" 1 b0 w eq_refl eq_refl eq_refl eq_refl H1) as S0.
  set (w1 := saved mosaic out_meta crs w p1 b0).
  pose proof (save_band_write env mosaic out_meta labels output_dir 2020 "R" crs
                1 "Syn_VI_fitted045" 45 b1 w1 eq_refl eq_refl eq_refl eq_refl H2) as S1.
  exists (saved mosaic out_meta crs w1 p2 b1),
         (band_profile mosaic crs (dict_at w out_meta)).
  split.
  - unfold process_and_save_bands. change (seq 0 (length (nd_bands mosaic))) with [0; 1]%nat.
    rewrite (for_each_cons _ _ _ _ _ S0), (for_each_cons _ _ _ _ _ S1). reflexivity.
  - split.
    + rewrite saved_written. unfold w1 at 2. rewrite saved_profile_again.
      unfold w1. rewrite saved_written, <- app_assoc. reflexivity.
    + pose proof (band_profile_fields mosaic crs (dict_at w out_meta)) as F.
      tauto.
Qed.

Lemma process_and_save_bands_two_bands_witness :
  exists w' profile,
    process_and_save_bands all_writable
      {| nd_height := 1; nd_width := 2; nd_bands := [[[10; 20]]; [[30; 40]]] |} 0%nat
      (Some [Some "Syn_VI_fitted001"; Some "Syn_VI_fitted045"])
      "out" 2020 "R" DEFAULT_CRS empty_world = (Ret tt, w') /\
    w_written w' = w_written empty_world ++
      [("out/NDVI_R_2020_001.tif", {| rf_profile := profile; rf_band1 := [[10; 20]] |});
       ("out/NDVI_R_2020_045.tif", {| rf_profile := profile; rf_band1 := [[30; 40]] |})] /\
    profile !! "count" = Some (VInt 1) /\
    profile !! "dtype" = Some (VStr "int16") /\
    profile !! "driver" = Some (VStr "GTiff") /\
    profile !! "crs" = Some DEFAULT_CRS.
Proof.
  apply (process_and_save_bands_two_bands all_writable 1 2 [[10; 20]] [[30; 40]]
           0%nat "out" DEFAULT_CRS empty_world); reflexivity.
Defined.

(** ** C8: a band whose label does not parse *)

(** C8, where it fails.  A band without a description has the label [None]
    in the tuple of the raster library, and no label parses less.  On a
    merged raster whose first band has no description and whose second has
    a label, valid or not, [process_and_save_bands] does not skip the first
    band: it raises [TypeError] at once, the world is as it was, and the
    file of the second band is not written. *)
Theorem process_and_save_bands_undescribed_band (env : Env) (height width : Z)
    (b0 b1 : band) (out_meta : nat) (output_dir : string) (year : Z)
    (region_name : string) (crs : value) (w : World) (good : string) :
  let mosaic := {| nd_height := height; nd_width := width; nd_bands := [b0; b1] |} in
  extract_doy_from_band_name None = Raise TypeError /\
  process_and_save_bands env mosaic out_meta (Some [None; Some good])
    output_dir year region_name crs w = (Raise TypeError, w) /\
  process_and_save_bands all_writable two_bands 0%nat
    (Some [None; Some "Syn_VI_fitted045"]) "out" 2020 "R" DEFAULT_CRS empty_world
    = (Raise TypeError, empty_world).
Proof. intros mosaic. repeat split. Qed.

(** a label that is a string and does not parse is skipped: with one such
    band and one band whose label parses, the call returns and writes
    exactly one file, the one of the valid band, whichever of the two
    comes first *)
Lemma process_and_save_bands_skips_unparseable (env : Env) (height width : Z)
    (b0 b1 : band) (out_meta : nat) (output_dir : string) (year : Z)
    (region_name : string) (crs : value) (w : World)
    (bad good : string) (doy : Z) :
  let mosaic := {| nd_height := height; nd_width := width; nd_bands := [b0; b1] |} in
  let path := band_path output_dir year region_name doy in
  let profile := band_profile mosaic crs (dict_at w out_meta) in
  extract_doy_from_band_name (Some bad) = Ret None ->
  extract_doy_from_band_name (Some good) = Ret (Some doy) ->
  too_wide year = false ->
  env_writable env path = true ->
  (exists w',
      process_and_save_bands env mosaic out_meta (Some [Some bad; Some good])
        output_dir year region_name crs w = (Ret tt, w') /\
      w_written w' = w_written w ++ [(path, {| rf_profile := profile; rf_band1 := b1 |})]) /\
  (exists w',
      process_and_save_bands env mosaic out_meta (Some [Some good; Some bad])
        output_dir year region_name crs w = (Ret tt, w') /\
      w_written w' = w_written w ++ [(path, {| rf_profile := profile; rf_band1 := b0 |})]).
Proof.
  intros mosaic path profile Hbad Hgood Hy Hw. split.
  - set (labels := [Some bad; Some good]).
    destruct (save_band_skip env mosaic out_meta labels output_dir year region_name crs
                0 bad w eq_refl Hbad) as [line S0].
    pose proof (save_band_write env mosaic out_meta labels output_dir year region_name crs
                  1 good doy b1 (skipped w line) eq_refl Hgood Hy eq_refl Hw) as S1.
    eexists. split.
    + unfold process_and_save_bands.
      change (seq 0 (length (nd_bands mosaic))) with [0; 1]%nat.
      rewrite (for_each_cons _ _ _ _ _ S0), (for_each_cons _ _ _ _ _ S1). reflexivity.
    + reflexivity.
  - set (labels := [Some good; Some bad]).
    pose proof (save_band_write env mosaic out_meta labels output_dir year region_name crs
                  0 good doy b0 w eq_refl Hgood Hy eq_refl Hw) as S0.
    destruct (save_band_skip env mosaic out_meta labels output_dir year region_name crs
                1 bad (saved mosaic out_meta crs w path b0) eq_refl Hbad) as [line S1].
    eexists. split.
    + unfold process_and_save_bands.
      change (seq 0 (length (nd_bands mosaic))) with [0; 1]%nat.
      rewrite (for_each_cons _ _ _ _ _ S0), (for_each_cons _ _ _ _ _ S1). reflexivity.
    + reflexivity.
Qed.

Example process_and_save_bands_skips_quality_flag :
  let mosaic := {| nd_height := 1; nd_width := 2; nd_bands := [[[10; 20]]; [[30; 40]]] |} in
  let profile := band_profile mosaic DEFAULT_CRS ∅ in
  (exists w',
      process_and_save_bands all_writable mosaic 0%nat
        (Some [Some "quality_flag"; Some "Syn_VI_fitted045"])
        "out" 2020 "R" DEFAULT_CRS empty_world = (Ret tt, w') /\
      w_written w' = [("out/NDVI_R_2020_045.tif",
                       {| rf_profile := profile; rf_band1 := [[30; 40]] |})]) /\
  (exists w',
      process_and_save_bands all_writable mosaic 0%nat
        (Some [Some "Syn_VI_fitted045"; Some "quality_flag"])
        "out" 2020 "R" DEFAULT_CRS empty_world = (Ret tt, w') /\
      w_written w' = [("out/NDVI_R_2020_045.tif",
                       {| rf_profile := profile; rf_band1 := [[10; 20]] |})]).
Proof.
  apply (process_and_save_bands_skips_unparseable all_writable 1 2 [[10; 20]] [[30; 40]]
           0%nat "out" 2020 "R" DEFAULT_CRS empty_world "quality_flag"
           "Syn_VI_fitted045" 45); reflexivity.
Qed.

(** ** C9: the caller's metadata *)

Section MetaInPlace.

Variable env : Env.
Variables (mosaic : ndarray) (out_meta : nat) (bd : option (list (option string))).
Variables (output_dir : string) (year : Z) (region_name : string) (crs : value).

(** what a returning run of the loop leaves: nothing written and every
    dict as it was, or a last file whose profile is what the caller's dict
    now holds *)
Lemma for_each_save_band_inv (idxs : list nat) (w w' : World) :
  for_each idxs
    (save_band env mosaic out_meta bd output_dir year region_name crs) w = (Ret tt, w') ->
  (w_written w' = w_written w /\ w_dicts w' = w_dicts w) \/
  (exists before path data,
      w_written w' = w_written w ++ before ++
        [(path, {| rf_profile := band_profile mosaic crs (dict_at w out_meta);
                   rf_band1 := data |})] /\
      w_dicts w' !! out_meta = Some (band_profile mosaic crs (dict_at w out_meta))).
Proof.
  revert w; induction idxs as [|i idxs IH]; intros w H.
  - injection H as <-. now left.
  - simpl in H. unfold bind in H.
    destruct (save_band env mosaic out_meta bd output_dir year region_name crs i w)
      as [[[]|e] w1] eqn:S; [| discriminate H].
    apply save_band_inv in S. apply IH in H.
    destruct S as [[Sw Sd] | (path & data & ->)].
    + assert (Hd : dict_at w1 out_meta = dict_at w out_meta)
        by (unfold dict_at; now rewrite Sd).
      rewrite Hd, Sw, Sd in H. exact H.
    + rewrite saved_profile_again, saved_written in H. right.
      destruct H as [[Hw Hd] | (before & path' & data' & Hw & Hd)].
      * exists [], path, data. split; [now rewrite Hw |].
        rewrite Hd. unfold saved. cbn [w_dicts]. apply lookup_insert_eq.
      * exists ((path, {| rf_profile := band_profile mosaic crs (dict_at w out_meta);
                          rf_band1 := data |}) :: before), path', data'.
        split; [| exact Hd].
        rewrite Hw, <- app_assoc. reflexivity.
Qed.

End MetaInPlace.

(** C9. [process_and_save_bands] changes the caller's metadata dict in place:
    when a call returns and has written a band, the dict object the caller
    passed holds driver GTiff, count 1, dtype int16, the supplied CRS and
    the height and width of the band slices; it is the very profile of the
    last file written, and the keys the update does not name are kept. *)
Theorem process_and_save_bands_mutates_out_meta (env : Env) (mosaic : ndarray)
    (out_meta : nat) (bd : option (list (option string))) (output_dir : string)
    (year : Z) (region_name : string) (crs : value) (w w' : World) :
  process_and_save_bands env mosaic out_meta bd output_dir year region_name crs w
    = (Ret tt, w') ->
  w_written w' <> w_written w ->
  exists meta,
    w_dicts w' !! out_meta = Some meta /\
    meta = band_profile mosaic crs (dict_at w out_meta) /\
    meta !! "driver" = Some (VStr "GTiff") /\
    meta !! "count" = Some (VInt 1) /\
    meta !! "dtype" = Some (VStr "int16") /\
    meta !! "crs" = Some crs /\
    meta !! "height" = Some (VInt (nd_height mosaic)) /\
    meta !! "width" = Some (VInt (nd_width mosaic)) /\
    (forall k, last_value k (band_profile_items mosaic crs) = None ->
               meta !! k = dict_at w out_meta !! k) /\
    (exists path data,
        last (w_written w') = Some (path, {| rf_profile := meta; rf_band1 := data |})).
Proof.
  intros Hrun Hwrote. unfold process_and_save_bands in Hrun.
  apply for_each_save_band_inv in Hrun.
  destruct Hrun as [[Hw _] | (before & path & data & Hw & Hd)]; [congruence |].
  exists (band_profile mosaic crs (dict_at w out_meta)).
  pose proof (band_profile_fields mosaic crs (dict_at w out_meta)) as F.
  repeat (split; [tauto |]). split.
  - intros k Hk. now apply band_profile_other.
  - exists path, data. rewrite Hw, app_assoc. apply last_snoc.
Qed.

Lemma process_and_save_bands_mutates_out_meta_witness :
  let w' := snd (process_and_save_bands all_writable one_band 0%nat
                   (Some [Some "Syn_VI_fitted001"]) "out" 2020 "R" DEFAULT_CRS
                   world_with_meta) in
  exists meta,
    w_dicts w' !! 0%nat = Some meta /\
    meta = band_profile one_band DEFAULT_CRS (dict_at world_with_meta 0%nat) /\
    meta !! "driver" = Some (VStr "GTiff") /\
    meta !! "count" = Some (VInt 1) /\
    meta !! "dtype" = Some (VStr "int16") /\
    meta !! "crs" = Some DEFAULT_CRS /\
    meta !! "height" = Some (VInt 1) /\
    meta !! "width" = Some (VInt 2) /\
    (forall k, last_value k (band_profile_items one_band DEFAULT_CRS) = None ->
               meta !! k = dict_at world_with_meta 0%nat !! k) /\
    (exists path data,
        last (w_written w') = Some (path, {| rf_profile := meta; rf_band1 := data |})).
Proof.
  apply (process_and_save_bands_mutates_out_meta all_writable one_band 0%nat
           (Some [Some "Syn_VI_fitted001"]) "out" 2020 "R" DEFAULT_CRS world_with_meta).
  - reflexivity.
  - discriminate.
Defined.

Example out_meta_before_and_after :
  let w' := snd (process_and_save_bands all_writable one_band 0%nat
                   (Some [Some "Syn_VI_fitted001"]) "out" 2020 "R" DEFAULT_CRS
                   world_with_meta) in
  dict_at world_with_meta 0%nat !! "driver" = Some (VStr "HFA") /\
  dict_at w' 0%nat !! "driver" = Some (VStr "GTiff") /\
  dict_at w' 0%nat !! "nodata" = Some (VInt (-32768)).
Proof. repeat split; vm_compute; reflexivity. Qed.

(** ** The parsers never raise on a string *)

Lemma re_search_Some (r : regex) (s : string) (m : rmatched) :
  re_search r s = Some m -> exists pre suf, s = pre +:+ suf /\ In m (rmatch r suf).
Proof.
  induction s as [|c s IH]; rewrite re_search_eq.
  - destruct (rmatch r "") as [|m0 tl] eqn:E; [discriminate |].
    intros [= <-]. exists "", "". rewrite E. split; [reflexivity | now left].
  - destruct (rmatch r (String c s)) as [|m0 tl] eqn:E.
    + intros H. destruct (IH H) as (pre & suf & -> & Hin).
      exists (String c pre), suf. split; [reflexivity | exact Hin].
    + intros [= <-]. exists "", (String c s). rewrite E. split; [reflexivity | now left].
Qed.

Lemma plus_matches_texts (s : string) (m : rmatched) :
  In m (plus_matches Digit s) -> m_text m <> "" /\ all_digits (m_text m) = true.
Proof.
  revert m; induction s as [|a s IH]; intros m; simpl; [tauto |].
  destruct (is_digit a) eqn:Ha; [| simpl; tauto].
  rewrite in_app_iff, in_map_iff. intros [(m0 & <- & Hin) | [<- | []]].
  - destruct (IH m0 Hin) as [_ Hd]. simpl. rewrite Ha, Hd. split; [discriminate | reflexivity].
  - simpl. rewrite Ha. split; [discriminate | reflexivity].
Qed.

Lemma rep_matches_texts (n : nat) (s : string) (m : rmatched) :
  In m (rep_matches n Digit s) ->
  String.length (m_text m) = n /\ all_digits (m_text m) = true.
Proof.
  revert s m; induction n as [|n IH]; intros s m; simpl.
  - intros [<- | []]. split; reflexivity.
  - destruct s as [|a s]; [simpl; tauto |].
    destruct (is_digit a) eqn:Ha; [| simpl; tauto].
    rewrite in_map_iff. intros (m0 & <- & Hin).
    destruct (IH s m0 Hin) as [Hl Hd]. simpl. rewrite Ha, Hd, Hl. split; reflexivity.
Qed.

Lemma doy_match_group (s : string) (m : rmatched) :
  In m (rmatch doy_pattern s) ->
  exists ds, m_group1 m = Some ds /\ ds <> "" /\ all_digits ds = true.
Proof.
  rewrite doy_rmatch. destruct (strip_prefix doy_marker s) as [rest|]; [| intros []].
  rewrite in_map_iff. intros (m0 & <- & Hin).
  exists (m_text m0). split; [reflexivity |]. now apply (plus_matches_texts rest).
Qed.

Lemma year_tail_group (post : string) (m : rmatched) :
  In m (rmatch year_tail post) -> m_group1 m = None.
Proof.
  unfold year_tail. cbn [rmatch]. rewrite in_app_iff. intros [H | H].
  - destruct post as [|c r]; [destruct H |].
    destruct (in_class (OneOf year_separators) c); [| destruct H].
    destruct H as [<- | []]. reflexivity.
  - destruct (at_dollar post); [| destruct H].
    destruct H as [<- | []]. reflexivity.
Qed.

Lemma year_match_group (s : string) (m : rmatched) :
  In m (rmatch year_pattern s) ->
  exists ds, m_group1 m = Some ds /\ String.length ds = 4%nat /\ all_digits ds = true.
Proof.
  rewrite year_rmatch. destruct (strip_prefix "_" s) as [rest|]; [| intros []].
  rewrite in_map_iff. intros (m0 & <- & Hin).
  rewrite year_body_eq, in_flat_map in Hin.
  destruct Hin as (m1 & Hin1 & Hin2).
  rewrite in_map_iff in Hin1. destruct Hin1 as (m2 & <- & Hin1).
  rewrite in_map_iff in Hin2. destruct Hin2 as (m3 & <- & Hin3).
  apply year_tail_group in Hin3.
  exists (m_text m2). unfold then_match. cbn [m_group1]. rewrite Hin3.
  split; [reflexivity |]. now apply (rep_matches_texts 4 rest).
Qed.

Lemma int_of_group1_digits (m : rmatched) (ds : string) :
  m_group1 m = Some ds -> ds <> "" -> all_digits ds = true ->
  Z.of_nat (String.length ds) <= int_max_str_digits ->
  exists n, 0 <= n /\ int_of_group1 m = Ret (Some n).
Proof.
  intros Hg Hne Hd Hl. destruct (py_int_digits ds Hne Hd Hl) as (n & Hn & Hpos).
  exists n. split; [exact Hpos |]. unfold int_of_group1. now rewrite Hg, Hn.
Qed.

Lemma extract_year_total (s : string) :
  extract_year_from_filename s = Ret None \/
  exists n, 0 <= n /\ extract_year_from_filename s = Ret (Some n).
Proof.
  unfold extract_year_from_filename.
  destruct (re_search year_pattern s) as [m|] eqn:E; [right | now left].
  destruct (re_search_Some _ _ _ E) as (pre & suf & _ & Hin).
  destruct (year_match_group suf m Hin) as (ds & Hg & Hl & Hd).
  apply (int_of_group1_digits m ds Hg); [| exact Hd |].
  - destruct ds; [discriminate Hl | discriminate].
  - rewrite Hl. unfold int_max_str_digits. lia.
Qed.

(** ** Decimal output *)

Lemma string_of_uint_digits (d : Decimal.uint) :
  all_digits (NilEmpty.string_of_uint d) = true.
Proof. induction d; simpl; auto. Qed.

Lemma py_str_nonneg (n : Z) :
  0 <= n -> py_str n <> "" /\ all_digits (py_str n) = true.
Proof.
  intros Hn. unfold py_str.
  destruct (Z.to_int n) as [d|d] eqn:E.
  - change (NilZero.string_of_int (Decimal.Pos d)) with (NilZero.string_of_uint d).
    unfold NilZero.string_of_uint. destruct d; simpl;
      try (split; [discriminate | try reflexivity; apply string_of_uint_digits]).
  - exfalso. destruct n as [|p|p]; simpl in E; try discriminate E. lia.
Qed.

Lemma read_decimal_zeros (k : nat) (s : string) :
  s <> "" -> read_decimal (zeros k +:+ s) = read_decimal s.
Proof.
  intros Hne. induction k as [|k IH]; [reflexivity |].
  simpl. rewrite <- IH. unfold read_decimal, NilZero.uint_of_string.
  destruct (zeros k +:+ s) as [|a t] eqn:E.
  - exfalso. destruct k; simpl in E; [congruence | discriminate E].
  - simpl. destruct (uint_of_char a (NilEmpty.uint_of_string t)); reflexivity.
Qed.



(** [f"{n:03d}"] of a number that is not negative: its decimal digits,
    with zeros in front up to three characters, never cut *)
Lemma fmt_03d_nonneg (n : Z) :
  0 <= n ->
  fmt_03d n = zeros (3 - String.length (py_str n)) +:+ py_str n /\
  read_decimal (fmt_03d n) = Some n /\
  String.length (fmt_03d n) = Nat.max 3 (String.length (py_str n)).
Proof.
  intros Hn. unfold fmt_03d. destruct (Z.ltb_spec n 0) as [Hlt|_]; [lia |].
  split; [reflexivity |]. split.
  - rewrite read_decimal_zeros; [now apply read_decimal_py_str | now apply py_str_nonneg].
  - rewrite length_append, length_zeros. lia.
Qed.


(** *** File names *)

Lemma append_inj_r (a b c : string) : a +:+ c = b +:+ c -> a = b.
Proof.
  revert b; induction a as [|x a IH]; intros b H.
  - destruct b as [|y b]; [reflexivity |].
    apply (f_equal String.length) in H. simpl in H. rewrite length_append in H. lia.
  - destruct b as [|y b].
    + apply (f_equal String.length) in H. simpl in H. rewrite length_append in H. lia.
    + simpl in H. injection H as -> H. f_equal. now apply IH.
Qed.

Lemma append_inj_l (a b c : string) : a +:+ b = a +:+ c -> b = c.
Proof.
  induction a as [|x a IH]; simpl; intros H; [exact H |].
  injection H as H. now apply IH.
Qed.

Lemma fmt_03d_inj (a b : Z) : 0 <= a -> 0 <= b -> fmt_03d a = fmt_03d b -> a = b.
Proof.
  intros Ha Hb H.
  destruct (fmt_03d_nonneg a Ha) as (_ & Ia & _).
  destruct (fmt_03d_nonneg b Hb) as (_ & Ib & _).
  rewrite H in Ia. congruence.
Qed.

Lemma band_file_name_inj (region_name : string) (year a b : Z) :
  0 <= a -> 0 <= b ->
  band_file_name region_name year a = band_file_name region_name year b -> a = b.
Proof.
  intros Ha Hb H. unfold band_file_name in H.
  do 5 apply append_inj_l in H. apply append_inj_r in H.
  now apply fmt_03d_inj.
Qed.

Lemma band_path_eq (output_dir : string) (year : Z) (region_name : string) (doy : Z) :
  band_path output_dir year region_name doy =
  (if String.eqb output_dir "" || endswith output_dir "/"
   then output_dir else output_dir +:+ "/")
  +:+ band_file_name region_name year doy.
Proof.
  unfold band_path, path_join. cbn [fold_left]. unfold path_join2.
  change (startswith (band_file_name region_name year doy) "/") with false.
  destruct (String.eqb output_dir "" || endswith output_dir "/"); [reflexivity |].
  now rewrite append_assoc.
Qed.

Lemma band_path_inj (output_dir : string) (year : Z) (region_name : string) (a b : Z) :
  0 <= a -> 0 <= b ->
  band_path output_dir year region_name a = band_path output_dir year region_name b ->
  a = b.
Proof.
  intros Ha Hb H. rewrite !band_path_eq in H.
  apply append_inj_l in H. now apply (band_file_name_inj region_name year).
Qed.


(** ** Every band, when every label is a string and every path can be
    written *)

Section AllBands.

Variable env : Env.
Variables (mosaic : ndarray) (out_meta : nat) (labels : list (option string)).
Variables (output_dir : string) (year : Z) (region_name : string) (crs : value).

Hypothesis writable : forall p, env_writable env p = true.
Hypothesis year_prints : too_wide year = false.


End AllBands.

(** ** C10: no range check on the day-of-year *)







Example doy_zero_accepted :
  extract_doy_from_band_name (Some "Syn_VI_fitted0") = Ret (Some 0) /\
  band_file_name "R" 2020 0 = "NDVI_R_2020_000.tif".
Proof. split; reflexivity. Qed.

Example doy_1234_accepted :
  extract_doy_from_band_name (Some "Syn_VI_fitted1234") = Ret (Some 1234) /\
  band_file_name "R" 2020 1234 = "NDVI_R_2020_1234.tif".
Proof. split; reflexivity. Qed.

(** ** Tile Merger *)

(** C4. [merge_tiff_files] on the empty list raises [ValueError], the
    exception the notebook uses for an invalid input, and leaves the world
    as it was: no handle was opened. *)
Theorem merge_tiff_files_empty (env : Env) (w : World) :
  merge_tiff_files env [] w = (Raise (ValueError "No TIFF files to merge."), w).
Proof. reflexivity. Qed.

Section Merger.

Variable env : Env.

Lemma map_snd_number_from (h : nat) (dss : list dataset) :
  map snd (number_from h dss) = dss.
Proof. revert h; induction dss as [|d dss IH]; intros h; simpl; [| rewrite IH]; reflexivity. Qed.

Lemma map_fst_number_from (h : nat) (dss : list dataset) :
  map fst (number_from h dss) = seq h (length dss).
Proof. revert h; induction dss as [|d dss IH]; intros h; simpl; [| rewrite IH]; reflexivity. Qed.

Lemma opened_opened (w : World) (n : nat) :
  opened (opened w 1) n = opened w (S n).
Proof.
  unfold opened. cbn [w_dicts w_open w_opened w_written w_dirs w_stdout].
  f_equal.
  - rewrite <- app_assoc. simpl. now rewrite Nat.add_1_r.
  - lia.
Qed.

Lemma open_tiles_ok (files : list string) (dss : list dataset)
    (srcs : list (nat * dataset)) (bd : option (list (option string))) (w : World) :
  Forall2 (fun p d => env_open env p = Some d) files dss ->
  open_tiles env files srcs bd w =
  (Ret (srcs ++ number_from (w_opened w) dss, first_labels bd dss),
   opened w (length files)).
Proof.
  intros H. revert srcs bd w.
  induction H as [|p d files dss Hp _ IH]; intros srcs bd w.
  - simpl. unfold ret, opened. rewrite app_nil_r. simpl.
    rewrite app_nil_r, Nat.add_0_r. destruct w, bd; reflexivity.
  - simpl. unfold bind, rio_open. rewrite Hp.
    rewrite IH. cbn [w_opened snd]. rewrite <- app_assoc.
    change (length (p :: files)) with (S (length files)).
    rewrite <- opened_opened. f_equal.
    + f_equal. destruct bd; reflexivity.
    + unfold opened at 2. simpl. now rewrite Nat.add_1_r.
Qed.

Lemma for_each_close (srcs : list (nat * dataset)) (w : World) :
  for_each srcs (fun src => rio_close (fst src)) w = (Ret tt, closed w (map fst srcs)).
Proof.
  revert w; induction srcs as [|src srcs IH]; intros w.
  - simpl. unfold ret, closed. destruct w; reflexivity.
  - simpl. unfold bind, rio_close. rewrite IH. reflexivity.
Qed.

Lemma close_handles_sub (hs open : list nat) (h : nat) :
  h ∈ close_handles hs open -> h ∈ open.
Proof.
  revert open; induction hs as [|x hs IH]; intros open; simpl; [tauto |].
  intros H. apply IH in H. apply list_elem_of_filter in H. tauto.
Qed.

Lemma close_handles_gone (hs open : list nat) (h : nat) :
  h ∈ hs -> h ∉ close_handles hs open.
Proof.
  revert open; induction hs as [|x hs IH]; intros open Hin; [inversion Hin |].
  simpl. apply elem_of_cons in Hin as [-> | Hin]; [| now apply IH].
  intros H. apply close_handles_sub, list_elem_of_filter in H. tauto.
Qed.

(** When every tile opens and the mosaic operation succeeds, the merger
    returns the mosaic, a new dict (the first tile's metadata with the
    transform of the mosaic) and the labels of the first tile, and it has
    closed every handle it opened. *)
Lemma merge_tiff_files_ok (p : string) (ps : list string) (d : dataset)
    (dss : list dataset) (mosaic : ndarray) (out_trans : value) (w : World) :
  env_open env p = Some d ->
  Forall2 (fun q ds => env_open env q = Some ds) ps dss ->
  env_merge env (d :: dss) = Some (mosaic, out_trans) ->
  exists out_meta w',
    merge_tiff_files env (p :: ps) w
      = (Ret (mosaic, out_meta, Some (ds_descriptions d)), w') /\
    w_dicts w !! out_meta = None /\
    w_dicts w' !! out_meta = Some (<["transform" := out_trans]> (ds_meta d)) /\
    (forall h, (w_opened w <= h < w_opened w')%nat -> h ∉ w_open w') /\
    (forall h, h ∈ w_open w' -> h ∈ w_open w).
Proof.
  intros Hp Hps Hm.
  assert (Hall : Forall2 (fun q ds => env_open env q = Some ds) (p :: ps) (d :: dss))
    by now constructor.
  unfold merge_tiff_files. change (length (p :: ps) =? 0)%nat with false. cbv iota.
  unfold bind at 1. rewrite (open_tiles_ok _ _ [] None w Hall).
  cbn [app first_labels number_from].
  unfold bind at 1, rio_merge. cbn [map snd]. rewrite map_snd_number_from, Hm.
  unfold ret at 1. unfold bind at 1. unfold ret at 1.
  unfold bind at 1, dict_new.
  set (w1 := opened w (length (p :: ps))).
  set (addr := fresh (dom (w_dicts w1))).
  unfold bind at 1, dict_update. unfold bind at 1. rewrite for_each_close.
  unfold ret. eexists addr, _. split; [reflexivity |].
  assert (Hfresh : w_dicts w !! addr = None).
  { apply not_elem_of_dom. apply is_fresh. }
  split; [exact Hfresh |]. split.
  - cbn [closed w_dicts set_dict]. rewrite lookup_insert_eq.
    rewrite dict_at_set_dict. reflexivity.
  - cbn [closed w_open w_opened set_dict map fst]. rewrite map_fst_number_from.
    unfold w1, opened. cbn [w_open w_opened]. split.
    + intros h Hh. apply close_handles_gone.
      change (h ∈ seq (w_opened w) (S (length dss))).
      apply list_elem_of_In, in_seq.
      pose proof (Forall2_length _ _ _ Hps) as Hlen. simpl in Hh. lia.
    + intros h Hh. pose proof (close_handles_sub _ _ _ Hh) as Hsub.
      apply elem_of_app in Hsub as [Hsub | Hsub]; [exact Hsub |].
      exfalso. simpl in Hsub. rewrite (Forall2_length _ _ _ Hps) in Hsub.
      exact (close_handles_gone _ _ _ Hsub Hh).
Qed.

(** A tile that does not open ends the call with the exception of the
    open; the tiles opened before it stay open. *)
Lemma open_tiles_fail (files1 : list string) (dss : list dataset) (q : string)
    (files2 : list string) (srcs : list (nat * dataset))
    (bd : option (list (option string))) (w : World) :
  Forall2 (fun p d => env_open env p = Some d) files1 dss ->
  env_open env q = None ->
  open_tiles env (files1 ++ q :: files2) srcs bd w =
  (Raise (RasterioIOError q), opened w (length files1)).
Proof.
  intros H Hq. revert srcs bd w.
  induction H as [|p d files1 dss Hp _ IH]; intros srcs bd w.
  - simpl. unfold bind, rio_open. rewrite Hq. unfold opened. simpl.
    rewrite app_nil_r, Nat.add_0_r. destruct w; reflexivity.
  - simpl. unfold bind, rio_open. rewrite Hp. rewrite IH.
    rewrite <- opened_opened. f_equal.
    unfold opened at 2. simpl. now rewrite Nat.add_1_r.
Qed.

Lemma merge_tiff_files_open_fails (files1 : list string) (dss : list dataset)
    (q : string) (files2 : list string) (w : World) :
  Forall2 (fun p d => env_open env p = Some d) files1 dss ->
  env_open env q = None ->
  merge_tiff_files env (files1 ++ q :: files2) w =
  (Raise (RasterioIOError q), opened w (length files1)).
Proof.
  intros H Hq. unfold merge_tiff_files.
  destruct (Nat.eqb_spec (length (files1 ++ q :: files2)) 0) as [E|_].
  - rewrite length_app in E. simpl in E. lia.
  - unfold bind. now rewrite (open_tiles_fail _ _ _ _ _ _ _ H Hq).
Qed.

(** A mosaic operation that raises ends the call with every tile open. *)
Lemma merge_tiff_files_mosaic_fails (p : string) (ps : list string)
    (dss : list dataset) (w : World) :
  Forall2 (fun q d => env_open env q = Some d) (p :: ps) dss ->
  env_merge env dss = None ->
  merge_tiff_files env (p :: ps) w =
  (Raise MergeError, opened w (length (p :: ps))).
Proof.
  intros H Hm. unfold merge_tiff_files.
  change (length (p :: ps) =? 0)%nat with false. cbv iota.
  unfold bind at 1. rewrite (open_tiles_ok _ _ [] None w H).
  cbn [app]. unfold bind, rio_merge. now rewrite map_snd_number_from, Hm.
Qed.

End Merger.

(** C5. When the merger returns, the band labels it returns are those of the
    first tile of the list, whatever the labels of the other tiles are. *)
Theorem merge_tiff_files_labels_of_first_tile (env : Env) (p : string)
    (ps : list string) (d : dataset) (dss : list dataset) (mosaic : ndarray)
    (out_trans : value) (w : World) :
  env_open env p = Some d ->
  Forall2 (fun q ds => env_open env q = Some ds) ps dss ->
  env_merge env (d :: dss) = Some (mosaic, out_trans) ->
  exists out_meta w',
    merge_tiff_files env (p :: ps) w
      = (Ret (mosaic, out_meta, Some (ds_descriptions d)), w').
Proof.
  intros Hp Hps Hm.
  destruct (merge_tiff_files_ok env p ps d dss mosaic out_trans w Hp Hps Hm)
    as (out_meta & w' & H & _).
  now exists out_meta, w'.
Qed.

Lemma merge_tiff_files_labels_of_first_tile_witness :
  exists out_meta w',
    merge_tiff_files two_tiles ["a.tif"; "b.tif"] empty_world
      = (Ret (two_bands, out_meta,
              Some [Some "Syn_VI_fitted001"; Some "Syn_VI_fitted017"]), w').
Proof.
  apply (merge_tiff_files_labels_of_first_tile two_tiles "a.tif" ["b.tif"]
           tile_a [tile_b] two_bands (VObj 7) empty_world).
  - reflexivity.
  - repeat constructor.
  - reflexivity.
Defined.

(** ** C1: the handles on a failing path *)

(** C1 does not hold of the code.  With two tiles of which the second does
    not open, [merge_tiff_files] raises and the handle of the first tile
    (handle 0) is still open; when the mosaic operation raises, both handles
    are still open.  When nothing raises, both are closed. *)
Theorem merge_tiff_files_leaves_handles_open :
  (exists w',
      merge_tiff_files second_tile_unreadable ["a.tif"; "b.tif"] empty_world
        = (Raise (RasterioIOError "b.tif"), w') /\
      w_open w' = [0%nat]) /\
  (exists w',
      merge_tiff_files mosaic_raises ["a.tif"; "b.tif"] empty_world
        = (Raise MergeError, w') /\
      w_open w' = [0%nat; 1%nat]) /\
  (exists r w',
      merge_tiff_files two_tiles ["a.tif"; "b.tif"] empty_world = (Ret r, w') /\
      w_open w' = [] /\ w_opened w' = 2%nat).
Proof.
  split; [| split].
  - eexists. split; [reflexivity | reflexivity].
  - eexists. split; [reflexivity | reflexivity].
  - eexists _, _. split; [vm_compute; reflexivity | split; reflexivity].
Qed.


(** ** Region Orchestrator: the grouping *)

Lemma files_of_year_setdefault (year y : Z) (path : string) (d : list (Z * list string)) :
  files_of_year year (setdefault_append y path d) =
  if y =? year then files_of_year year d ++ [path] else files_of_year year d.
Proof.
  induction d as [|[y' paths] d IH]; simpl.
  - now destruct (y =? year).
  - destruct (Z.eqb_spec y' y) as [->|Hne]; simpl.
    + now destruct (y =? year).
    + destruct (Z.eqb_spec y' year) as [->|Hne'].
      * destruct (Z.eqb_spec y year); [congruence | reflexivity].
      * exact IH.
Qed.

(** The grouping loop never raises.  Under each year it appends, in the
    order of the listing, the paths of the names that end in [.tif] and
    parse to that year, the year zero left out. *)
Lemma group_by_year_spec (region_path : string) (listing : list string)
    (acc : list (Z * list string)) :
  exists g,
    group_by_year region_path listing acc = Ret g /\
    forall year,
      files_of_year year g =
      files_of_year year acc ++
      map (fun filename => path_join region_path [filename])
          (List.filter (fun filename => endswith filename ".tif" && names_year year filename)
                       listing).
Proof.
  revert acc; induction listing as [|filename rest IH]; intros acc.
  - exists acc. split; [reflexivity |]. intros year. simpl. now rewrite app_nil_r.
  - simpl. unfold names_year at 1.
    destruct (endswith filename ".tif"); simpl; [| apply IH].
    destruct (extract_year_total filename) as [Hx | (n & _ & Hx)]; rewrite Hx; simpl.
    + apply IH.
    + destruct (Z.eqb_spec n 0) as [->|Hn]; simpl.
      * destruct (IH acc) as (g & Hg & Hfiles). exists g. split; [exact Hg |].
        intros year. rewrite Hfiles. now rewrite andb_false_r.
      * destruct (IH (setdefault_append n (path_join region_path [filename]) acc))
          as (g & Hg & Hfiles).
        exists g. split; [exact Hg |]. intros year.
        rewrite Hfiles, files_of_year_setdefault, andb_true_r.
        destruct (n =? year); simpl; [now rewrite <- app_assoc | reflexivity].
Qed.

(** C7 does not hold of the code.  The name [tile_0000.tif] has the raster
    extension and [extract_year_from_filename] returns a year for it, the
    integer 0; the test [if year:] takes 0 for false and the file is left
    out of the grouping, also when other files of the listing are kept. *)
Theorem group_by_year_drops_year_zero :
  endswith "tile_0000.tif" ".tif" = true /\
  extract_year_from_filename "tile_0000.tif" = Ret (Some 0) /\
  group_by_year "in/R" ["tile_0000.tif"] [] = Ret [] /\
  group_by_year "in/R" ["tile_0000.tif"; "tile_2021.tif"] []
    = Ret [(2021, ["in/R/tile_2021.tif"])].
Proof. repeat split; reflexivity. Qed.

(** * Further properties of the notebook's functions *)

(** ** Filename Parser *)

(** X1. On a string [extract_doy_from_band_name] has one of three outcomes,
    and the label decides which.  Without a marker that a digit follows
    it returns [None].  Otherwise take the digits after the leftmost such
    marker: when they are at most [int_max_str_digits] (4300) it returns
    the number they spell, which lies from 0 to [10 ^ 4300 - 1]; when they
    are more it raises the [ValueError] of [int].  It raises nothing else
    on a string. *)
Theorem extract_doy_from_band_name_outcomes (s : string) :
  ((forall pre ds post, ~ doy_run s pre ds post) /\
   extract_doy_from_band_name (Some s) = Ret None) \/
  (exists pre ds post,
      doy_run s pre ds post /\
      (forall pre' ds' post', doy_run s pre' ds' post' ->
                              (String.length pre <= String.length pre')%nat) /\
      ((Z.of_nat (String.length ds) <= int_max_str_digits /\
        0 <= decimal_value 0 ds < 10 ^ int_max_str_digits /\
        extract_doy_from_band_name (Some s) = Ret (Some (decimal_value 0 ds))) \/
       (int_max_str_digits < Z.of_nat (String.length ds) /\
        extract_doy_from_band_name (Some s)
          = Raise (ValueError (int_limit_message (String.length ds)))))).
Proof. exact (extract_doy_cases s). Qed.

Lemma year_tail_inv (post : string) (m : rmatched) :
  In m (rmatch year_tail post) -> year_bound post.
Proof.
  unfold year_tail. cbn [rmatch]. rewrite in_app_iff. intros [H | H].
  - destruct post as [|c r]; [destruct H |].
    change (in_class (OneOf year_separators) c) with (is_separator c) in H.
    destruct (is_separator c) eqn:Hc; [| destruct H]. left. exact Hc.
  - destruct post as [|a [|b r]]; simpl in H.
    + left. exact I.
    + destruct (Ascii.eqb a newline) eqn:Ha; [| destruct H].
      apply Ascii.eqb_eq in Ha. subst a. now right.
    + destruct H.
Qed.

(** a match of the year pattern at the start of a text: the underscore,
    four digits that are the group, and a bound the pattern accepts *)
Lemma year_rmatch_inv (suf : string) (m : rmatched) :
  In m (rmatch year_pattern suf) ->
  exists ds post,
    suf = "_" +:+ ds +:+ post /\ String.length ds = 4%nat /\ all_digits ds = true /\
    year_bound post /\ m_group1 m = Some ds.
Proof.
  rewrite year_rmatch.
  destruct (strip_prefix "_" suf) as [rest|] eqn:E; [| intros []].
  apply strip_prefix_Some in E. subst suf.
  rewrite in_map_iff. intros (m0 & <- & Hin). rewrite year_body_eq in Hin.
  destruct (rep_matches_inv 4 rest) as [Hnil | (ds & post & -> & Hlen & Hd)];
    [rewrite Hnil in Hin; destruct Hin |].
  rewrite (rep_matches_hit 4 ds post Hlen Hd) in Hin.
  cbn [map flat_map m_rest m_text] in Hin. rewrite app_nil_r, in_map_iff in Hin.
  destruct Hin as (m3 & <- & Hin3).
  exists ds, post. repeat split; try assumption.
  - now apply (year_tail_inv post m3).
  - unfold then_match. cbn [m_group1]. now rewrite (year_tail_group post m3 Hin3).
Qed.

Lemma extract_year_range (s : string) :
  extract_year_from_filename s = Ret None \/
  exists n, 0 <= n <= 9999 /\ extract_year_from_filename s = Ret (Some n).
Proof.
  unfold extract_year_from_filename.
  destruct (re_search year_pattern s) as [m|] eqn:E; [right | now left].
  destruct (re_search_Some _ _ _ E) as (pre & suf & _ & Hin).
  destruct (year_match_group suf m Hin) as (ds & Hg & Hl & Hd).
  assert (Hne : ds <> "") by (destruct ds; [discriminate Hl | discriminate]).
  exists (decimal_value 0 ds). split.
  - pose proof (decimal_value_bounds ds 0 Hd ltac:(lia)) as B.
    rewrite Hl in B. change (10 ^ Z.of_nat 4) with 10000 in B. lia.
  - unfold int_of_group1. rewrite Hg, (py_int_decimal_value ds Hne Hd); [reflexivity |].
    rewrite Hl. unfold int_max_str_digits. lia.
Qed.

(** X2. On every file name [extract_year_from_filename] returns: either [None]
    or a year between 0 and 9999.  It never raises. *)
Theorem extract_year_from_filename_returns (s : string) :
  extract_year_from_filename s = Ret None \/
  exists n, 0 <= n <= 9999 /\ extract_year_from_filename s = Ret (Some n).
Proof. exact (extract_year_range s). Qed.

Lemma drop_string_split (k : nat) (s : string) :
  exists x, s = x +:+ drop_string k s.
Proof.
  revert s; induction k as [|k IH]; intros s.
  - exists "". now destruct s.
  - destruct s as [|a s]; [now exists "" |].
    destruct (IH s) as [x Hx]. exists (String a x). simpl. now rewrite <- Hx.
Qed.

Lemma endswith_split (s suffix : string) :
  endswith s suffix = true -> exists x, s = x +:+ suffix.
Proof.
  unfold endswith. intros H. apply andb_prop in H as [_ H].
  apply String.eqb_eq in H.
  destruct (drop_string_split (String.length s - String.length suffix) s) as [x Hx].
  exists x. now rewrite H in Hx.
Qed.

Lemma last_char_append (a b : string) :
  b <> "" -> last_char (a +:+ b) = last_char b.
Proof.
  intros Hb. induction a as [|c a IH]; [reflexivity |].
  simpl. rewrite IH. destruct (a +:+ b) eqn:E; [| reflexivity].
  destruct a; simpl in E; [congruence | discriminate E].
Qed.

Lemma last_char_digits (ds : string) :
  ds <> "" -> all_digits ds = true ->
  exists c, last_char ds = Some c /\ is_digit c = true.
Proof.
  induction ds as [|a ds IH]; intros Hne Hd; [congruence |].
  simpl in Hd. apply andb_prop in Hd as [Ha Hd].
  destruct ds as [|b ds]; [exists a; now split |].
  destruct (IH ltac:(discriminate) Hd) as (c & Hc & Hdc).
  exists c. split; [exact Hc | exact Hdc].
Qed.

(** in a name that ends in [.tif] the bound after the four digits is a
    separator: not the end of the name, not a final newline *)
Lemma year_run_tif_separator (s pre ds post : string) :
  endswith s ".tif" = true ->
  year_run s pre ds post ->
  exists c rest, post = String c rest /\ is_separator c = true.
Proof.
  intros Hend (E & Hl & Hd & Hb).
  destruct (endswith_split s ".tif" Hend) as [x Hx].
  assert (Hlast : last_char s = Some "f"%char)
    by (rewrite Hx, last_char_append; [reflexivity | discriminate]).
  assert (Hne : ds <> "") by (destruct ds; [discriminate Hl | discriminate]).
  destruct Hb as [Hb | ->].
  - destruct post as [|c rest]; [| now exists c, rest].
    exfalso. rewrite E, append_empty_r in Hlast.
    rewrite last_char_append, last_char_append in Hlast by (try discriminate; exact Hne).
    destruct (last_char_digits ds Hne Hd) as (c & Hc & Hdc).
    rewrite Hc in Hlast. injection Hlast as ->. vm_compute in Hdc. discriminate Hdc.
  - exfalso. rewrite E in Hlast.
    rewrite (last_char_append pre) in Hlast by discriminate.
    rewrite (last_char_append "_") in Hlast by (destruct ds; discriminate).
    rewrite (last_char_append ds) in Hlast by discriminate.
    vm_compute in Hlast. discriminate Hlast.
Qed.

Lemma extract_year_tif_place (s : string) (n : Z) :
  endswith s ".tif" = true ->
  extract_year_from_filename s = Ret (Some n) ->
  exists pre ds c rest,
    s = pre +:+ "_" +:+ ds +:+ String c rest /\
    String.length ds = 4%nat /\ all_digits ds = true /\
    is_separator c = true /\ n = decimal_value 0 ds.
Proof.
  intros Hend. unfold extract_year_from_filename.
  destruct (re_search year_pattern s) as [m|] eqn:E; [| discriminate].
  destruct (re_search_Some _ _ _ E) as (pre & suf & Es & Hin).
  destruct (year_rmatch_inv suf m Hin) as (ds & post & -> & Hlen & Hd & Hb & Hg).
  assert (Hrun : year_run s pre ds post) by (repeat split; assumption).
  destruct (year_run_tif_separator s pre ds post Hend Hrun) as (c & rest & -> & Hc).
  assert (Hne : ds <> "") by (destruct ds; [discriminate Hlen | discriminate]).
  rewrite (int_of_group1_short m ds Hg Hne Hd)
    by (rewrite Hlen; unfold int_max_str_digits; lia).
  intros [= <-]. exists pre, ds, c, rest. repeat split; assumption.
Qed.

(** X3. For a name that ends in [.tif], the only names [process_region]
    passes to the parser, the year [extract_year_from_filename] returns is
    spelled in the name by an underscore, four digits and one of the
    separators [.], [-], [_]: the alternatives of the pattern for the end
    of the string and for a final newline never apply.  A name in [.tif]
    without such a place gives [None]. *)
Theorem year_of_tif_name_has_separator (s : string) :
  endswith s ".tif" = true ->
  (forall n, extract_year_from_filename s = Ret (Some n) ->
             exists pre ds c rest,
               s = pre +:+ "_" +:+ ds +:+ String c rest /\
               String.length ds = 4%nat /\ all_digits ds = true /\
               is_separator c = true /\ n = decimal_value 0 ds) /\
  ((forall pre ds c rest,
       s = pre +:+ "_" +:+ ds +:+ String c rest -> String.length ds = 4%nat ->
       all_digits ds = true -> is_separator c = false) ->
   extract_year_from_filename s = Ret None).
Proof.
  intros Hend. split.
  - intros n. now apply extract_year_tif_place.
  - intros Hno. destruct (extract_year_range s) as [H | (n & _ & H)]; [exact H |].
    destruct (extract_year_tif_place s n Hend H) as (pre & ds & c & rest & E & Hl & Hd & Hc & _).
    rewrite (Hno pre ds c rest E Hl Hd) in Hc. discriminate Hc.
Qed.

Lemma year_of_tif_name_has_separator_witness :
  (forall n, extract_year_from_filename "tile_2021.tif" = Ret (Some n) ->
             exists pre ds c rest,
               "tile_2021.tif" = pre +:+ "_" +:+ ds +:+ String c rest /\
               String.length ds = 4%nat /\ all_digits ds = true /\
               is_separator c = true /\ n = decimal_value 0 ds) /\
  ((forall pre ds c rest,
       "tile_2021.tif" = pre +:+ "_" +:+ ds +:+ String c rest ->
       String.length ds = 4%nat -> all_digits ds = true -> is_separator c = false) ->
   extract_year_from_filename "tile_2021.tif" = Ret None).
Proof.
  apply (year_of_tif_name_has_separator "tile_2021.tif"). reflexivity.
Defined.

(** ** The grouping of [process_region] *)

(** X4. The grouping loop never raises, and for every year other than zero
    the group of that year holds, in the order of the listing, the paths of
    exactly the names that end in [.tif] and parse to that year. *)
Theorem group_by_year_groups_each_year (region_path : string) (listing : list string) :
  exists g,
    group_by_year region_path listing [] = Ret g /\
    forall year, year <> 0 ->
      files_of_year year g =
      map (fun filename => path_join region_path [filename])
          (List.filter (fun filename => endswith filename ".tif" && parses_to_year year filename)
                       listing).
Proof.
  destruct (group_by_year_spec region_path listing []) as (g & Hg & Hfiles).
  exists g. split; [exact Hg |]. intros year Hy. rewrite Hfiles. simpl. f_equal.
  apply List.filter_ext. intros f. f_equal.
  unfold names_year, parses_to_year.
  destruct (extract_year_from_filename f) as [[n|]|]; try reflexivity.
  destruct (Z.eqb_spec n year) as [->|]; [| reflexivity].
  destruct (Z.eqb_spec year 0); [contradiction | reflexivity].
Qed.

Lemma setdefault_append_keys (y : Z) (path : string) (d : list (Z * list string)) (k : Z) :
  k ∈ map fst (setdefault_append y path d) <-> k = y \/ k ∈ map fst d.
Proof.
  induction d as [|[y' paths] d IH]; simpl.
  - rewrite elem_of_cons. split; [intros [H|H]; [now left | inversion H] | intros [H|H]; [now left | inversion H]].
  - destruct (Z.eqb_spec y' y) as [->|Hne]; simpl; rewrite !elem_of_cons.
    + tauto.
    + rewrite IH. tauto.
Qed.

Lemma setdefault_append_well_grouped (y : Z) (path : string) (d : list (Z * list string)) :
  1 <= y <= 9999 -> well_grouped d -> well_grouped (setdefault_append y path d).
Proof.
  intros Hy [Hnd Hall]. induction d as [|[y' paths] d IH]; simpl.
  - split.
    + apply NoDup_cons. split; [intros H; inversion H | constructor].
    + repeat constructor; simpl; [discriminate | lia | lia].
  - apply NoDup_cons in Hnd as [Hnotin Hnd]. inversion Hall as [|? ? [Hne Hr] Hall']; subst.
    simpl in *.
    destruct (Z.eqb_spec y' y) as [->|Hneq].
    + split; [apply NoDup_cons; now split |].
      constructor; [| exact Hall']. simpl. split; [| exact Hr].
      destruct paths; discriminate.
    + destruct (IH Hnd Hall') as [Hnd' Hall''].
      split.
      * simpl. apply NoDup_cons. split; [| exact Hnd'].
        rewrite setdefault_append_keys. intros [H|H]; [congruence | contradiction].
      * constructor; [simpl; now split | exact Hall''].
Qed.

Lemma group_by_year_well_grouped (region_path : string) (listing : list string)
    (acc g : list (Z * list string)) :
  well_grouped acc ->
  group_by_year region_path listing acc = Ret g ->
  well_grouped g.
Proof.
  revert acc; induction listing as [|filename rest IH]; intros acc Hacc H.
  - simpl in H. now injection H as <-.
  - simpl in H. destruct (endswith filename ".tif"); [| exact (IH acc Hacc H)].
    destruct (extract_year_range filename) as [Hx | (n & Hn & Hx)]; rewrite Hx in H.
    + exact (IH acc Hacc H).
    + simpl in H. destruct (Z.eqb_spec n 0) as [E0|Hn0]; simpl in H.
      * exact (IH acc Hacc H).
      * apply (IH _ (setdefault_append_well_grouped n _ acc ltac:(lia) Hacc) H).
Qed.

Lemma well_grouped_nil : well_grouped [].
Proof. split; constructor. Qed.

(** X5. The grouping of a listing never raises and yields a dict with
    distinct years, each from 1 to 9999, and no empty group: the merger is
    never handed an empty list of tiles by [process_region]. *)
Theorem group_by_year_nonempty_groups (region_path : string) (listing : list string) :
  exists g,
    group_by_year region_path listing [] = Ret g /\
    NoDup (map fst g) /\
    forall year tiff_files, (year, tiff_files) ∈ g ->
                            tiff_files <> [] /\ 1 <= year <= 9999.
Proof.
  destruct (group_by_year_spec region_path listing []) as (g & Hg & _).
  exists g. split; [exact Hg |].
  destruct (group_by_year_well_grouped region_path listing [] g well_grouped_nil Hg)
    as [Hnd Hall].
  split; [exact Hnd |]. intros year tiff_files Hin.
  rewrite Forall_forall in Hall. exact (Hall (year, tiff_files) Hin).
Qed.

(** ** The loop of [process_and_save_bands] *)

(** a label given in full is a string of at most [int_max_str_digits]
    characters *)
Ltac short_label :=
  eexists; split; [reflexivity | unfold int_max_str_digits; simpl; lia].

Lemma for_each_stops {A} (l1 : list A) (x : A) (l2 : list A) (body : A -> M unit)
    (w w1 wx : World) (e : exn) :
  for_each l1 body w = (Ret tt, w1) ->
  body x w1 = (Raise e, wx) ->
  for_each (l1 ++ x :: l2) body w = (Raise e, wx).
Proof.
  revert w; induction l1 as [|y l1 IH]; intros w H1 Hx.
  - injection H1 as <-. simpl. unfold bind. now rewrite Hx.
  - simpl in *. unfold bind in *.
    destruct (body y w) as [[[]|e'] w'] eqn:Hy; [| discriminate H1].
    now apply IH.
Qed.

Lemma seq_split (k n : nat) :
  (k < n)%nat -> seq 0 n = seq 0 k ++ k :: seq (S k) (n - S k).
Proof.
  intros H. replace n with (k + S (n - S k))%nat at 1 by lia.
  rewrite seq_app. reflexivity.
Qed.

Lemma file_at_app (l1 l2 : list (string * raster_file)) (path : string) :
  file_at (l1 ++ l2) path =
  match file_at l2 path with
  | Some f => Some f
  | None => file_at l1 path
  end.
Proof.
  induction l1 as [|[p f] l1 IH]; simpl.
  - now destruct (file_at l2 path).
  - rewrite IH. now destruct (file_at l2 path).
Qed.

Section BandLoop.

Variable env : Env.
Variables (mosaic : ndarray) (out_meta : nat) (labels : list (option string)).
Variables (output_dir : string) (year : Z) (region_name : string) (crs : value).

Lemma save_band_none_label (i : nat) (w : World) :
  labels !! i = Some None ->
  save_band env mosaic out_meta (Some labels) output_dir year region_name crs i w
    = (Raise TypeError, w).
Proof.
  intros Hl. unfold save_band, bind, subscript, lift. rewrite Hl. reflexivity.
Qed.

Lemma save_band_no_label (i : nat) (w : World) :
  labels !! i = None ->
  save_band env mosaic out_meta (Some labels) output_dir year region_name crs i w
    = (Raise IndexError, w).
Proof.
  intros Hl. unfold save_band, bind, subscript, lift. rewrite Hl. reflexivity.
Qed.

Lemma save_band_unwritable (i : nat) (s : string) (doy : Z) (data : band) (w : World) :
  labels !! i = Some (Some s) ->
  extract_doy_from_band_name (Some s) = Ret (Some doy) ->
  too_wide year = false ->
  nd_bands mosaic !! i = Some data ->
  env_writable env (band_path output_dir year region_name doy) = false ->
  save_band env mosaic out_meta (Some labels) output_dir year region_name crs i w
    = (Raise (RasterioIOError (band_path output_dir year region_name doy)),
       profiled mosaic out_meta crs w).
Proof.
  intros Hl Hx Hy Hb Hw. pose proof (extract_doy_prints s doy Hx) as Hdoy.
  unfold save_band, bind, subscript, lift, band_slice, check_str_digits.
  rewrite Hl. unfold ret. rewrite Hx, Hy, Hdoy, Hb. unfold ret.
  unfold dict_update, dict_items, rio_write. cbn [fst snd].
  fold (band_path output_dir year region_name doy). rewrite Hw. reflexivity.
Qed.

(** the loop over bands that all have a string label the parser returns
    on and whose files can all be named and written: what it writes, and
    what it leaves in the world *)
Lemma for_each_save_band_exact (idxs : list nat) (w : World) :
  (forall i, In i idxs ->
             exists s data o, labels !! i = Some (Some s) /\
                              nd_bands mosaic !! i = Some data /\
                              extract_doy_from_band_name (Some s) = Ret o) ->
  (forall i s doy, In i idxs -> labels !! i = Some (Some s) ->
                   extract_doy_from_band_name (Some s) = Ret (Some doy) ->
                   too_wide year = false /\
                   env_writable env (band_path output_dir year region_name doy) = true) ->
  exists w',
    for_each idxs
      (save_band env mosaic out_meta (Some labels) output_dir year region_name crs) w
      = (Ret tt, w') /\
    w_written w' = w_written w ++
      band_outputs mosaic labels output_dir year region_name
        (band_profile mosaic crs (dict_at w out_meta)) idxs /\
    band_profile mosaic crs (dict_at w' out_meta)
      = band_profile mosaic crs (dict_at w out_meta) /\
    (w_written w' = w_written w -> w_dicts w' = w_dicts w) /\
    w_open w' = w_open w /\ w_dirs w' = w_dirs w.
Proof.
  revert w; induction idxs as [|i idxs IH]; intros w Hall Hwr.
  - exists w. simpl. rewrite app_nil_r. repeat split; reflexivity.
  - destruct (Hall i (or_introl eq_refl)) as (s & data & o & Hl & Hb & Hx).
    assert (Hall' : forall j, In j idxs ->
              exists s data o, labels !! j = Some (Some s) /\
                               nd_bands mosaic !! j = Some data /\
                               extract_doy_from_band_name (Some s) = Ret o)
      by (intros j Hj; apply Hall; now right).
    assert (Hwr' : forall j s doy, In j idxs -> labels !! j = Some (Some s) ->
              extract_doy_from_band_name (Some s) = Ret (Some doy) ->
              too_wide year = false /\
              env_writable env (band_path output_dir year region_name doy) = true)
      by (intros j s' doy' Hj; apply Hwr; now right).
    unfold band_outputs. cbn [flat_map]. unfold band_output at 1. rewrite Hl, Hb, Hx.
    destruct o as [doy|].
    + destruct (Hwr i s doy (or_introl eq_refl) Hl Hx) as [Hy Hwi].
      pose proof (save_band_write env mosaic out_meta labels output_dir year region_name crs
                    i s doy data w Hl Hx Hy Hb Hwi) as S.
      destruct (IH (saved mosaic out_meta crs w
                      (band_path output_dir year region_name doy) data) Hall' Hwr')
        as (w' & Hrun & Hw & Hp & Hd & Ho & Hdir).
      rewrite saved_profile_again in Hw, Hp. rewrite saved_written in Hw.
      exists w'. split; [now rewrite (for_each_cons _ _ _ _ _ S) |].
      split; [rewrite Hw, <- app_assoc; reflexivity |].
      split; [exact Hp |]. split; [| split; assumption].
      intros Heq. exfalso. rewrite Hw, <- app_assoc in Heq.
      apply (f_equal length) in Heq. rewrite !length_app in Heq. simpl in Heq. lia.
    + destruct (save_band_skip env mosaic out_meta labels output_dir year region_name crs
                  i s w Hl Hx) as [line S].
      destruct (IH (skipped w line) Hall' Hwr') as (w' & Hrun & Hw & Hp & Hd & Ho & Hdir).
      exists w'. split; [now rewrite (for_each_cons _ _ _ _ _ S) |].
      repeat split; assumption.
Qed.

(** the same, for labels of at most [int_max_str_digits] characters and a
    year that prints *)
Lemma for_each_save_band_short (idxs : list nat) (w : World) :
  too_wide year = false ->
  (forall i, In i idxs ->
             (i < length (nd_bands mosaic))%nat /\
             exists s, labels !! i = Some (Some s) /\
                       Z.of_nat (String.length s) <= int_max_str_digits) ->
  (forall i s doy, In i idxs -> labels !! i = Some (Some s) ->
                   extract_doy_from_band_name (Some s) = Ret (Some doy) ->
                   env_writable env (band_path output_dir year region_name doy) = true) ->
  exists w',
    for_each idxs
      (save_band env mosaic out_meta (Some labels) output_dir year region_name crs) w
      = (Ret tt, w') /\
    w_written w' = w_written w ++
      band_outputs mosaic labels output_dir year region_name
        (band_profile mosaic crs (dict_at w out_meta)) idxs /\
    band_profile mosaic crs (dict_at w' out_meta)
      = band_profile mosaic crs (dict_at w out_meta) /\
    (w_written w' = w_written w -> w_dicts w' = w_dicts w) /\
    w_open w' = w_open w /\ w_dirs w' = w_dirs w.
Proof.
  intros Hy Hall Hwr. apply for_each_save_band_exact.
  - intros i Hi. destruct (Hall i Hi) as (Hlt & s & Hl & Hs).
    destruct (lookup_lt_is_Some_2 (nd_bands mosaic) i Hlt) as [d Hd].
    destruct (extract_doy_short s Hs) as [o Hx]. eauto 6.
  - intros i s doy Hi Hl Hx. split; [exact Hy | now apply (Hwr i s doy)].
Qed.

End BandLoop.

Lemma in_seq_0 (j n : nat) : In j (seq 0 n) <-> (j < n)%nat.
Proof. rewrite in_seq. lia. Qed.

Lemma band_outputs_app (mosaic : ndarray) (labels : list (option string))
    (output_dir : string) (year : Z) (region_name : string)
    (profile : gmap string value) (l1 l2 : list nat) :
  band_outputs mosaic labels output_dir year region_name profile (l1 ++ l2) =
  band_outputs mosaic labels output_dir year region_name profile l1 ++
  band_outputs mosaic labels output_dir year region_name profile l2.
Proof. unfold band_outputs. apply flat_map_app. Qed.

(** X6. When every band has a string label of at most
    [int_max_str_digits] characters, the year prints and every file the
    call is to write can be written, [process_and_save_bands] returns,
    leaves no handle open, and has written one file per band whose label
    carries a day-of-year, in band order, and no other file. *)
Theorem process_and_save_bands_writes_resolved_bands (env : Env) (mosaic : ndarray)
    (out_meta : nat) (labels : list (option string)) (output_dir : string)
    (year : Z) (region_name : string) (crs : value) (w : World) :
  too_wide year = false ->
  (forall j, (j < length (nd_bands mosaic))%nat ->
             exists s, labels !! j = Some (Some s) /\
                       Z.of_nat (String.length s) <= int_max_str_digits) ->
  (forall j s doy, (j < length (nd_bands mosaic))%nat -> labels !! j = Some (Some s) ->
                   extract_doy_from_band_name (Some s) = Ret (Some doy) ->
                   env_writable env (band_path output_dir year region_name doy) = true) ->
  exists w',
    process_and_save_bands env mosaic out_meta (Some labels) output_dir year
      region_name crs w = (Ret tt, w') /\
    w_written w' = w_written w ++
      band_outputs mosaic labels output_dir year region_name
        (band_profile mosaic crs (dict_at w out_meta))
        (seq 0 (length (nd_bands mosaic))) /\
    w_open w' = w_open w.
Proof.
  intros Hy Hlab Hwr.
  destruct (for_each_save_band_short env mosaic out_meta labels output_dir year
              region_name crs (seq 0 (length (nd_bands mosaic))) w Hy)
    as (w' & Hrun & Hw & _ & _ & Ho & _).
  - intros j Hj. apply in_seq_0 in Hj. split; [exact Hj | exact (Hlab j Hj)].
  - intros j s doy Hj. apply in_seq_0 in Hj. now apply Hwr.
  - exists w'. repeat split; assumption.
Qed.

Lemma process_and_save_bands_writes_resolved_bands_witness :
  exists w',
    process_and_save_bands all_writable two_bands 0%nat
      (Some [Some "quality_flag"; Some "Syn_VI_fitted045"]) "out" 2020 "R" DEFAULT_CRS
      empty_world = (Ret tt, w') /\
    w_written w' = w_written empty_world ++
      band_outputs two_bands [Some "quality_flag"; Some "Syn_VI_fitted045"] "out" 2020 "R"
        (band_profile two_bands DEFAULT_CRS (dict_at empty_world 0%nat))
        (seq 0 (length (nd_bands two_bands))) /\
    w_open w' = w_open empty_world.
Proof.
  apply (process_and_save_bands_writes_resolved_bands all_writable two_bands 0%nat
           [Some "quality_flag"; Some "Syn_VI_fitted045"] "out" 2020 "R" DEFAULT_CRS
           empty_world).
  - reflexivity.
  - intros j Hj. destruct j as [|[|j]]; [short_label | short_label |].
    simpl in Hj. lia.
  - intros j s doy _ _ _. reflexivity.
Defined.

Lemma band_outputs_unresolved (mosaic : ndarray) (labels : list (option string))
    (output_dir : string) (year : Z) (region_name : string)
    (profile : gmap string value) (idxs : list nat) :
  (forall j, In j idxs ->
             exists s, labels !! j = Some (Some s) /\
                       extract_doy_from_band_name (Some s) = Ret None) ->
  band_outputs mosaic labels output_dir year region_name profile idxs = [].
Proof.
  induction idxs as [|i idxs IH]; intros H; [reflexivity |].
  unfold band_outputs in *. cbn [flat_map]. rewrite IH by (intros j Hj; apply H; now right).
  destruct (H i (or_introl eq_refl)) as (s & Hl & Hx).
  unfold band_output. rewrite Hl, Hx. now destruct (nd_bands mosaic !! i).
Qed.

(** X7. When no band label carries a day-of-year (all are strings the
    parser does not resolve), [process_and_save_bands] returns, writes no
    file and leaves every dict as it was: the caller's metadata is only
    touched on the way to a write. *)
Theorem process_and_save_bands_writes_nothing (env : Env) (mosaic : ndarray)
    (out_meta : nat) (labels : list (option string)) (output_dir : string)
    (year : Z) (region_name : string) (crs : value) (w : World) :
  (forall j, (j < length (nd_bands mosaic))%nat ->
             exists s, labels !! j = Some (Some s) /\
                       extract_doy_from_band_name (Some s) = Ret None) ->
  exists w',
    process_and_save_bands env mosaic out_meta (Some labels) output_dir year
      region_name crs w = (Ret tt, w') /\
    w_written w' = w_written w /\ w_dicts w' = w_dicts w /\ w_open w' = w_open w.
Proof.
  intros Hlab.
  destruct (for_each_save_band_exact env mosaic out_meta labels output_dir year
              region_name crs (seq 0 (length (nd_bands mosaic))) w)
    as (w' & Hrun & Hw & _ & Hd & Ho & _).
  - intros j Hj. apply in_seq_0 in Hj. destruct (Hlab j Hj) as (s & Hs & Hx).
    destruct (lookup_lt_is_Some_2 (nd_bands mosaic) j Hj) as [d Hd]. eauto 6.
  - intros j s doy Hj Hl Hx. apply in_seq_0 in Hj.
    destruct (Hlab j Hj) as (s' & Hs' & Hx'). congruence.
  - rewrite band_outputs_unresolved, app_nil_r in Hw.
    + exists w'. repeat split; try assumption. now apply Hd.
    + intros j Hj. apply in_seq_0 in Hj. exact (Hlab j Hj).
Qed.

Lemma process_and_save_bands_writes_nothing_witness :
  exists w',
    process_and_save_bands all_writable two_bands 0%nat
      (Some [Some "quality_flag"; Some "Syn_VI_fitted"]) "out" 2020 "R" DEFAULT_CRS
      world_with_meta = (Ret tt, w') /\
    w_written w' = w_written world_with_meta /\
    w_dicts w' = w_dicts world_with_meta /\ w_open w' = w_open world_with_meta.
Proof.
  apply (process_and_save_bands_writes_nothing all_writable two_bands 0%nat
           [Some "quality_flag"; Some "Syn_VI_fitted"] "out" 2020 "R" DEFAULT_CRS
           world_with_meta).
  intros j Hj. destruct j as [|[|j]].
  - eexists. split; reflexivity.
  - eexists. split; reflexivity.
  - simpl in Hj. lia.
Defined.

Section BandLoopStops.

Variable env : Env.
Variables (mosaic : ndarray) (out_meta : nat) (labels : list (option string)).
Variables (output_dir : string) (year : Z) (region_name : string) (crs : value).
Variables (k : nat) (w : World).

Hypothesis k_in_range : (k < length (nd_bands mosaic))%nat.
Hypothesis year_prints : too_wide year = false.
Hypothesis earlier_labelled :
  forall j, (j < k)%nat ->
            exists s, labels !! j = Some (Some s) /\
                      Z.of_nat (String.length s) <= int_max_str_digits.
Hypothesis earlier_writable :
  forall j s doy, (j < k)%nat -> labels !! j = Some (Some s) ->
                  extract_doy_from_band_name (Some s) = Ret (Some doy) ->
                  env_writable env (band_path output_dir year region_name doy) = true.

(** the bands before band [k] are processed as usual *)
Lemma bands_before :
  exists w1,
    for_each (seq 0 k)
      (save_band env mosaic out_meta (Some labels) output_dir year region_name crs) w
      = (Ret tt, w1) /\
    w_written w1 = w_written w ++
      band_outputs mosaic labels output_dir year region_name
        (band_profile mosaic crs (dict_at w out_meta)) (seq 0 k) /\
    band_profile mosaic crs (dict_at w1 out_meta)
      = band_profile mosaic crs (dict_at w out_meta).
Proof.
  destruct (for_each_save_band_short env mosaic out_meta labels output_dir year
              region_name crs (seq 0 k) w year_prints) as (w1 & Hrun & Hw & Hp & _).
  - intros j Hj. apply in_seq_0 in Hj. split; [lia | exact (earlier_labelled j Hj)].
  - intros j s doy Hj. apply in_seq_0 in Hj. now apply earlier_writable.
  - exists w1. repeat split; assumption.
Qed.

Lemma stops_at_band (e : exn) (after : World -> World) :
  (forall w1, save_band env mosaic out_meta (Some labels) output_dir year region_name
                crs k w1 = (Raise e, after w1)) ->
  exists w1,
    process_and_save_bands env mosaic out_meta (Some labels) output_dir year
      region_name crs w = (Raise e, after w1) /\
    w_written w1 = w_written w ++
      band_outputs mosaic labels output_dir year region_name
        (band_profile mosaic crs (dict_at w out_meta)) (seq 0 k) /\
    band_profile mosaic crs (dict_at w1 out_meta)
      = band_profile mosaic crs (dict_at w out_meta).
Proof.
  intros Hk. destruct bands_before as (w1 & Hrun & Hw & Hp).
  exists w1. split; [| split; assumption].
  unfold process_and_save_bands. rewrite (seq_split k _ k_in_range).
  exact (for_each_stops _ _ _ _ _ _ _ _ Hrun (Hk w1)).
Qed.

End BandLoopStops.

(** X8. A file that cannot be created stops [process_and_save_bands] with
    the exception of the open.  The files of the bands before it (bands
    with string labels of at most [int_max_str_digits] characters, under a
    year that prints) stay written: nothing is rolled back.  The caller's
    metadata already holds the band profile, the update being made before
    the open. *)
Theorem process_and_save_bands_write_fails (env : Env) (mosaic : ndarray)
    (out_meta : nat) (labels : list (option string)) (output_dir : string)
    (year : Z) (region_name : string) (crs : value) (k : nat) (w : World)
    (s : string) (doy : Z) :
  (k < length (nd_bands mosaic))%nat ->
  too_wide year = false ->
  (forall j, (j < k)%nat ->
             exists s, labels !! j = Some (Some s) /\
                       Z.of_nat (String.length s) <= int_max_str_digits) ->
  (forall j s doy, (j < k)%nat -> labels !! j = Some (Some s) ->
                   extract_doy_from_band_name (Some s) = Ret (Some doy) ->
                   env_writable env (band_path output_dir year region_name doy) = true) ->
  labels !! k = Some (Some s) ->
  extract_doy_from_band_name (Some s) = Ret (Some doy) ->
  env_writable env (band_path output_dir year region_name doy) = false ->
  exists w',
    process_and_save_bands env mosaic out_meta (Some labels) output_dir year
      region_name crs w
      = (Raise (RasterioIOError (band_path output_dir year region_name doy)), w') /\
    w_written w' = w_written w ++
      band_outputs mosaic labels output_dir year region_name
        (band_profile mosaic crs (dict_at w out_meta)) (seq 0 k) /\
    w_dicts w' !! out_meta = Some (band_profile mosaic crs (dict_at w out_meta)).
Proof.
  intros Hk Hy Hlab Hwr Hl Hx Hw.
  destruct (lookup_lt_is_Some_2 (nd_bands mosaic) k Hk) as [data Hb].
  destruct (stops_at_band env mosaic out_meta labels output_dir year region_name crs
              k w Hk Hy Hlab Hwr _ (profiled mosaic out_meta crs)
              (fun w1 => save_band_unwritable env mosaic out_meta labels output_dir year
                           region_name crs k s doy data w1 Hl Hx Hy Hb Hw))
    as (w1 & Hrun & Hw1 & Hp).
  exists (profiled mosaic out_meta crs w1). split; [exact Hrun |].
  split; [exact Hw1 |].
  unfold profiled, set_dict. cbn [w_dicts]. now rewrite lookup_insert_eq, Hp.
Qed.

Lemma process_and_save_bands_write_fails_witness :
  exists w',
    process_and_save_bands only_first_writable two_bands 0%nat
      (Some [Some "Syn_VI_fitted001"; Some "Syn_VI_fitted045"]) "out" 2020 "R"
      DEFAULT_CRS empty_world
      = (Raise (RasterioIOError (band_path "out" 2020 "R" 45)), w') /\
    w_written w' = w_written empty_world ++
      band_outputs two_bands [Some "Syn_VI_fitted001"; Some "Syn_VI_fitted045"]
        "out" 2020 "R" (band_profile two_bands DEFAULT_CRS (dict_at empty_world 0%nat))
        (seq 0 1) /\
    w_dicts w' !! 0%nat = Some (band_profile two_bands DEFAULT_CRS (dict_at empty_world 0%nat)).
Proof.
  apply (process_and_save_bands_write_fails only_first_writable two_bands 0%nat
           [Some "Syn_VI_fitted001"; Some "Syn_VI_fitted045"] "out" 2020 "R" DEFAULT_CRS
           1%nat empty_world "Syn_VI_fitted045" 45).
  - simpl. lia.
  - reflexivity.
  - intros j Hj. destruct j; [short_label | lia].
  - intros j s doy Hj Hl Hx. destruct j; [| lia].
    injection Hl as <-. vm_compute in Hx. injection Hx as <-. reflexivity.
  - reflexivity.
  - reflexivity.
  - reflexivity.
Defined.

(** X9. A band without description ([None] in the tuple of labels) stops
    [process_and_save_bands] with [TypeError]: the band is not skipped.  The
    bands before it (bands with string labels of at most
    [int_max_str_digits] characters, under a year that prints) were
    written; it and the bands after it are not. *)
Theorem process_and_save_bands_missing_description (env : Env) (mosaic : ndarray)
    (out_meta : nat) (labels : list (option string)) (output_dir : string)
    (year : Z) (region_name : string) (crs : value) (k : nat) (w : World) :
  (k < length (nd_bands mosaic))%nat ->
  too_wide year = false ->
  (forall j, (j < k)%nat ->
             exists s, labels !! j = Some (Some s) /\
                       Z.of_nat (String.length s) <= int_max_str_digits) ->
  (forall j s doy, (j < k)%nat -> labels !! j = Some (Some s) ->
                   extract_doy_from_band_name (Some s) = Ret (Some doy) ->
                   env_writable env (band_path output_dir year region_name doy) = true) ->
  labels !! k = Some None ->
  exists w',
    process_and_save_bands env mosaic out_meta (Some labels) output_dir year
      region_name crs w = (Raise TypeError, w') /\
    w_written w' = w_written w ++
      band_outputs mosaic labels output_dir year region_name
        (band_profile mosaic crs (dict_at w out_meta)) (seq 0 k).
Proof.
  intros Hk Hy Hlab Hwr Hl.
  destruct (stops_at_band env mosaic out_meta labels output_dir year region_name crs
              k w Hk Hy Hlab Hwr _ (fun w1 => w1)
              (fun w1 => save_band_none_label env mosaic out_meta labels output_dir year
                           region_name crs k w1 Hl))
    as (w1 & Hrun & Hw1 & _).
  exists w1. split; assumption.
Qed.

Lemma process_and_save_bands_missing_description_witness :
  exists w',
    process_and_save_bands all_writable two_bands 0%nat
      (Some [Some "Syn_VI_fitted001"; None]) "out" 2020 "R" DEFAULT_CRS empty_world
      = (Raise TypeError, w') /\
    w_written w' = w_written empty_world ++
      band_outputs two_bands [Some "Syn_VI_fitted001"; None] "out" 2020 "R"
        (band_profile two_bands DEFAULT_CRS (dict_at empty_world 0%nat)) (seq 0 1).
Proof.
  apply (process_and_save_bands_missing_description all_writable two_bands 0%nat
           [Some "Syn_VI_fitted001"; None] "out" 2020 "R" DEFAULT_CRS 1%nat empty_world).
  - simpl. lia.
  - reflexivity.
  - intros j Hj. destruct j; [short_label | lia].
  - intros j s doy _ _ _. reflexivity.
  - reflexivity.
Defined.

(** X10. When the tuple of labels is shorter than the band count,
    [process_and_save_bands] raises [IndexError] at the first band without a
    label, after writing the bands before it (the labels being strings of
    at most [int_max_str_digits] characters and the year one that
    prints). *)
Theorem process_and_save_bands_too_few_labels (env : Env) (mosaic : ndarray)
    (out_meta : nat) (labels : list (option string)) (output_dir : string)
    (year : Z) (region_name : string) (crs : value) (w : World) :
  (length labels < length (nd_bands mosaic))%nat ->
  too_wide year = false ->
  (forall j, (j < length labels)%nat ->
             exists s, labels !! j = Some (Some s) /\
                       Z.of_nat (String.length s) <= int_max_str_digits) ->
  (forall j s doy, (j < length labels)%nat -> labels !! j = Some (Some s) ->
                   extract_doy_from_band_name (Some s) = Ret (Some doy) ->
                   env_writable env (band_path output_dir year region_name doy) = true) ->
  exists w',
    process_and_save_bands env mosaic out_meta (Some labels) output_dir year
      region_name crs w = (Raise IndexError, w') /\
    w_written w' = w_written w ++
      band_outputs mosaic labels output_dir year region_name
        (band_profile mosaic crs (dict_at w out_meta)) (seq 0 (length labels)).
Proof.
  intros Hk Hy Hlab Hwr.
  assert (Hl : labels !! length labels = None) by (apply lookup_ge_None; lia).
  destruct (stops_at_band env mosaic out_meta labels output_dir year region_name crs
              (length labels) w Hk Hy Hlab Hwr _ (fun w1 => w1)
              (fun w1 => save_band_no_label env mosaic out_meta labels output_dir year
                           region_name crs (length labels) w1 Hl))
    as (w1 & Hrun & Hw1 & _).
  exists w1. split; assumption.
Qed.

Lemma process_and_save_bands_too_few_labels_witness :
  exists w',
    process_and_save_bands all_writable two_bands 0%nat
      (Some [Some "Syn_VI_fitted001"]) "out" 2020 "R" DEFAULT_CRS empty_world
      = (Raise IndexError, w') /\
    w_written w' = w_written empty_world ++
      band_outputs two_bands [Some "Syn_VI_fitted001"] "out" 2020 "R"
        (band_profile two_bands DEFAULT_CRS (dict_at empty_world 0%nat))
        (seq 0 (length [Some "Syn_VI_fitted001"])).
Proof.
  apply (process_and_save_bands_too_few_labels all_writable two_bands 0%nat
           [Some "Syn_VI_fitted001"] "out" 2020 "R" DEFAULT_CRS empty_world).
  - simpl. lia.
  - reflexivity.
  - intros j Hj. destruct j; [short_label | simpl in Hj; lia].
  - intros j s doy _ _ _. reflexivity.
Defined.

(** ** What [process_and_save_bands] leaves alone *)

Section BandFrame.

Variable env : Env.
Variables (mosaic : ndarray) (out_meta : nat) (bd : option (list (option string))).
Variables (output_dir : string) (year : Z) (region_name : string) (crs : value).

Lemma untouched_refl (w : World) : untouched out_meta w w.
Proof.
  repeat split; try reflexivity. exists []. now rewrite app_nil_r.
Qed.

Lemma untouched_trans (w w1 w2 : World) :
  untouched out_meta w w1 -> untouched out_meta w1 w2 -> untouched out_meta w w2.
Proof.
  intros (Ho & Hd & Hm & a1 & Hw) (Ho' & Hd' & Hm' & a2 & Hw').
  repeat split; try congruence.
  - intros addr Ha. now rewrite Hm', Hm.
  - exists (a1 ++ a2). now rewrite Hw', Hw, app_assoc.
Qed.

Lemma save_band_untouched (i : nat) (w : World) :
  untouched out_meta w (snd (save_band env mosaic out_meta bd output_dir year region_name crs i w)).
Proof.
  unfold save_band, bind, subscript, lift, band_slice.
  destruct bd as [l|]; [| apply untouched_refl].
  destruct (l !! i) as [lab|]; [| apply untouched_refl]. unfold ret.
  destruct (extract_doy_from_band_name lab) as [[doy|]|e]; [| | apply untouched_refl].
  - unfold check_str_digits, raise.
    destruct (too_wide year); [apply untouched_refl |].
    destruct (too_wide doy); [apply untouched_refl |].
    unfold ret.
    destruct (nd_bands mosaic !! i) as [data|]; [| apply untouched_refl].
    unfold dict_update, dict_items, rio_write. cbn [fst snd].
    cbn [w_dicts w_open w_opened w_written w_dirs w_stdout set_dict].
    destruct (env_writable env _); unfold untouched; cbn.
    + repeat split; try reflexivity.
      * intros addr Ha. now rewrite lookup_insert_ne.
      * eexists. reflexivity.
    + repeat split; try reflexivity.
      * intros addr Ha. now rewrite lookup_insert_ne.
      * exists []. now rewrite app_nil_r.
  - unfold untouched. cbn. repeat split; try reflexivity. exists []. now rewrite app_nil_r.
Qed.

Lemma for_each_save_band_untouched (idxs : list nat) (w : World) :
  untouched out_meta w
    (snd (for_each idxs
            (save_band env mosaic out_meta bd output_dir year region_name crs) w)).
Proof.
  revert w; induction idxs as [|i idxs IH]; intros w; [apply untouched_refl |].
  simpl. unfold bind.
  pose proof (save_band_untouched i w) as S.
  destruct (save_band env mosaic out_meta bd output_dir year region_name crs i w)
    as [[[]|e] w1]; [| exact S].
  exact (untouched_trans _ _ _ S (IH w1)).
Qed.

End BandFrame.

(** X11. Whatever its outcome, a return or any exception,
    [process_and_save_bands] leaves the open handles and the directories as
    they were, changes no dict but the caller's metadata, and only adds to
    the files written. *)
Theorem process_and_save_bands_frame (env : Env) (mosaic : ndarray) (out_meta : nat)
    (bd : option (list (option string))) (output_dir : string) (year : Z)
    (region_name : string) (crs : value) (w : World) :
  let w' := snd (process_and_save_bands env mosaic out_meta bd output_dir year
                   region_name crs w) in
  w_open w' = w_open w /\ w_dirs w' = w_dirs w /\
  (forall addr, addr <> out_meta -> w_dicts w' !! addr = w_dicts w !! addr) /\
  (exists added, w_written w' = w_written w ++ added).
Proof.
  exact (for_each_save_band_untouched env mosaic out_meta bd output_dir year region_name
           crs (seq 0 (length (nd_bands mosaic))) w).
Qed.

(** ** File names *)

(** X12. The band file of a day of the year is named by the output
    directory, a slash unless the directory is empty or ends in one, and
    [NDVI_<region>_<year>_<doy>.tif] with the day filled with zeros to three
    digits.  Two days of the year never share a file: bands overwrite each
    other only when they resolve to the same day. *)
Theorem band_path_distinct_days (output_dir : string) (year : Z) (region_name : string)
    (a b : Z) :
  0 <= a -> 0 <= b ->
  band_path output_dir year region_name a
    = (if String.eqb output_dir "" || endswith output_dir "/"
       then output_dir else output_dir +:+ "/")
      +:+ "NDVI_" +:+ region_name +:+ "_" +:+ py_str year +:+ "_"
      +:+ (zeros (3 - String.length (py_str a)) +:+ py_str a) +:+ ".tif" /\
  (band_path output_dir year region_name a = band_path output_dir year region_name b
   <-> a = b).
Proof.
  intros Ha Hb. split.
  - rewrite band_path_eq. unfold band_file_name.
    now rewrite (proj1 (fmt_03d_nonneg a Ha)).
  - split; [now apply band_path_inj | now intros ->].
Qed.

Lemma band_path_distinct_days_witness :
  band_path "out" 2020 "R" 1 = "out/NDVI_R_2020_001.tif" /\
  (band_path "out" 2020 "R" 1 = band_path "out" 2020 "R" 45 <-> 1 = 45).
Proof.
  apply (band_path_distinct_days "out" 2020 "R" 1 45); lia.
Defined.

(** ** Bands that share a day of the year *)

Lemma extract_doy_nonneg (s : string) (doy : Z) :
  extract_doy_from_band_name (Some s) = Ret (Some doy) -> 0 <= doy.
Proof. intros H. apply extract_doy_range in H. lia. Qed.

Lemma file_at_band_outputs_none (mosaic : ndarray) (labels : list (option string))
    (output_dir : string) (year : Z) (region_name : string)
    (profile : gmap string value) (idxs : list nat) (doy : Z) :
  0 <= doy ->
  (forall i s, In i idxs -> labels !! i = Some (Some s) ->
               extract_doy_from_band_name (Some s) <> Ret (Some doy)) ->
  file_at (band_outputs mosaic labels output_dir year region_name profile idxs)
          (band_path output_dir year region_name doy) = None.
Proof.
  intros Hdoy. induction idxs as [|i idxs IH]; intros H; [reflexivity |].
  unfold band_outputs in *. cbn [flat_map]. rewrite file_at_app.
  rewrite IH by (intros j s Hj; apply H; now right).
  unfold band_output.
  destruct (labels !! i) as [[s|]|] eqn:Hl; try reflexivity.
  destruct (nd_bands mosaic !! i) as [data|]; [| reflexivity].
  destruct (extract_doy_from_band_name (Some s)) as [[d|]|e] eqn:Hx; try reflexivity.
  cbn [file_at].
  destruct (String.eqb_spec (band_path output_dir year region_name d)
                            (band_path output_dir year region_name doy)) as [E|_];
    [| reflexivity].
  exfalso. apply (H i s (or_introl eq_refl) Hl).
  apply band_path_inj in E; [congruence | now apply (extract_doy_nonneg s) | exact Hdoy].
Qed.

(** X13. Two bands that resolve to the same day-of-year are written to the
    same path without any error, and the later one overwrites the earlier:
    after the call (on string labels of at most [int_max_str_digits]
    characters, a year that prints and writable files) the file of a day
    holds the data of the last band that resolves to that day. *)
Theorem process_and_save_bands_last_band_wins (env : Env) (mosaic : ndarray)
    (out_meta : nat) (labels : list (option string)) (output_dir : string)
    (year : Z) (region_name : string) (crs : value) (w : World)
    (j : nat) (s : string) (doy : Z) (data : band) :
  too_wide year = false ->
  (forall i, (i < length (nd_bands mosaic))%nat ->
             exists s, labels !! i = Some (Some s) /\
                       Z.of_nat (String.length s) <= int_max_str_digits) ->
  (forall i s doy, (i < length (nd_bands mosaic))%nat -> labels !! i = Some (Some s) ->
                   extract_doy_from_band_name (Some s) = Ret (Some doy) ->
                   env_writable env (band_path output_dir year region_name doy) = true) ->
  labels !! j = Some (Some s) ->
  extract_doy_from_band_name (Some s) = Ret (Some doy) ->
  nd_bands mosaic !! j = Some data ->
  (forall i s', (j < i)%nat -> labels !! i = Some (Some s') ->
                extract_doy_from_band_name (Some s') <> Ret (Some doy)) ->
  exists w',
    process_and_save_bands env mosaic out_meta (Some labels) output_dir year
      region_name crs w = (Ret tt, w') /\
    file_at (w_written w') (band_path output_dir year region_name doy)
      = Some {| rf_profile := band_profile mosaic crs (dict_at w out_meta);
                rf_band1 := data |}.
Proof.
  intros Hy Hlab Hwr Hl Hx Hb Hlast.
  assert (Hj : (j < length (nd_bands mosaic))%nat) by (now apply lookup_lt_Some in Hb).
  destruct (for_each_save_band_short env mosaic out_meta labels output_dir year
              region_name crs (seq 0 (length (nd_bands mosaic))) w Hy)
    as (w' & Hrun & Hw & _).
  - intros i Hi. apply in_seq_0 in Hi. split; [exact Hi | exact (Hlab i Hi)].
  - intros i s' doy' Hi. apply in_seq_0 in Hi. now apply Hwr.
  - exists w'. split; [exact Hrun |].
    rewrite Hw, (seq_split j _ Hj), band_outputs_app.
    rewrite !file_at_app.
    change (j :: seq (S j) (length (nd_bands mosaic) - S j))
      with ([j] ++ seq (S j) (length (nd_bands mosaic) - S j)).
    rewrite band_outputs_app, file_at_app.
    rewrite file_at_band_outputs_none.
    + unfold band_outputs, band_output. cbn [flat_map]. rewrite Hl, Hb, Hx.
      cbn [app file_at]. now rewrite String.eqb_refl.
    + now apply (extract_doy_nonneg s).
    + intros i s' Hi. apply in_seq in Hi. apply Hlast. lia.
Qed.

Lemma process_and_save_bands_last_band_wins_witness :
  exists w',
    process_and_save_bands all_writable two_bands 0%nat
      (Some [Some "Syn_VI_fitted045"; Some "smooth_Syn_VI_fitted45"]) "out" 2020 "R"
      DEFAULT_CRS empty_world = (Ret tt, w') /\
    file_at (w_written w') (band_path "out" 2020 "R" 45)
      = Some {| rf_profile := band_profile two_bands DEFAULT_CRS (dict_at empty_world 0%nat);
                rf_band1 := [[30; 40]] |}.
Proof.
  apply (process_and_save_bands_last_band_wins all_writable two_bands 0%nat
           [Some "Syn_VI_fitted045"; Some "smooth_Syn_VI_fitted45"] "out" 2020 "R"
           DEFAULT_CRS empty_world 1%nat "smooth_Syn_VI_fitted45").
  - reflexivity.
  - intros i Hi. destruct i as [|[|i]]; [short_label | short_label |].
    simpl in Hi. lia.
  - intros i s doy _ _ _. reflexivity.
  - reflexivity.
  - reflexivity.
  - reflexivity.
  - intros i s' Hi Hl. destruct i as [|[|i]]; [lia | lia | discriminate Hl].
Defined.

(** ** The merger, as a whole *)

Lemma close_handles_app (hs l1 l2 : list nat) :
  close_handles hs (l1 ++ l2) = close_handles hs l1 ++ close_handles hs l2.
Proof.
  revert l1 l2; induction hs as [|h hs IH]; intros l1 l2; [reflexivity |].
  unfold close_handles in *. cbn [fold_left]. now rewrite filter_app, IH.
Qed.

Lemma filter_keeps_all (h : nat) (l : list nat) :
  h ∉ l -> filter (fun h' => h' ≠ h) l = l.
Proof.
  induction l as [|x l IH]; intros H; [reflexivity |].
  apply not_elem_of_cons in H as [Hx Hl].
  rewrite filter_cons_True by congruence. now rewrite IH.
Qed.

Lemma close_handles_keep (hs l : list nat) :
  (forall x, x ∈ l -> x ∉ hs) -> close_handles hs l = l.
Proof.
  revert l; induction hs as [|h hs IH]; intros l H; [reflexivity |].
  unfold close_handles in *. cbn [fold_left].
  rewrite filter_keeps_all.
  - apply IH. intros x Hx Hin. apply (H x Hx). now right.
  - intros Hin. apply (H h Hin). now left.
Qed.

Lemma close_handles_self (hs : list nat) : close_handles hs hs = [].
Proof.
  destruct (close_handles hs hs) as [|x l] eqn:E; [reflexivity |].
  exfalso. assert (Hx : x ∈ close_handles hs hs) by (rewrite E; now left).
  exact (close_handles_gone hs hs x (close_handles_sub _ _ _ Hx) Hx).
Qed.

(** the run of the merger when every tile opens and the mosaic succeeds *)
Lemma merge_tiff_files_run (env : Env) (p : string) (ps : list string) (d : dataset)
    (dss : list dataset) (mosaic : ndarray) (out_trans : value) (w : World) :
  env_open env p = Some d ->
  Forall2 (fun q ds => env_open env q = Some ds) ps dss ->
  env_merge env (d :: dss) = Some (mosaic, out_trans) ->
  merge_tiff_files env (p :: ps) w =
  (Ret (mosaic, fresh (dom (w_dicts w)), Some (ds_descriptions d)),
   closed (set_dict (fresh (dom (w_dicts w))) (<["transform" := out_trans]> (ds_meta d))
             (opened w (S (length ps))))
          (seq (w_opened w) (S (length ps)))).
Proof.
  intros Hp Hps Hm.
  assert (Hall : Forall2 (fun q ds => env_open env q = Some ds) (p :: ps) (d :: dss))
    by now constructor.
  unfold merge_tiff_files. change (length (p :: ps) =? 0)%nat with false. cbv iota.
  unfold bind at 1. rewrite (open_tiles_ok _ _ _ [] None w Hall).
  cbn [app first_labels number_from].
  unfold bind at 1, rio_merge. cbn [map snd]. rewrite map_snd_number_from, Hm.
  unfold ret at 1. unfold bind at 1. unfold ret at 1.
  unfold bind at 1, dict_new.
  unfold bind at 1, dict_update. unfold bind at 1. rewrite for_each_close.
  unfold ret. cbn [map fst length]. rewrite map_fst_number_from.
  rewrite <- (Forall2_length _ _ _ Hps). f_equal.
  rewrite dict_at_set_dict. unfold closed, set_dict, opened, update_items.
  cbn [w_dicts w_open w_opened w_written w_dirs w_stdout fold_left fst snd].
  now rewrite insert_insert_eq.
Qed.

(** X14. When every tile opens and the mosaic operation succeeds, the
    merger closes exactly the handles it opened: in a world whose open
    handles were all handed out before, the open handles after the call are
    those before it, one handle was used per tile, and no file was
    written. *)
Theorem merge_tiff_files_closes_its_handles (env : Env) (p : string) (ps : list string)
    (d : dataset) (dss : list dataset) (mosaic : ndarray) (out_trans : value)
    (w : World) :
  handles_known w ->
  env_open env p = Some d ->
  Forall2 (fun q ds => env_open env q = Some ds) ps dss ->
  env_merge env (d :: dss) = Some (mosaic, out_trans) ->
  exists r w',
    merge_tiff_files env (p :: ps) w = (Ret r, w') /\
    w_open w' = w_open w /\
    w_opened w' = (w_opened w + length (p :: ps))%nat /\
    w_written w' = w_written w.
Proof.
  intros Hk Hp Hps Hm. eexists _, _.
  split; [exact (merge_tiff_files_run env p ps d dss mosaic out_trans w Hp Hps Hm) |].
  cbn [closed opened set_dict w_open w_opened w_written].
  split; [| split; reflexivity].
  rewrite close_handles_app, close_handles_self, app_nil_r.
  apply close_handles_keep. intros x Hx Hin.
  apply Hk in Hx. apply list_elem_of_In, in_seq in Hin. lia.
Qed.

Lemma merge_tiff_files_closes_its_handles_witness :
  exists r w',
    merge_tiff_files two_tiles ["a.tif"; "b.tif"] empty_world = (Ret r, w') /\
    w_open w' = w_open empty_world /\
    w_opened w' = (w_opened empty_world + length ["a.tif"; "b.tif"])%nat /\
    w_written w' = w_written empty_world.
Proof.
  apply (merge_tiff_files_closes_its_handles two_tiles "a.tif" ["b.tif"] tile_a [tile_b]
           two_bands (VObj 7) empty_world).
  - intros h Hh. inversion Hh.
  - reflexivity.
  - repeat constructor.
  - reflexivity.
Defined.

(** X15. The metadata the merger returns is a new dict object: its address
    was free before the call, it holds the first tile's metadata with the
    key [transform] set to the transform of the mosaic, and every dict that
    existed before is unchanged. *)
Theorem merge_tiff_files_returns_new_metadata (env : Env) (p : string)
    (ps : list string) (d : dataset) (dss : list dataset) (mosaic : ndarray)
    (out_trans : value) (w : World) :
  env_open env p = Some d ->
  Forall2 (fun q ds => env_open env q = Some ds) ps dss ->
  env_merge env (d :: dss) = Some (mosaic, out_trans) ->
  exists out_meta labels w' meta,
    merge_tiff_files env (p :: ps) w = (Ret (mosaic, out_meta, labels), w') /\
    w_dicts w !! out_meta = None /\
    w_dicts w' = <[out_meta := meta]> (w_dicts w) /\
    meta !! "transform" = Some out_trans /\
    (forall key, key <> "transform" -> meta !! key = ds_meta d !! key).
Proof.
  intros Hp Hps Hm. eexists _, _, _, _.
  split; [exact (merge_tiff_files_run env p ps d dss mosaic out_trans w Hp Hps Hm) |].
  split; [apply not_elem_of_dom, is_fresh |].
  split; [reflexivity |].
  split; [apply lookup_insert_eq |].
  intros key Hkey. now apply lookup_insert_ne.
Qed.

Lemma merge_tiff_files_returns_new_metadata_witness :
  exists out_meta labels w' meta,
    merge_tiff_files two_tiles ["a.tif"; "b.tif"] world_with_meta
      = (Ret (two_bands, out_meta, labels), w') /\
    w_dicts world_with_meta !! out_meta = None /\
    w_dicts w' = <[out_meta := meta]> (w_dicts world_with_meta) /\
    meta !! "transform" = Some (VObj 7) /\
    (forall key, key <> "transform" -> meta !! key = ds_meta tile_a !! key).
Proof.
  apply (merge_tiff_files_returns_new_metadata two_tiles "a.tif" ["b.tif"] tile_a [tile_b]
           two_bands (VObj 7) world_with_meta).
  - reflexivity.
  - repeat constructor.
  - reflexivity.
Defined.

(** X16. The merger opens the tiles in list order and stops at the first
    one that does not open: it raises the exception of that open, the tiles
    after it are never opened, no mosaic is computed, and no dict is made and
    no file written. *)
Theorem merge_tiff_files_stops_at_first_unreadable (env : Env) (files1 : list string)
    (dss : list dataset) (q : string) (files2 : list string) (w : World) :
  Forall2 (fun p d => env_open env p = Some d) files1 dss ->
  env_open env q = None ->
  exists w',
    merge_tiff_files env (files1 ++ q :: files2) w = (Raise (RasterioIOError q), w') /\
    w_opened w' = (w_opened w + length files1)%nat /\
    w_dicts w' = w_dicts w /\ w_written w' = w_written w.
Proof.
  intros H Hq. eexists.
  split; [exact (merge_tiff_files_open_fails env files1 dss q files2 w H Hq) |].
  repeat split.
Qed.

Lemma merge_tiff_files_stops_at_first_unreadable_witness :
  exists w',
    merge_tiff_files second_tile_unreadable (["a.tif"] ++ "b.tif" :: ["c.tif"]) empty_world
      = (Raise (RasterioIOError "b.tif"), w') /\
    w_opened w' = (w_opened empty_world + length ["a.tif"])%nat /\
    w_dicts w' = w_dicts empty_world /\ w_written w' = w_written empty_world.
Proof.
  apply (merge_tiff_files_stops_at_first_unreadable second_tile_unreadable ["a.tif"]
           [tile_a] "b.tif" ["c.tif"] empty_world).
  - repeat constructor.
  - reflexivity.
Defined.

(** ** One region and year, end to end *)

Lemma bind_ret_run {A B} (m : M A) (k : A -> M B) (w w1 : World) (a : A) :
  m w = (Ret a, w1) -> bind m k w = k a w1.
Proof. intros H. unfold bind. now rewrite H. Qed.

(** X17. [process_ndvi_for_region] on tiles that all open and merge, with
    string labels of at most [int_max_str_digits] characters on the first
    tile, a year that prints and writable output files: it returns, leaves
    no handle open, and has written one file per band that the first
    tile's labels resolve, in band order.  Every file carries the transform
    of the mosaic, the supplied CRS, dtype int16, count 1 and driver
    GTiff. *)
Theorem process_ndvi_for_region_writes_bands (env : Env) (region_name : string)
    (year : Z) (p : string) (ps : list string) (output_dir : string) (crs : value)
    (d : dataset) (dss : list dataset) (mosaic : ndarray) (out_trans : value)
    (w : World) :
  handles_known w ->
  env_open env p = Some d ->
  Forall2 (fun q ds => env_open env q = Some ds) ps dss ->
  env_merge env (d :: dss) = Some (mosaic, out_trans) ->
  too_wide year = false ->
  (forall j, (j < length (nd_bands mosaic))%nat ->
             exists s, ds_descriptions d !! j = Some (Some s) /\
                       Z.of_nat (String.length s) <= int_max_str_digits) ->
  (forall j s doy, (j < length (nd_bands mosaic))%nat ->
                   ds_descriptions d !! j = Some (Some s) ->
                   extract_doy_from_band_name (Some s) = Ret (Some doy) ->
                   env_writable env (band_path output_dir year region_name doy) = true) ->
  exists w' profile,
    process_ndvi_for_region env region_name year (p :: ps) output_dir crs w
      = (Ret tt, w') /\
    w_written w' = w_written w ++
      band_outputs mosaic (ds_descriptions d) output_dir year region_name profile
        (seq 0 (length (nd_bands mosaic))) /\
    w_open w' = w_open w /\
    profile !! "transform" = Some out_trans /\
    profile !! "crs" = Some crs /\
    profile !! "dtype" = Some (VStr "int16") /\
    profile !! "count" = Some (VInt 1) /\
    profile !! "driver" = Some (VStr "GTiff").
Proof.
  intros Hk Hp Hps Hm Hy Hlab Hwr.
  set (line := "Merging " +:+ py_str (Z.of_nat (length (p :: ps))) +:+ " TIF files for "
               +:+ py_str year +:+ " in region: " +:+ region_name).
  set (w0 := skipped w line).
  set (addr := fresh (dom (w_dicts w0))).
  set (meta := <["transform" := out_trans]> (ds_meta d)).
  set (w1 := closed (set_dict addr meta (opened w0 (S (length ps))))
                    (seq (w_opened w0) (S (length ps)))).
  set (meta2 := update_items [("crs", crs); ("dtype", VStr "int16")] meta).
  set (w2 := set_dict addr meta2 w1).
  assert (Hd1 : dict_at w1 addr = meta).
  { unfold dict_at, w1, closed, set_dict. cbn [w_dicts]. now rewrite lookup_insert_eq. }
  assert (Hopen : w_open w2 = w_open w).
  { unfold w2, w1, closed, set_dict, opened. cbn [w_open w_opened].
    rewrite close_handles_app, close_handles_self, app_nil_r.
    apply close_handles_keep. intros x Hx Hin.
    change (w_open w0) with (w_open w) in Hx. change (w_opened w0) with (w_opened w) in Hin.
    apply Hk in Hx. apply list_elem_of_In, in_seq in Hin. lia. }
  destruct (for_each_save_band_short env mosaic addr (ds_descriptions d) output_dir year
              region_name crs (seq 0 (length (nd_bands mosaic))) w2 Hy)
    as (w3 & Hrun & Hw3 & _ & _ & Ho3 & _).
  { intros j Hj. apply in_seq_0 in Hj. split; [exact Hj | exact (Hlab j Hj)]. }
  { intros j s doy Hj. apply in_seq_0 in Hj. now apply Hwr. }
  eexists _, (band_profile mosaic crs meta2). split; [| split; [| split]].
  - unfold process_ndvi_for_region.
    etransitivity;
      [apply bind_ret_run with (a := tt) (w1 := w);
       unfold check_str_digits; now rewrite Hy |].
    cbv beta.
    etransitivity; [apply bind_ret_run with (a := tt) (w1 := w0); reflexivity |].
    cbv beta.
    etransitivity.
    { apply bind_ret_run with (a := (mosaic, addr, Some (ds_descriptions d))) (w1 := w1).
      exact (merge_tiff_files_run env p ps d dss mosaic out_trans w0 Hp Hps Hm). }
    cbv beta iota.
    etransitivity.
    { apply bind_ret_run with (a := tt) (w1 := w2).
      unfold dict_update. now rewrite Hd1. }
    cbv beta.
    etransitivity; [apply bind_ret_run with (a := tt) (w1 := w3); exact Hrun |].
    reflexivity.
  - cbn [print snd w_written]. rewrite Hw3.
    unfold w2 at 2. rewrite dict_at_set_dict. reflexivity.
  - cbn [print snd w_open]. now rewrite Ho3, Hopen.
  - pose proof (band_profile_fields mosaic crs meta2) as F.
    split; [| tauto].
    rewrite band_profile_other by reflexivity.
    unfold meta2. rewrite lookup_update_items. cbn. apply lookup_insert_eq.
Qed.

Lemma process_ndvi_for_region_writes_bands_witness :
  exists w' profile,
    process_ndvi_for_region two_tiles "R" 2020 ("a.tif" :: ["b.tif"]) "out" DEFAULT_CRS
      empty_world = (Ret tt, w') /\
    w_written w' = w_written empty_world ++
      band_outputs two_bands (ds_descriptions tile_a) "out" 2020 "R" profile
        (seq 0 (length (nd_bands two_bands))) /\
    w_open w' = w_open empty_world /\
    profile !! "transform" = Some (VObj 7) /\
    profile !! "crs" = Some DEFAULT_CRS /\
    profile !! "dtype" = Some (VStr "int16") /\
    profile !! "count" = Some (VInt 1) /\
    profile !! "driver" = Some (VStr "GTiff").
Proof.
  apply (process_ndvi_for_region_writes_bands two_tiles "R" 2020 "a.tif" ["b.tif"] "out"
           DEFAULT_CRS tile_a [tile_b] two_bands (VObj 7) empty_world).
  - intros h Hh. inversion Hh.
  - reflexivity.
  - repeat constructor.
  - reflexivity.
  - reflexivity.
  - intros j Hj. destruct j as [|[|j]]; [short_label | short_label |].
    simpl in Hj. lia.
  - intros j s doy _ _ _. reflexivity.
Defined.

(** ** The orchestrator *)

Lemma group_by_year_nothing (region_path : string) (listing : list string)
    (acc : list (Z * list string)) :
  (forall f, In f listing ->
             endswith f ".tif" = false \/ extract_year_from_filename f = Ret None) ->
  group_by_year region_path listing acc = Ret acc.
Proof.
  induction listing as [|f rest IH]; intros H; [reflexivity |].
  simpl. rewrite IH by (intros g Hg; apply H; now right).
  destruct (H f (or_introl eq_refl)) as [-> | Hx]; [reflexivity |].
  rewrite Hx. now destruct (endswith f ".tif").
Qed.

(** X18. [process_region] on a region that is no directory, or whose
    directory holds no name that ends in [.tif] and carries a year: it
    returns without error, makes no output directory, opens no tile and
    writes no file. *)
Theorem process_region_without_tiles (env : Env)
    (base_input_dir base_output_dir region_name : string) (w : World) :
  env_isdir env (path_join base_input_dir [region_name]) = false \/
  (forall f, In f (env_listdir env (path_join base_input_dir [region_name])) ->
             endswith f ".tif" = false \/ extract_year_from_filename f = Ret None) ->
  exists w',
    process_region env base_input_dir base_output_dir region_name w = (Ret tt, w') /\
    w_dirs w' = w_dirs w /\ w_written w' = w_written w /\
    w_opened w' = w_opened w /\ w_open w' = w_open w /\ w_dicts w' = w_dicts w.
Proof.
  intros H. unfold process_region.
  destruct (env_isdir env (path_join base_input_dir [region_name])); cbn [negb].
  - destruct H as [H | H]; [discriminate H |].
    unfold bind, print, lift. rewrite (group_by_year_nothing _ _ [] H).
    eexists. split; [reflexivity |]. repeat split.
  - exists w. repeat split.
Qed.

Lemma process_region_without_tiles_witness :
  (exists w',
      process_region all_writable "in" "out" "R" empty_world = (Ret tt, w') /\
      w_dirs w' = w_dirs empty_world /\ w_written w' = w_written empty_world /\
      w_opened w' = w_opened empty_world /\ w_open w' = w_open empty_world /\
      w_dicts w' = w_dicts empty_world) /\
  (exists w',
      process_region no_tiles_dir "in" "out" "R" empty_world = (Ret tt, w') /\
      w_dirs w' = w_dirs empty_world /\ w_written w' = w_written empty_world /\
      w_opened w' = w_opened empty_world /\ w_open w' = w_open empty_world /\
      w_dicts w' = w_dicts empty_world).
Proof.
  split.
  - apply (process_region_without_tiles all_writable "in" "out" "R" empty_world).
    left. reflexivity.
  - apply (process_region_without_tiles no_tiles_dir "in" "out" "R" empty_world).
    right. intros f [<- | [<- | []]]; left; reflexivity.
Defined.

Lemma bind_raise_run {A B} (m : M A) (k : A -> M B) (w w1 : World) (e : exn) :
  m w = (Raise e, w1) -> bind m k w = (Raise e, w1).
Proof. intros H. unfold bind. now rewrite H. Qed.

Lemma group_by_year_head (region_path : string) (listing : list string)
    (y : Z) (paths : list string) (acc g : list (Z * list string)) :
  group_by_year region_path listing ((y, paths) :: acc) = Ret g ->
  exists more others, g = (y, paths ++ more) :: others.
Proof.
  revert paths acc; induction listing as [|f rest IH]; intros paths acc H.
  - simpl in H. injection H as <-. exists [], acc. now rewrite app_nil_r.
  - simpl in H. destruct (endswith f ".tif"); [| exact (IH _ _ H)].
    destruct (extract_year_from_filename f) as [[n|]|e]; [| exact (IH _ _ H) | discriminate H].
    simpl in H. destruct (negb (n =? 0)); [| exact (IH _ _ H)].
    destruct (y =? n).
    + destruct (IH _ _ H) as (more & others & ->).
      exists (path_join region_path [f] :: more), others. now rewrite <- app_assoc.
    + exact (IH _ _ H).
Qed.

(** the first name of the listing is a tile with a year other than 0: its
    year is the first group, and a year that prints *)
Lemma first_group (env : Env) (base_input_dir region_name filename : string)
    (rest : list string) (year : Z) :
  let region_path := path_join base_input_dir [region_name] in
  env_listdir env region_path = filename :: rest ->
  endswith filename ".tif" = true ->
  extract_year_from_filename filename = Ret (Some year) ->
  year <> 0 ->
  exists more others,
    group_by_year region_path (env_listdir env region_path) []
      = Ret ((year, [path_join region_path [filename]] ++ more) :: others) /\
    too_wide year = false.
Proof.
  intros region_path Hls Hend Hx Hy.
  destruct (group_by_year_spec region_path rest
              [(year, [path_join region_path [filename]])]) as (g & Hg & _).
  destruct (group_by_year_head _ _ _ _ _ _ Hg) as (more & others & ->).
  exists more, others. split.
  - rewrite Hls. simpl. rewrite Hend, Hx. simpl.
    destruct (Z.eqb_spec year 0); [contradiction | exact Hg].
  - destruct (extract_year_range filename) as [H | (n & Hn & H)];
      rewrite H in Hx; [discriminate Hx |].
    injection Hx as <-. now apply too_wide_small.
Qed.

(** X20. A failure inside one year is not caught by [process_region].  When
    the first name of the listing is a tile with a year, the output
    directory of that year can be made and that tile does not open,
    [process_region] raises the exception of the open: the output
    directory of that year has been made and is left empty, and no other
    year of the region is processed. *)
Theorem process_region_stops_at_unreadable_tile (env : Env)
    (base_input_dir base_output_dir region_name : string) (w : World)
    (filename : string) (rest : list string) (year : Z) :
  let region_path := path_join base_input_dir [region_name] in
  env_isdir env region_path = true ->
  env_listdir env region_path = filename :: rest ->
  endswith filename ".tif" = true ->
  extract_year_from_filename filename = Ret (Some year) ->
  year <> 0 ->
  env_makedirs env (path_join base_output_dir [region_name; "preprocessed"; py_str year])
    = None ->
  env_open env (path_join region_path [filename]) = None ->
  exists w',
    process_region env base_input_dir base_output_dir region_name w
      = (Raise (RasterioIOError (path_join region_path [filename])), w') /\
    w_dirs w' = w_dirs w ++
      [path_join base_output_dir [region_name; "preprocessed"; py_str year]] /\
    w_written w' = w_written w /\ w_opened w' = w_opened w.
Proof.
  intros region_path Hdir Hls Hend Hx Hy Hmk Hopen.
  destruct (first_group env base_input_dir region_name filename rest year
              Hls Hend Hx Hy) as (more & others & Hgroup & Hwide).
  fold region_path in Hgroup.
  unfold process_region. fold region_path. rewrite Hdir, Hgroup. cbn [negb].
  eexists. split.
  - etransitivity; [apply bind_ret_run with (a := tt); reflexivity |]. cbv beta.
    etransitivity; [apply bind_ret_run; reflexivity |]. cbv beta.
    cbn [for_each].
    apply bind_raise_run.
    etransitivity;
      [apply bind_ret_run with (a := tt); unfold check_str_digits; now rewrite Hwide |].
    cbv beta.
    etransitivity; [apply bind_ret_run with (a := tt); reflexivity |]. cbv beta zeta.
    etransitivity;
      [apply bind_ret_run with (a := tt); unfold makedirs; now rewrite Hmk |].
    cbv beta.
    unfold process_ndvi_for_region.
    etransitivity;
      [apply bind_ret_run with (a := tt); unfold check_str_digits; now rewrite Hwide |].
    cbv beta.
    etransitivity; [apply bind_ret_run with (a := tt); reflexivity |]. cbv beta.
    apply bind_raise_run.
    exact (merge_tiff_files_open_fails env [] [] (path_join region_path [filename]) more _
             (List.Forall2_nil _) Hopen).
  - cbn. rewrite Nat.add_0_r. repeat split.
Qed.

Lemma process_region_stops_at_unreadable_tile_witness :
  exists w',
    process_region unreadable_tiles "in" "out" "R" empty_world
      = (Raise (RasterioIOError (path_join (path_join "in" ["R"]) ["t_2020.tif"])), w') /\
    w_dirs w' = w_dirs empty_world ++
      [path_join "out" ["R"; "preprocessed"; py_str 2020]] /\
    w_written w' = w_written empty_world /\ w_opened w' = w_opened empty_world.
Proof.
  apply (process_region_stops_at_unreadable_tile unreadable_tiles "in" "out" "R"
           empty_world "t_2020.tif" ["t_2021.tif"] 2020); try reflexivity.
  discriminate.
Defined.

(** X21. A failure of [os.makedirs] is not caught either.  When the first
    name of the listing is a tile with a year and the output directory of
    that year cannot be made, [process_region] raises the exception of
    [os.makedirs], whatever it is: no tile has been opened, and nothing is
    merged or written. *)
Theorem process_region_makedirs_fails (env : Env)
    (base_input_dir base_output_dir region_name : string) (w : World)
    (filename : string) (rest : list string) (year : Z) (e : exn) :
  let region_path := path_join base_input_dir [region_name] in
  env_isdir env region_path = true ->
  env_listdir env region_path = filename :: rest ->
  endswith filename ".tif" = true ->
  extract_year_from_filename filename = Ret (Some year) ->
  year <> 0 ->
  env_makedirs env (path_join base_output_dir [region_name; "preprocessed"; py_str year])
    = Some e ->
  exists w',
    process_region env base_input_dir base_output_dir region_name w = (Raise e, w') /\
    w_dirs w' = w_dirs w /\ w_written w' = w_written w /\
    w_opened w' = w_opened w /\ w_open w' = w_open w /\ w_dicts w' = w_dicts w.
Proof.
  intros region_path Hdir Hls Hend Hx Hy Hmk.
  destruct (first_group env base_input_dir region_name filename rest year
              Hls Hend Hx Hy) as (more & others & Hgroup & Hwide).
  fold region_path in Hgroup.
  unfold process_region. fold region_path. rewrite Hdir, Hgroup. cbn [negb].
  eexists. split.
  - etransitivity; [apply bind_ret_run with (a := tt); reflexivity |]. cbv beta.
    etransitivity; [apply bind_ret_run; reflexivity |]. cbv beta.
    cbn [for_each].
    apply bind_raise_run.
    etransitivity;
      [apply bind_ret_run with (a := tt); unfold check_str_digits; now rewrite Hwide |].
    cbv beta.
    etransitivity; [apply bind_ret_run with (a := tt); reflexivity |]. cbv beta zeta.
    apply bind_raise_run. unfold makedirs. now rewrite Hmk.
  - cbn. repeat split.
Qed.

Lemma process_region_makedirs_fails_witness :
  exists w',
    process_region read_only_output "in" "out" "R" empty_world
      = (Raise (OSError "out/R/preprocessed/2020"), w') /\
    w_dirs w' = w_dirs empty_world /\ w_written w' = w_written empty_world /\
    w_opened w' = w_opened empty_world /\ w_open w' = w_open empty_world /\
    w_dicts w' = w_dicts empty_world.
Proof.
  apply (process_region_makedirs_fails read_only_output "in" "out" "R"
           empty_world "t_2020.tif" ["t_2021.tif"] 2020 (OSError "out/R/preprocessed/2020"));
    try reflexivity.
  discriminate.
Defined.

(** ** The region list *)

(** The regions the notebook selects are the entries of the input root
    that are directories, in listing order.  The selection agrees with the
    guard of [process_region]: on an entry the selection drops,
    [process_region] returns at once and changes nothing. *)
Theorem target_regions_agree_with_guard (env : Env)
    (base_input_dir base_output_dir folder_name : string) (w : World) :
  In folder_name (env_listdir env base_input_dir) ->
  (In folder_name (target_regions env base_input_dir) <->
   env_isdir env (path_join base_input_dir [folder_name]) = true) /\
  (~ In folder_name (target_regions env base_input_dir) ->
   process_region env base_input_dir base_output_dir folder_name w = (Ret tt, w)).
Proof.
  intros Hin. unfold target_regions. rewrite filter_In. split; [tauto |].
  intros Hnot. unfold process_region.
  destruct (env_isdir env (path_join base_input_dir [folder_name])); [| reflexivity].
  exfalso. apply Hnot. now split.
Qed.

Lemma target_regions_agree_with_guard_witness :
  (In "readme.txt" (target_regions regions_and_files "in") <->
   env_isdir regions_and_files (path_join "in" ["readme.txt"]) = true) /\
  (~ In "readme.txt" (target_regions regions_and_files "in") ->
   process_region regions_and_files "in" "out" "readme.txt" empty_world
     = (Ret tt, empty_world)).
Proof.
  apply (target_regions_agree_with_guard regions_and_files "in" "out" "readme.txt"
           empty_world).
  right. left. reflexivity.
Defined.
